(** * hpa-exporter: the polling exporter and its four program variants

    The repository holds four generations of one [package main]:
    - [src/main.go]            CPU-only exporter over the autoscaling/v1 API;
    - [src/unnamed/part_002]   adds the annotation-carried metrics and
                               conditions, published set-only;
    - [src/unnamed/part_003]   adds the per-name label cache and the
                               delete-before-set relabeling;
    - [src/unnamed/part_004]   autoscaling/v2beta1 API, full reset per tick.

    Each variant is embedded in a module of its own below ([Main], [Part002],
    [Part003], [Part004]); the Go runtime, the Kubernetes API types and the
    Prometheus gauge vectors they share come first. *)

From Stdlib Require Import ZArith Ascii Uint63 PrimFloat SpecFloat FloatOps Lia.
From stdpp Require Import base gmap strings list.

Local Open Scope string_scope.
Local Open Scope list_scope.
Local Open Scope Z_scope.

(** ** Go runtime: numeric conversions, errors, panics *)

Module Go.

(** An [error] value is observed only through nil-ness and its text. *)
Definition error : Type := string.

(** [float64(x)] for an integer [x]: IEEE-754 binary64, round to nearest
    even.  Exact whenever [|x| <= 2^53], hence for every int32. *)
Definition float64 (x : Z) : float :=
  SF2Prim (binary_normalize 53 1024 x 0 false).

(** Result of running a piece of Go code: a value, or a run-time panic
    (nil pointer dereference).  No variant installs a [recover]. *)
Inductive res (A : Type) : Type :=
  | Val (a : A)
  | Panicked.
Arguments Val {A} a.
Arguments Panicked {A}.

(** State-and-panic monad: the state reached is kept when the code panics. *)
Definition M (S A : Type) : Type := S -> res A * S.

Definition ret {S A} (a : A) : M S A := fun s => (Val a, s).
Definition bind {S A B} (m : M S A) (f : A -> M S B) : M S B :=
  fun s => match m s with
           | (Val a, s') => f a s'
           | (Panicked, s') => (Panicked, s')
           end.
Definition panic {S A} : M S A := fun s => (Panicked, s).
Definition modify {S} (f : S -> S) : M S unit := fun s => (Val tt, f s).

(** [for _, x := range xs { body x }] *)
Fixpoint range {S A} (xs : list A) (body : A -> M S unit) : M S unit :=
  match xs with
  | [] => ret tt
  | x :: xs' => bind (body x) (fun _ => range xs' body)
  end.

(** [*p] for a pointer [p]. *)
Definition deref {S A} (p : option A) : M S A :=
  match p with
  | Some a => ret a
  | None => panic
  end.

(** [*p] in code that does not touch the state. *)
Definition deref_res {A} (p : option A) : res A :=
  match p with
  | Some a => Val a
  | None => Panicked
  end.

End Go.

#[global] Instance go_ret {S} : MRet (Go.M S) := fun A a => Go.ret a.
#[global] Instance go_bind {S} : MBind (Go.M S) := fun A B f m => Go.bind m f.

#[global] Instance res_ret : MRet Go.res := fun A a => Go.Val a.
#[global] Instance res_bind : MBind Go.res := fun A B f m =>
  match m with
  | Go.Val a => f a
  | Go.Panicked => Go.Panicked
  end.

(** A computation that does not touch the state, run inside [Go.M]. *)
Definition lift {S A} (r : Go.res A) : Go.M S A := fun s => (r, s).

(** ** Kubernetes API objects (client library types, as the variants read them) *)

Module meta_v1.
Record ObjectMeta := {
    Name : string;
    Namespace : string;
    Annotations : gmap string string
  }.
  (** [metav1.Time], observed only through [Unix()]. *)
Record Time := { Unix : Z }.
End meta_v1.

Module resource.
(** [resource.Quantity], observed only through [MilliValue()]. *)
Record Quantity := { MilliValue : Z }.
End resource.

Record CrossVersionObjectReference := {
  Kind : string;
  Name : string;
  APIVersion : string
}.

(** Response of [HorizontalPodAutoscalers("").List(ListOptions{})]: the
    pointer to the list object ([None] is a nil pointer, [Some items] a list
    object with that [Items] field) and the error. *)
Record ListResponse (H : Type) := {
  out : option (list H);
  err : option Go.error
}.
Arguments out {H} _.
Arguments err {H} _.

Module as_v1.
Record HorizontalPodAutoscalerSpec := {
    ScaleTargetRef : CrossVersionObjectReference;
    MinReplicas : option Z;
    MaxReplicas : Z;
    TargetCPUUtilizationPercentage : option Z
  }.
Record HorizontalPodAutoscalerStatus := {
    LastScaleTime : option meta_v1.Time;
    CurrentReplicas : Z;
    DesiredReplicas : Z;
    CurrentCPUUtilizationPercentage : option Z
  }.
Record HorizontalPodAutoscaler := {
    ObjectMeta : meta_v1.ObjectMeta;
    Spec : HorizontalPodAutoscalerSpec;
    Status : HorizontalPodAutoscalerStatus
  }.
End as_v1.

Module as_v2.
Module ObjectMetricSource.
Record t := {
    Target : CrossVersionObjectReference;
    MetricName : string;
    TargetValue : resource.Quantity
  }.
End ObjectMetricSource.
Module PodsMetricSource.
Record t := { MetricName : string; TargetAverageValue : resource.Quantity }.
End PodsMetricSource.
Module ResourceMetricSource.
Record t := {
    Name : string;
    TargetAverageUtilization : option Z;
    TargetAverageValue : option resource.Quantity
  }.
End ResourceMetricSource.
Module ExternalMetricSource.
Record t := {
    MetricName : string;
    TargetValue : option resource.Quantity;
    TargetAverageValue : option resource.Quantity
  }.
End ExternalMetricSource.
Module MetricSpec.
Record t := {
    Type_ : string;
    Object : option ObjectMetricSource.t;
    Pods : option PodsMetricSource.t;
    Resource : option ResourceMetricSource.t;
    External : option ExternalMetricSource.t
  }.
End MetricSpec.

Module ObjectMetricStatus.
Record t := {
    Target : CrossVersionObjectReference;
    MetricName : string;
    CurrentValue : resource.Quantity
  }.
End ObjectMetricStatus.
Module PodsMetricStatus.
Record t := { MetricName : string; CurrentAverageValue : resource.Quantity }.
End PodsMetricStatus.
Module ResourceMetricStatus.
Record t := {
    Name : string;
    CurrentAverageUtilization : option Z;
    CurrentAverageValue : resource.Quantity
  }.
End ResourceMetricStatus.
Module ExternalMetricStatus.
Record t := {
    MetricName : string;
    CurrentValue : resource.Quantity;
    CurrentAverageValue : option resource.Quantity
  }.
End ExternalMetricStatus.
Module MetricStatus.
Record t := {
    Type_ : string;
    Object : option ObjectMetricStatus.t;
    Pods : option PodsMetricStatus.t;
    Resource : option ResourceMetricStatus.t;
    External : option ExternalMetricStatus.t
  }.
End MetricStatus.

Definition ObjectMetricSourceType : string := "Object".
Definition PodsMetricSourceType : string := "Pods".
Definition ResourceMetricSourceType : string := "Resource".
Definition ExternalMetricSourceType : string := "External".

Definition ScalingActive : string := "ScalingActive".
Definition AbleToScale : string := "AbleToScale".
Definition ScalingLimited : string := "ScalingLimited".

Module Condition.
(** [HorizontalPodAutoscalerCondition]; [Status] is a [core_v1.ConditionStatus],
    a string type ([ConditionTrue], [ConditionFalse], [ConditionUnknown]). *)
Record t := {
    Type_ : string;
    Status : string;
    LastTransitionTime : meta_v1.Time;
    Reason : string;
    Message : string
  }.
End Condition.

Record HorizontalPodAutoscalerSpec := {
    ScaleTargetRef : CrossVersionObjectReference;
    MinReplicas : option Z;
    MaxReplicas : Z;
    Metrics : list MetricSpec.t
  }.
Record HorizontalPodAutoscalerStatus := {
    LastScaleTime : option meta_v1.Time;
    CurrentReplicas : Z;
    DesiredReplicas : Z;
    CurrentMetrics : list MetricStatus.t;
    Conditions : list Condition.t
  }.
Record HorizontalPodAutoscaler := {
    ObjectMeta : meta_v1.ObjectMeta;
    Spec : HorizontalPodAutoscalerSpec;
    Status : HorizontalPodAutoscalerStatus
  }.
End as_v2.

Module core_v1.
Definition ConditionTrue : string := "True".
Definition ConditionFalse : string := "False".
Definition ConditionUnknown : string := "Unknown".
End core_v1.

(** ** Prometheus gauge vectors and the process state *)

(** [prometheus.Labels] *)
Abbreviation Labels := (gmap string string).

(** What a poll goroutine does besides writing gauges. *)
Inductive Event : Type :=
| ListCall                    (* the List request of getHpaList *)
| LogError (e : Go.error)     (* log.Errorln(e) *)
| Sleep (seconds : Z).        (* time.Sleep(seconds * time.Second) *)

(** State of the metrics goroutine: every series of every gauge vector (a
    series is a collector and a label set), the goroutine's local label
    caches, and the events so far.  The ticks only build label sets that
    carry exactly a vector's declared label names, so [With] never fails;
    [Delete] of a label set that is not a series removes nothing. *)
Record State (R K : Type) := {
  registry : R;
  cache : K;
  events : list Event
}.
Arguments registry {R K} _.
Arguments cache {R K} _.
Arguments events {R K} _.

Section Gauges.
Context {C : Type} `{Countable C} {K : Type}.

Abbreviation St := (State (gmap (C * Labels) float) K).

(** [c.With(l).Set(v)] *)
Definition WithSet (c : C) (l : Labels) (v : float) : Go.M St unit :=
  Go.modify (fun s =>
    {| registry := <[(c, l) := v]> (registry s); cache := cache s; events := events s |}).

(** [_ = c.Delete(l)] *)
Definition Delete (c : C) (l : Labels) : Go.M St unit :=
  Go.modify (fun s =>
    {| registry := delete (c, l) (registry s); cache := cache s; events := events s |}).

(** [c.Reset()]: every series of the vector is dropped. *)
Definition ResetVec (c : C) : Go.M St unit :=
  Go.modify (fun s =>
    {| registry := filter (fun kv => kv.1.1 ≠ c) (registry s);
       cache := cache s; events := events s |}).

(** Read and update the goroutine's local maps. *)
Definition readCache : Go.M St K := fun s => (Go.Val (cache s), s).
Definition writeCache (f : K -> K) : Go.M St unit :=
  Go.modify (fun s =>
    {| registry := registry s; cache := f (cache s); events := events s |}).

Definition emit (e : Event) : Go.M St unit :=
  Go.modify (fun s =>
    {| registry := registry s; cache := cache s; events := events s ++ [e] |}).

(** The label sets a vector currently holds. *)
Definition seriesOf (c : C) (r : gmap (C * Labels) float) : gset Labels :=
  set_map snd (filter (fun k => k.1 = c) (dom r)).

(** The series of a vector that belong to one autoscaler, told by their
    [hpa_name] and [hpa_namespace] labels. *)
Definition hpaSeries (c : C) (namespace name : string)
    (r : gmap (C * Labels) float) : gset Labels :=
  filter (fun l => l !! "hpa_name" = Some name /\ l !! "hpa_namespace" = Some namespace)
         (seriesOf c r).

(** Vocabulary of the statements about published values: the series of
    vector [c] under [label] holds [float64(v)]; for an optional field, it
    holds the field when there is one and is otherwise left as it was in the
    registry [r0] the code started from. *)
Definition published (r : gmap (C * Labels) float) (c : C) (label : Labels)
    (v : Z) : Prop :=
  r !! (c, label) = Some (Go.float64 v).

Definition publishedIf (r0 r : gmap (C * Labels) float) (c : C)
    (label : Labels) (field : option Z) : Prop :=
  match field with
  | Some v => published r c label v
  | None => r !! (c, label) = r0 !! (c, label)
  end.

(** Code that leaves every series outside the vectors [P] admits as it is. *)
Definition writesOnly {A} (P : C -> Prop) (m : Go.M St A) : Prop :=
  forall s key, ~ P key.1 -> registry (m s).2 !! key = registry s !! key.

(** Two states that differ at most in the events recorded so far. *)
Definition sameData (s1 s2 : St) : Prop :=
  registry s1 = registry s2 /\ cache s1 = cache s2.

(** Code whose result, registry and caches do not depend on those events. *)
Definition dataOnly {A} (m : Go.M St A) : Prop :=
  forall s1 s2, sameData s1 s2 ->
    (m s1).1 = (m s2).1 /\ sameData (m s1).2 (m s2).2.

(** [getHpaList] / [getHpaListV2], the same two lines in every variant:
    [out, err := ...List(...); return out.Items, err]. *)
Definition getHpaList {H : Type} (resp : ListResponse H)
  : Go.M St (list H * option Go.error) :=
  emit ListCall;;
  items ← Go.deref (out resp);
  mret (items, err resp).

End Gauges.

(** [mergeLabels m1 m2]: the entries of [m1], overwritten by those of [m2]. *)
Definition mergeLabels (m1 m2 : Labels) : Labels := m2 ∪ m1.

(** ** src/main.go: CPU-only exporter over autoscaling/v1 *)

Module Main.

Inductive Collector : Type :=
| hpaCurrentPodsNum
| hpaDesiredPodsNum
| hpaMinPodsNum
| hpaMaxPodsNum
| hpaCurrentCpuPercentage
| hpaTargetCpuPercentage
| hpaLastScaleSecond.

#[global] Instance Collector_eq_dec : EqDecision Collector.
Proof. solve_decision. Defined.

Definition Collector_code (c : Collector) : nat :=
  match c with
  | hpaCurrentPodsNum => 0 | hpaDesiredPodsNum => 1 | hpaMinPodsNum => 2
  | hpaMaxPodsNum => 3 | hpaCurrentCpuPercentage => 4
  | hpaTargetCpuPercentage => 5 | hpaLastScaleSecond => 6
  end%nat.

Definition Collector_of_code (n : nat) : option Collector :=
  match n with
  | 0 => Some hpaCurrentPodsNum | 1 => Some hpaDesiredPodsNum
  | 2 => Some hpaMinPodsNum | 3 => Some hpaMaxPodsNum
  | 4 => Some hpaCurrentCpuPercentage | 5 => Some hpaTargetCpuPercentage
  | 6 => Some hpaLastScaleSecond
  | _ => None
  end%nat.

#[global] Instance Collector_countable : Countable Collector.
Proof.
  refine (inj_countable Collector_code Collector_of_code _).
  intros c. destruct c; reflexivity.
Defined.

Abbreviation Registry := (gmap (Collector * Labels) float).
Abbreviation St := (State Registry unit).

Definition labelOf (a : as_v1.HorizontalPodAutoscaler) : Labels :=
  {[ "hpa_name" := meta_v1.Name (as_v1.ObjectMeta a);
     "hpa_namespace" := meta_v1.Namespace (as_v1.ObjectMeta a);
     "ref_kind" := Kind (as_v1.ScaleTargetRef (as_v1.Spec a));
     "ref_name" := Name (as_v1.ScaleTargetRef (as_v1.Spec a));
     "ref_apiversion" := APIVersion (as_v1.ScaleTargetRef (as_v1.Spec a)) ]}.

(** Body of [for _, a := range hpa].  The guard leaves the three pointers it
    tests non-nil; [a.Status.LastScaleTime] is dereferenced unguarded. *)
Definition publishHpa (a : as_v1.HorizontalPodAutoscaler) : Go.M St unit :=
  match as_v1.MinReplicas (as_v1.Spec a),
        as_v1.CurrentCPUUtilizationPercentage (as_v1.Status a),
        as_v1.TargetCPUUtilizationPercentage (as_v1.Spec a) with
  | Some minReplicas, Some currentCPU, Some targetCPU =>
      let label := labelOf a in
      WithSet hpaCurrentPodsNum label
        (Go.float64 (as_v1.CurrentReplicas (as_v1.Status a)));;
      WithSet hpaDesiredPodsNum label
        (Go.float64 (as_v1.DesiredReplicas (as_v1.Status a)));;
      WithSet hpaMinPodsNum label (Go.float64 minReplicas);;
      WithSet hpaMaxPodsNum label
        (Go.float64 (as_v1.MaxReplicas (as_v1.Spec a)));;
      WithSet hpaCurrentCpuPercentage label (Go.float64 currentCPU);;
      WithSet hpaTargetCpuPercentage label (Go.float64 targetCPU);;
      t ← Go.deref (as_v1.LastScaleTime (as_v1.Status a));
      WithSet hpaLastScaleSecond label (Go.float64 (meta_v1.Unix t))
  | _, _, _ => mret tt
  end.

(** One iteration of the goroutine's [for { ... }]; the [continue] on a fetch
    error leaves it before the [time.Sleep] that ends it. *)
Definition metricsIteration (interval : Z)
    (resp : ListResponse as_v1.HorizontalPodAutoscaler) : Go.M St unit :=
  '(hpa, err) ← getHpaList resp;
  match err with
  | Some e => emit (LogError e)
  | None =>
      Go.range hpa publishHpa;;
      emit (Sleep interval)
  end.

Definition metricsLoop (interval : Z)
    (resps : list (ListResponse as_v1.HorizontalPodAutoscaler)) : Go.M St unit :=
  Go.range resps (metricsIteration interval).

Definition initial : St :=
  {| registry := ∅; cache := tt; events := [] |}.

End Main.

(** ** What src/unnamed/part_002 and part_003 share, line for line *)

Module Anno.

Inductive Collector : Type :=
| hpaCurrentPodsNum
| hpaDesiredPodsNum
| hpaMinPodsNum
| hpaMaxPodsNum
| hpaCurrentCpuValue
| hpaCurrentCpuPercentage
| hpaTargetCpuPercentage
| hpaLastScaleSecond
| hpaAbleToScale
| hpaScalingActive
| hpaScalingLimited.

#[global] Instance Collector_eq_dec : EqDecision Collector.
Proof. solve_decision. Defined.

Definition Collector_code (c : Collector) : nat :=
  match c with
  | hpaCurrentPodsNum => 0 | hpaDesiredPodsNum => 1 | hpaMinPodsNum => 2
  | hpaMaxPodsNum => 3 | hpaCurrentCpuValue => 4
  | hpaCurrentCpuPercentage => 5 | hpaTargetCpuPercentage => 6
  | hpaLastScaleSecond => 7 | hpaAbleToScale => 8 | hpaScalingActive => 9
  | hpaScalingLimited => 10
  end%nat.

Definition Collector_of_code (n : nat) : option Collector :=
  match n with
  | 0 => Some hpaCurrentPodsNum | 1 => Some hpaDesiredPodsNum
  | 2 => Some hpaMinPodsNum | 3 => Some hpaMaxPodsNum
  | 4 => Some hpaCurrentCpuValue | 5 => Some hpaCurrentCpuPercentage
  | 6 => Some hpaTargetCpuPercentage | 7 => Some hpaLastScaleSecond
  | 8 => Some hpaAbleToScale | 9 => Some hpaScalingActive
  | 10 => Some hpaScalingLimited
  | _ => None
  end%nat.

#[global] Instance Collector_countable : Countable Collector.
Proof.
  refine (inj_countable Collector_code Collector_of_code _).
  intros c. destruct c; reflexivity.
Defined.

Abbreviation Registry := (gmap (Collector * Labels) float).

Record currentMetricsResource := {
  rName : string;
  CurrentAverageUtilization : Z;
  CurrentAverageValue : string
}.

Record currentMetrics := {
  mType : string;
  Resource : currentMetricsResource
}.

Record condition := {
  Type_ : string;
  Status : string;
  LastTransitionTime : meta_v1.Time;
  Reason : string;
  Message : string
}.

(** [strings.Trim(s, cutset)] for a one-byte ASCII cutset: the library trims
    that byte off the right end, then off the left end. *)
Fixpoint trimRightByte (s : string) (c : Ascii.ascii) : string :=
  match s with
  | EmptyString => EmptyString
  | String a s' =>
      match trimRightByte s' c with
      | EmptyString => if Ascii.eqb a c then EmptyString else String a EmptyString
      | r => String a r
      end
  end.

Fixpoint trimLeftByte (s : string) (c : Ascii.ascii) : string :=
  match s with
  | EmptyString => EmptyString
  | String a s' => if Ascii.eqb a c then trimLeftByte s' c else s
  end.

Definition Trim (s : string) (c : Ascii.ascii) : string :=
  trimLeftByte (trimRightByte s c) c.

(** [strconv.ParseInt(s, 10, 64)]: an optional sign and at least one decimal
    digit, nothing else; the value must fit an int64. *)
Definition digitOf (a : Ascii.ascii) : option Z :=
  let n := Z.of_N (Ascii.N_of_ascii a) in
  if (48 <=? n) && (n <=? 57) then Some (n - 48) else None.

Fixpoint parseDigits (s : string) (acc : Z) : option Z :=
  match s with
  | EmptyString => Some acc
  | String a s' =>
      match digitOf a with
      | Some d => parseDigits s' (acc * 10 + d)
      | None => None
      end
  end.

Definition ErrSyntax : Go.error := "strconv.ParseInt: invalid syntax".
Definition ErrRange : Go.error := "strconv.ParseInt: value out of range".

Definition ParseInt (s : string) : Go.error + Z :=
  match s with
  | EmptyString => inl ErrSyntax
  | String a rest =>
      let '(neg, body) :=
        if Ascii.eqb a "+"%char then (false, rest)
        else if Ascii.eqb a "-"%char then (true, rest)
        else (false, s) in
      match body with
      | EmptyString => inl ErrSyntax
      | _ =>
          match parseDigits body 0 with
          | None => inl ErrSyntax
          | Some un =>
              if neg then (if un <=? 2 ^ 63 then inr (- un) else inl ErrRange)
              else (if un <? 2 ^ 63 then inr un else inl ErrRange)
          end
      end
  end.

Section Exporter.
Context {K : Type}.
Abbreviation St := (State Registry K).

Definition currentAverageCpuValue (metrics : currentMetrics) : Go.M St Z :=
  let val := Trim (CurrentAverageValue (Resource metrics)) "m"%char in
  match ParseInt val with
  | inr i => mret i
  | inl e => emit (LogError e);; mret 0
  end.

Definition labelOf (a : as_v1.HorizontalPodAutoscaler) : Labels :=
  {[ "hpa_name" := meta_v1.Name (as_v1.ObjectMeta a);
     "hpa_namespace" := meta_v1.Namespace (as_v1.ObjectMeta a);
     "ref_kind" := Kind (as_v1.ScaleTargetRef (as_v1.Spec a));
     "ref_name" := Name (as_v1.ScaleTargetRef (as_v1.Spec a));
     "ref_apiversion" := APIVersion (as_v1.ScaleTargetRef (as_v1.Spec a)) ]}.

(** [a.ObjectMeta.Annotations[key]]: the empty string when the key is absent. *)
Definition annotation (a : as_v1.HorizontalPodAutoscaler) (key : string) : string :=
  default "" (meta_v1.Annotations (as_v1.ObjectMeta a) !! key).

(** [var cpuVal int; if len(metrics) != 0 { ... } else { cpuVal = 0 }] *)
Definition cpuValOf (metrics : list currentMetrics) : Go.M St Z :=
  match metrics with
  | m0 :: _ => currentAverageCpuValue m0
  | [] => mret 0
  end.

(** The eight base series, from [hpaCurrentPodsNum] to [hpaLastScaleSecond]. *)
Definition publishBase (label : Labels) (a : as_v1.HorizontalPodAutoscaler)
    (cpuVal : Z) : Go.M St unit :=
  WithSet hpaCurrentPodsNum label
    (Go.float64 (as_v1.CurrentReplicas (as_v1.Status a)));;
  WithSet hpaDesiredPodsNum label
    (Go.float64 (as_v1.DesiredReplicas (as_v1.Status a)));;
  match as_v1.MinReplicas (as_v1.Spec a) with
  | Some n => WithSet hpaMinPodsNum label (Go.float64 n)
  | None => mret tt
  end;;
  WithSet hpaMaxPodsNum label (Go.float64 (as_v1.MaxReplicas (as_v1.Spec a)));;
  WithSet hpaCurrentCpuValue label (Go.float64 cpuVal);;
  match as_v1.CurrentCPUUtilizationPercentage (as_v1.Status a) with
  | Some p => WithSet hpaCurrentCpuPercentage label (Go.float64 p)
  | None => mret tt
  end;;
  match as_v1.TargetCPUUtilizationPercentage (as_v1.Spec a) with
  | Some p => WithSet hpaTargetCpuPercentage label (Go.float64 p)
  | None => mret tt
  end;;
  match as_v1.LastScaleTime (as_v1.Status a) with
  | Some t => WithSet hpaLastScaleSecond label (Go.float64 (meta_v1.Unix t))
  | None => mret tt
  end.

End Exporter.

(** The vectors of the base series. *)
Definition baseCollector (c : Collector) : bool :=
  match c with
  | hpaAbleToScale | hpaScalingActive | hpaScalingLimited => false
  | _ => true
  end.

(** [json.Unmarshal] of the two annotations, an outside collaborator: the
    decoders stand for it at the two target types. *)
Record Json := {
  UnmarshalMetrics : string -> Go.error + list currentMetrics;
  UnmarshalConditions : string -> Go.error + list condition
}.

Definition metricsKey : string := "autoscaling.alpha.kubernetes.io/current-metrics".
Definition conditionsKey : string := "autoscaling.alpha.kubernetes.io/conditions".

(** Vocabulary of the statements: the error, if any, that makes the loop body
    of part_002 and part_003 give up on an autoscaler, the current-metrics
    annotation being decoded first. *)
Definition decodeError (json : Json) (a : as_v1.HorizontalPodAutoscaler)
  : option Go.error :=
  match UnmarshalMetrics json (annotation a metricsKey) with
  | inl e => Some e
  | inr _ =>
      match UnmarshalConditions json (annotation a conditionsKey) with
      | inl e => Some e
      | inr _ => None
      end
  end.

(** The three condition vectors, by the [case] of the switch that names them. *)
Inductive CondKind : Type := AbleToScale | ScalingActive | ScalingLimited.

#[global] Instance CondKind_eq_dec : EqDecision CondKind.
Proof. solve_decision. Defined.

Definition condKindOf (ty : string) : option CondKind :=
  if decide (ty = "AbleToScale") then Some AbleToScale
  else if decide (ty = "ScalingActive") then Some ScalingActive
  else if decide (ty = "ScalingLimited") then Some ScalingLimited
  else None.

Definition gaugeOf (k : CondKind) : Collector :=
  match k with
  | AbleToScale => hpaAbleToScale
  | ScalingActive => hpaScalingActive
  | ScalingLimited => hpaScalingLimited
  end.

End Anno.

(** ** src/unnamed/part_002: annotation-carried conditions, set-only *)

Module Part002.
Import Anno.

Abbreviation St := (State Registry unit).

(** Body of [for _, cond := range conditions]. *)
Definition publishCondition (label : Labels) (cond : condition) : Go.M St unit :=
  let annoLabel : Labels :=
    {[ "cond_status" := Status cond;
       "cond_reason" := Reason cond;
       "cond_message" := Message cond ]} in
  let statusReverse :=
    if decide (Status cond = "True") then "False" else "True" in
  let annoLabelRev : Labels :=
    {[ "cond_status" := statusReverse;
       "cond_reason" := "";
       "cond_message" := "" ]} in
  match condKindOf (Type_ cond) with
  | Some k =>
      WithSet (gaugeOf k) (mergeLabels label annoLabel) (Go.float64 1);;
      WithSet (gaugeOf k) (mergeLabels label annoLabelRev) (Go.float64 0)
  | None => mret tt
  end.

(** Body of [for _, a := range hpa]; each [continue] ends it early. *)
Definition publishHpa (json : Json) (a : as_v1.HorizontalPodAutoscaler)
  : Go.M St unit :=
  let label := labelOf a in
  let metrJsonStr := annotation a metricsKey in
  let condJsonStr := annotation a conditionsKey in
  match UnmarshalMetrics json metrJsonStr with
  | inl e => emit (LogError e)
  | inr metrics =>
      match UnmarshalConditions json condJsonStr with
      | inl e => emit (LogError e)
      | inr conditions =>
          cpuVal ← cpuValOf metrics;
          publishBase label a cpuVal;;
          Go.range conditions (publishCondition label)
      end
  end.

Definition metricsIteration (json : Json) (metricsInterval : Z)
    (resp : ListResponse as_v1.HorizontalPodAutoscaler) : Go.M St unit :=
  '(hpa, err) ← getHpaList resp;
  match err with
  | Some e => emit (LogError e)
  | None =>
      Go.range hpa (publishHpa json);;
      emit (Sleep metricsInterval)
  end.

Definition metricsLoop (json : Json) (metricsInterval : Z)
    (resps : list (ListResponse as_v1.HorizontalPodAutoscaler)) : Go.M St unit :=
  Go.range resps (metricsIteration json metricsInterval).

Definition initial : St :=
  {| registry := ∅; cache := tt; events := [] |}.

End Part002.

(** ** src/unnamed/part_003: per-name label cache, delete before set *)

Module Part003.
Import Anno.

(** The six maps the metrics goroutine declares before its loop, keyed by
    [a.ObjectMeta.Name]. *)
Record Caches := {
  annoLabelAbleToScale : gmap string Labels;
  annoLabelAbleToScaleRev : gmap string Labels;
  annoLabelScalingActive : gmap string Labels;
  annoLabelScalingActiveRev : gmap string Labels;
  annoLabelScalingLimited : gmap string Labels;
  annoLabelScalingLimitedRev : gmap string Labels
}.

Abbreviation St := (State Registry Caches).

Definition conditionStatusTrue : string := "True".
Definition conditionStatusFalse : string := "False".

Definition makeAnnotationCondLabels (cond : condition) : Labels * Labels :=
  let labelForward : Labels :=
    {[ "cond_status" := Status cond;
       "cond_reason" := Reason cond;
       "cond_message" := Message cond ]} in
  let statusReverse :=
    if decide (Status cond = conditionStatusTrue)
    then conditionStatusFalse
    else conditionStatusTrue in
  let labelReverse : Labels :=
    {[ "cond_status" := statusReverse;
       "cond_reason" := "";
       "cond_message" := "" ]} in
  (labelForward, labelReverse).

(** The map pair a [case] of the switch works on. *)
Definition annoLabel (k : CondKind) (c : Caches) : gmap string Labels :=
  match k with
  | AbleToScale => annoLabelAbleToScale c
  | ScalingActive => annoLabelScalingActive c
  | ScalingLimited => annoLabelScalingLimited c
  end.

Definition annoLabelRev (k : CondKind) (c : Caches) : gmap string Labels :=
  match k with
  | AbleToScale => annoLabelAbleToScaleRev c
  | ScalingActive => annoLabelScalingActiveRev c
  | ScalingLimited => annoLabelScalingLimitedRev c
  end.

(** [annoLabelX[name], annoLabelXRev[name] = fwd, rev] *)
Definition storeLabels (k : CondKind) (name : string) (fwd rev : Labels)
    (c : Caches) : Caches :=
  match k with
  | AbleToScale =>
      {| annoLabelAbleToScale := <[name := fwd]> (annoLabelAbleToScale c);
         annoLabelAbleToScaleRev := <[name := rev]> (annoLabelAbleToScaleRev c);
         annoLabelScalingActive := annoLabelScalingActive c;
         annoLabelScalingActiveRev := annoLabelScalingActiveRev c;
         annoLabelScalingLimited := annoLabelScalingLimited c;
         annoLabelScalingLimitedRev := annoLabelScalingLimitedRev c |}
  | ScalingActive =>
      {| annoLabelAbleToScale := annoLabelAbleToScale c;
         annoLabelAbleToScaleRev := annoLabelAbleToScaleRev c;
         annoLabelScalingActive := <[name := fwd]> (annoLabelScalingActive c);
         annoLabelScalingActiveRev := <[name := rev]> (annoLabelScalingActiveRev c);
         annoLabelScalingLimited := annoLabelScalingLimited c;
         annoLabelScalingLimitedRev := annoLabelScalingLimitedRev c |}
  | ScalingLimited =>
      {| annoLabelAbleToScale := annoLabelAbleToScale c;
         annoLabelAbleToScaleRev := annoLabelAbleToScaleRev c;
         annoLabelScalingActive := annoLabelScalingActive c;
         annoLabelScalingActiveRev := annoLabelScalingActiveRev c;
         annoLabelScalingLimited := <[name := fwd]> (annoLabelScalingLimited c);
         annoLabelScalingLimitedRev := <[name := rev]> (annoLabelScalingLimitedRev c) |}
  end.

(** [m[name]] on a map of label sets: the nil map when the key is absent. *)
Definition labelsAt (m : gmap string Labels) (name : string) : Labels :=
  default ∅ (m !! name).

(** One [case] of the switch on [cond.Type]; the three cases differ only in
    the vector and the map pair they name. *)
Definition relabel (k : CondKind) (label : Labels) (name : string)
    (cond : condition) : Go.M St unit :=
  c ← readCache;
  let oldLabel := labelsAt (annoLabel k c) name in
  let oldLabelRev := labelsAt (annoLabelRev k c) name in
  let '(fwd, rev) := makeAnnotationCondLabels cond in
  writeCache (storeLabels k name fwd rev);;
  Delete (gaugeOf k) (mergeLabels label oldLabel);;
  Delete (gaugeOf k) (mergeLabels label oldLabelRev);;
  c ← readCache;
  WithSet (gaugeOf k) (mergeLabels label (labelsAt (annoLabel k c) name))
    (Go.float64 1);;
  WithSet (gaugeOf k) (mergeLabels label (labelsAt (annoLabelRev k c) name))
    (Go.float64 0).

(** Body of [for _, cond := range conditions]. *)
Definition publishCondition (label : Labels) (name : string) (cond : condition)
  : Go.M St unit :=
  match condKindOf (Type_ cond) with
  | Some k => relabel k label name cond
  | None => mret tt
  end.

(** Body of [for _, a := range hpa]; each [continue] ends it early. *)
Definition publishHpa (json : Json) (a : as_v1.HorizontalPodAutoscaler)
  : Go.M St unit :=
  let label := labelOf a in
  let metrJsonStr := annotation a metricsKey in
  let condJsonStr := annotation a conditionsKey in
  match UnmarshalMetrics json metrJsonStr with
  | inl e => emit (LogError e)
  | inr metrics =>
      match UnmarshalConditions json condJsonStr with
      | inl e => emit (LogError e)
      | inr conditions =>
          cpuVal ← cpuValOf metrics;
          publishBase label a cpuVal;;
          let name := meta_v1.Name (as_v1.ObjectMeta a) in
          Go.range conditions (publishCondition label name)
      end
  end.

Definition metricsIteration (json : Json) (metricsInterval : Z)
    (resp : ListResponse as_v1.HorizontalPodAutoscaler) : Go.M St unit :=
  '(hpa, err) ← getHpaList resp;
  match err with
  | Some e => emit (LogError e)
  | None =>
      Go.range hpa (publishHpa json);;
      emit (Sleep metricsInterval)
  end.

Definition metricsLoop (json : Json) (metricsInterval : Z)
    (resps : list (ListResponse as_v1.HorizontalPodAutoscaler)) : Go.M St unit :=
  Go.range resps (metricsIteration json metricsInterval).

Definition noLabels : Caches :=
  {| annoLabelAbleToScale := ∅; annoLabelAbleToScaleRev := ∅;
     annoLabelScalingActive := ∅; annoLabelScalingActiveRev := ∅;
     annoLabelScalingLimited := ∅; annoLabelScalingLimitedRev := ∅ |}.

Definition initial : St :=
  {| registry := ∅; cache := noLabels; events := [] |}.

(** Vocabulary of the statements about the cache.  [labelled F hpa]: every
    autoscaler of the snapshot publishes under the base labels [F] gives its
    name.  [consistent F s]: the two maps of every condition type hold, for
    each name they know, the label pair of one condition, both series of that
    pair are in the vector at 1 and at 0, and the vector holds no other
    series. *)
Definition labelled (F : string -> Labels)
    (hpa : list as_v1.HorizontalPodAutoscaler) : Prop :=
  Forall (fun a => labelOf a = F (meta_v1.Name (as_v1.ObjectMeta a))) hpa.

Definition cachedPublished (F : string -> Labels) (s : St) : Prop :=
  forall (k : CondKind) (name : string),
    (annoLabel k (cache s) !! name = None /\
     annoLabelRev k (cache s) !! name = None) \/
    exists cond : condition,
      annoLabel k (cache s) !! name = Some (makeAnnotationCondLabels cond).1 /\
      annoLabelRev k (cache s) !! name = Some (makeAnnotationCondLabels cond).2 /\
      registry s !! (gaugeOf k, mergeLabels (F name) (makeAnnotationCondLabels cond).1)
      = Some (Go.float64 1) /\
      registry s !! (gaugeOf k, mergeLabels (F name) (makeAnnotationCondLabels cond).2)
      = Some (Go.float64 0).

Definition publishedCached (F : string -> Labels) (s : St) : Prop :=
  forall (k : CondKind) (l : Labels),
    is_Some (registry s !! (gaugeOf k, l)) ->
    exists (name : string) (cond : condition),
      annoLabel k (cache s) !! name = Some (makeAnnotationCondLabels cond).1 /\
      annoLabelRev k (cache s) !! name = Some (makeAnnotationCondLabels cond).2 /\
      (l = mergeLabels (F name) (makeAnnotationCondLabels cond).1 \/
       l = mergeLabels (F name) (makeAnnotationCondLabels cond).2).

Definition consistent (F : string -> Labels) (s : St) : Prop :=
  cachedPublished F s /\ publishedCached F s.

(** The state one [case] of the switch leaves. *)
Definition relabelled (k : CondKind) (label : Labels) (name : string)
    (cond : condition) (s : St) : St :=
  let oldLabel := labelsAt (annoLabel k (cache s)) name in
  let oldLabelRev := labelsAt (annoLabelRev k (cache s)) name in
  let '(fwd, rev) := makeAnnotationCondLabels cond in
  {| registry :=
       <[(gaugeOf k, mergeLabels label rev) := Go.float64 0]>
         (<[(gaugeOf k, mergeLabels label fwd) := Go.float64 1]>
            (delete (gaugeOf k, mergeLabels label oldLabelRev)
               (delete (gaugeOf k, mergeLabels label oldLabel) (registry s))));
     cache := storeLabels k name fwd rev (cache s);
     events := events s |}.

(** The last condition of a list that the switch sends to the case [k]. *)
Definition lastOfKind (k : CondKind) (conditions : list condition)
  : option condition :=
  last (filter (fun c => condKindOf (Type_ c) = Some k) conditions).

(** The last condition of type [k] the loop body sees for an autoscaler:
    none when an annotation does not decode. *)
Definition observed (json : Json) (a : as_v1.HorizontalPodAutoscaler)
    (k : CondKind) : option condition :=
  match UnmarshalMetrics json (annotation a metricsKey),
        UnmarshalConditions json (annotation a conditionsKey) with
  | inr _, inr conditions => lastOfKind k conditions
  | _, _ => None
  end.

(** The same over a snapshot, for the autoscalers of one name: the last one
    that shows a condition of type [k] decides. *)
Fixpoint observedIn (json : Json) (hpa : list as_v1.HorizontalPodAutoscaler)
    (k : CondKind) (name : string) : option condition :=
  match hpa with
  | [] => None
  | a :: rest =>
      match observedIn json rest k name with
      | Some c => Some c
      | None =>
          if decide (meta_v1.Name (as_v1.ObjectMeta a) = name)
          then observed json a k else None
      end
  end.

End Part003.

(** ** src/unnamed/part_004: autoscaling/v2beta1, full reset on every tick *)

Module Part004.

Inductive Collector : Type :=
| hpaCurrentPodsNum
| hpaDesiredPodsNum
| hpaMinPodsNum
| hpaMaxPodsNum
| hpaLastScaleSecond
| hpaCurrentMetricsValue
| hpaTargetMetricsValue
| hpaAbleToScale
| hpaScalingActive
| hpaScalingLimited.

#[global] Instance Collector_eq_dec : EqDecision Collector.
Proof. solve_decision. Defined.

Definition Collector_code (c : Collector) : nat :=
  match c with
  | hpaCurrentPodsNum => 0 | hpaDesiredPodsNum => 1 | hpaMinPodsNum => 2
  | hpaMaxPodsNum => 3 | hpaLastScaleSecond => 4 | hpaCurrentMetricsValue => 5
  | hpaTargetMetricsValue => 6 | hpaAbleToScale => 7 | hpaScalingActive => 8
  | hpaScalingLimited => 9
  end%nat.

Definition Collector_of_code (n : nat) : option Collector :=
  match n with
  | 0 => Some hpaCurrentPodsNum | 1 => Some hpaDesiredPodsNum
  | 2 => Some hpaMinPodsNum | 3 => Some hpaMaxPodsNum
  | 4 => Some hpaLastScaleSecond | 5 => Some hpaCurrentMetricsValue
  | 6 => Some hpaTargetMetricsValue | 7 => Some hpaAbleToScale
  | 8 => Some hpaScalingActive | 9 => Some hpaScalingLimited
  | _ => None
  end%nat.

#[global] Instance Collector_countable : Countable Collector.
Proof.
  refine (inj_countable Collector_code Collector_of_code _).
  intros c. destruct c; reflexivity.
Defined.

Abbreviation Registry := (gmap (Collector * Labels) float).
Abbreviation St := (State Registry unit).

Record commonMetrics := {
  cmKind : string;
  cmName : string;
  cmMetricName : string;
  cmValue : float
}.

Definition collectors : list Collector := [
  hpaCurrentPodsNum; hpaDesiredPodsNum; hpaMinPodsNum; hpaMaxPodsNum;
  hpaLastScaleSecond; hpaCurrentMetricsValue; hpaTargetMetricsValue;
  hpaAbleToScale; hpaScalingActive; hpaScalingLimited ].

(** Every collector is a [*prometheus.GaugeVec], so the type assertion holds. *)
Definition resetAllMetric : Go.M St unit :=
  Go.range collectors (fun c => ResetVec c).

Definition makeAnnotationCondLabels (cond : as_v2.Condition.t) : Labels * Labels :=
  let labelForward : Labels :=
    {[ "cond_status" := as_v2.Condition.Status cond;
       "cond_reason" := as_v2.Condition.Reason cond;
       "cond_message" := as_v2.Condition.Message cond ]} in
  let statusReverse :=
    if decide (as_v2.Condition.Status cond = core_v1.ConditionTrue)
    then core_v1.ConditionFalse
    else core_v1.ConditionTrue in
  let labelReverse : Labels :=
    {[ "cond_status" := statusReverse;
       "cond_reason" := "";
       "cond_message" := "" ]} in
  (labelForward, labelReverse).

(** [float64(q.MilliValue()) / 1000] *)
Definition milliToFloat (q : resource.Quantity) : float :=
  PrimFloat.div (Go.float64 (resource.MilliValue q)) 1000%float.

Definition parseObjectSpec (m : option as_v2.ObjectMetricSource.t)
  : Go.res commonMetrics :=
  m ← Go.deref_res m;
  mret {| cmKind := Kind (as_v2.ObjectMetricSource.Target m);
          cmName := Name (as_v2.ObjectMetricSource.Target m);
          cmMetricName := as_v2.ObjectMetricSource.MetricName m;
          cmValue := milliToFloat (as_v2.ObjectMetricSource.TargetValue m) |}.

Definition parsePodsSpec (m : option as_v2.PodsMetricSource.t)
  : Go.res commonMetrics :=
  m ← Go.deref_res m;
  mret {| cmKind := "Pod";
          cmName := "-";
          cmMetricName := as_v2.PodsMetricSource.MetricName m;
          cmValue := milliToFloat (as_v2.PodsMetricSource.TargetAverageValue m) |}.

Definition parseResourceSpec (m : option as_v2.ResourceMetricSource.t)
  : Go.res commonMetrics :=
  m ← Go.deref_res m;
  t ← match as_v2.ResourceMetricSource.TargetAverageUtilization m with
      | None =>
          q ← Go.deref_res (as_v2.ResourceMetricSource.TargetAverageValue m);
          mret (milliToFloat q)
      | Some u => mret (Go.float64 u)
      end;
  mret {| cmKind := "Resource";
          cmName := as_v2.ResourceMetricSource.Name m;
          cmMetricName := "-";
          cmValue := t |}.

Definition parseExternalSpec (m : option as_v2.ExternalMetricSource.t)
  : Go.res commonMetrics :=
  m ← Go.deref_res m;
  t ← match as_v2.ExternalMetricSource.TargetAverageValue m with
      | None =>
          q ← Go.deref_res (as_v2.ExternalMetricSource.TargetValue m);
          mret (milliToFloat q)
      | Some q => mret (milliToFloat q)
      end;
  mret {| cmKind := "External";
          cmName := "-";
          cmMetricName := as_v2.ExternalMetricSource.MetricName m;
          cmValue := t |}.

Definition parseObjectStatus (m : option as_v2.ObjectMetricStatus.t)
  : Go.res commonMetrics :=
  m ← Go.deref_res m;
  mret {| cmKind := Kind (as_v2.ObjectMetricStatus.Target m);
          cmName := Name (as_v2.ObjectMetricStatus.Target m);
          cmMetricName := as_v2.ObjectMetricStatus.MetricName m;
          cmValue := milliToFloat (as_v2.ObjectMetricStatus.CurrentValue m) |}.

Definition parsePodsStatus (m : option as_v2.PodsMetricStatus.t)
  : Go.res commonMetrics :=
  m ← Go.deref_res m;
  mret {| cmKind := "Pod";
          cmName := "-";
          cmMetricName := as_v2.PodsMetricStatus.MetricName m;
          cmValue := milliToFloat (as_v2.PodsMetricStatus.CurrentAverageValue m) |}.

Definition parseResourceStatus (m : option as_v2.ResourceMetricStatus.t)
  : Go.res commonMetrics :=
  m ← Go.deref_res m;
  let t :=
    match as_v2.ResourceMetricStatus.CurrentAverageUtilization m with
    | None => milliToFloat (as_v2.ResourceMetricStatus.CurrentAverageValue m)
    | Some u => Go.float64 u
    end in
  mret {| cmKind := "Resource";
          cmName := as_v2.ResourceMetricStatus.Name m;
          cmMetricName := "-";
          cmValue := t |}.

Definition parseExternalStatus (m : option as_v2.ExternalMetricStatus.t)
  : Go.res commonMetrics :=
  m ← Go.deref_res m;
  let t :=
    match as_v2.ExternalMetricStatus.CurrentAverageValue m with
    | None => milliToFloat (as_v2.ExternalMetricStatus.CurrentValue m)
    | Some q => milliToFloat q
    end in
  mret {| cmKind := "External";
          cmName := "-";
          cmMetricName := as_v2.ExternalMetricStatus.MetricName m;
          cmValue := t |}.

Definition parseCommonMetrics (m : commonMetrics) : float * Labels :=
  (cmValue m,
   {[ "metric_kind" := cmKind m;
      "metric_name" := cmName m;
      "metric_metricname" := cmMetricName m ]}).

Definition baseLabelOf (a : as_v2.HorizontalPodAutoscaler) : Labels :=
  {[ "hpa_name" := meta_v1.Name (as_v2.ObjectMeta a);
     "hpa_namespace" := meta_v1.Namespace (as_v2.ObjectMeta a);
     "ref_kind" := Kind (as_v2.ScaleTargetRef (as_v2.Spec a));
     "ref_name" := Name (as_v2.ScaleTargetRef (as_v2.Spec a));
     "ref_apiversion" := APIVersion (as_v2.ScaleTargetRef (as_v2.Spec a)) ]}.

(** Publish one parsed metric into a vector (the three lines each [case] of
    the two metric switches consists of). *)
Definition publishMetric (c : Collector) (baseLabel : Labels)
    (parsed : Go.res commonMetrics) : Go.M St unit :=
  m ← lift parsed;
  let '(v, l) := parseCommonMetrics m in
  WithSet c (mergeLabels baseLabel l) v.

(** Body of [for _, metric := range a.Spec.Metrics]. *)
Definition targetMetric (baseLabel : Labels) (metric : as_v2.MetricSpec.t)
  : Go.M St unit :=
  let ty := as_v2.MetricSpec.Type_ metric in
  if decide (ty = as_v2.ObjectMetricSourceType) then
    publishMetric hpaTargetMetricsValue baseLabel
      (parseObjectSpec (as_v2.MetricSpec.Object metric))
  else if decide (ty = as_v2.PodsMetricSourceType) then
    publishMetric hpaTargetMetricsValue baseLabel
      (parsePodsSpec (as_v2.MetricSpec.Pods metric))
  else if decide (ty = as_v2.ResourceMetricSourceType) then
    publishMetric hpaTargetMetricsValue baseLabel
      (parseResourceSpec (as_v2.MetricSpec.Resource metric))
  else if decide (ty = as_v2.ExternalMetricSourceType) then
    publishMetric hpaTargetMetricsValue baseLabel
      (parseExternalSpec (as_v2.MetricSpec.External metric))
  else mret tt.

(** Body of [for _, metric := range a.Status.CurrentMetrics]. *)
Definition currentMetric (baseLabel : Labels) (metric : as_v2.MetricStatus.t)
  : Go.M St unit :=
  let ty := as_v2.MetricStatus.Type_ metric in
  if decide (ty = as_v2.ObjectMetricSourceType) then
    publishMetric hpaCurrentMetricsValue baseLabel
      (parseObjectStatus (as_v2.MetricStatus.Object metric))
  else if decide (ty = as_v2.PodsMetricSourceType) then
    publishMetric hpaCurrentMetricsValue baseLabel
      (parsePodsStatus (as_v2.MetricStatus.Pods metric))
  else if decide (ty = as_v2.ResourceMetricSourceType) then
    publishMetric hpaCurrentMetricsValue baseLabel
      (parseResourceStatus (as_v2.MetricStatus.Resource metric))
  else if decide (ty = as_v2.ExternalMetricSourceType) then
    publishMetric hpaCurrentMetricsValue baseLabel
      (parseExternalStatus (as_v2.MetricStatus.External metric))
  else mret tt.

(** Body of [for _, cond := range a.Status.Conditions]. *)
Definition publishCondition (baseLabel : Labels) (cond : as_v2.Condition.t)
  : Go.M St unit :=
  let '(annoLabel, annoLabelRev) := makeAnnotationCondLabels cond in
  let ty := as_v2.Condition.Type_ cond in
  if decide (ty = as_v2.AbleToScale) then
    WithSet hpaAbleToScale (mergeLabels baseLabel annoLabel) (Go.float64 1);;
    WithSet hpaAbleToScale (mergeLabels baseLabel annoLabelRev) (Go.float64 0)
  else if decide (ty = as_v2.ScalingActive) then
    WithSet hpaScalingActive (mergeLabels baseLabel annoLabel) (Go.float64 1);;
    WithSet hpaScalingActive (mergeLabels baseLabel annoLabelRev) (Go.float64 0)
  else if decide (ty = as_v2.ScalingLimited) then
    WithSet hpaScalingLimited (mergeLabels baseLabel annoLabel) (Go.float64 1);;
    WithSet hpaScalingLimited (mergeLabels baseLabel annoLabelRev) (Go.float64 0)
  else mret tt.

(** The five base series, from [hpaCurrentPodsNum] to [hpaLastScaleSecond]. *)
Definition publishBase (baseLabel : Labels) (a : as_v2.HorizontalPodAutoscaler)
  : Go.M St unit :=
  WithSet hpaCurrentPodsNum baseLabel
    (Go.float64 (as_v2.CurrentReplicas (as_v2.Status a)));;
  WithSet hpaDesiredPodsNum baseLabel
    (Go.float64 (as_v2.DesiredReplicas (as_v2.Status a)));;
  match as_v2.MinReplicas (as_v2.Spec a) with
  | Some n => WithSet hpaMinPodsNum baseLabel (Go.float64 n)
  | None => mret tt
  end;;
  WithSet hpaMaxPodsNum baseLabel
    (Go.float64 (as_v2.MaxReplicas (as_v2.Spec a)));;
  match as_v2.LastScaleTime (as_v2.Status a) with
  | Some t => WithSet hpaLastScaleSecond baseLabel (Go.float64 (meta_v1.Unix t))
  | None => mret tt
  end.

(** Body of [for _, a := range hpa]. *)
Definition publishHpa (a : as_v2.HorizontalPodAutoscaler) : Go.M St unit :=
  let baseLabel := baseLabelOf a in
  publishBase baseLabel a;;
  Go.range (as_v2.Metrics (as_v2.Spec a)) (targetMetric baseLabel);;
  Go.range (as_v2.CurrentMetrics (as_v2.Status a)) (currentMetric baseLabel);;
  Go.range (as_v2.Conditions (as_v2.Status a)) (publishCondition baseLabel).

(** One iteration of the metrics goroutine's [for { ... }]: on a fetch error
    the [continue] leaves the iteration before the reset and before the
    [time.Sleep] that ends it. *)
Definition metricsIteration (metricsInterval : Z)
    (resp : ListResponse as_v2.HorizontalPodAutoscaler) : Go.M St unit :=
  '(hpa, err) ← getHpaList resp;
  match err with
  | Some e => emit (LogError e)
  | None =>
      resetAllMetric;;
      Go.range hpa publishHpa;;
      emit (Sleep metricsInterval)
  end.

(** The goroutine, run against the successive answers of the API server. *)
Definition metricsLoop (metricsInterval : Z)
    (resps : list (ListResponse as_v2.HorizontalPodAutoscaler)) : Go.M St unit :=
  Go.range resps (metricsIteration metricsInterval).

Definition initial : St :=
  {| registry := ∅; cache := tt; events := [] |}.

(** The vectors of the base series. *)
Definition baseCollector (c : Collector) : bool :=
  match c with
  | hpaCurrentPodsNum | hpaDesiredPodsNum | hpaMinPodsNum | hpaMaxPodsNum
  | hpaLastScaleSecond => true
  | _ => false
  end.

(** Vocabulary of the statements: the four metric source types the two
    switches name, and an autoscaler with its two metric lists replaced. *)
Definition knownMetricType (ty : string) : Prop :=
  ty = as_v2.ObjectMetricSourceType \/ ty = as_v2.PodsMetricSourceType \/
  ty = as_v2.ResourceMetricSourceType \/ ty = as_v2.ExternalMetricSourceType.

Definition withMetrics (a : as_v2.HorizontalPodAutoscaler)
    (target : list as_v2.MetricSpec.t) (current : list as_v2.MetricStatus.t)
  : as_v2.HorizontalPodAutoscaler :=
  {| as_v2.ObjectMeta := as_v2.ObjectMeta a;
     as_v2.Spec :=
       {| as_v2.ScaleTargetRef := as_v2.ScaleTargetRef (as_v2.Spec a);
          as_v2.MinReplicas := as_v2.MinReplicas (as_v2.Spec a);
          as_v2.MaxReplicas := as_v2.MaxReplicas (as_v2.Spec a);
          as_v2.Metrics := target |};
     as_v2.Status :=
       {| as_v2.LastScaleTime := as_v2.LastScaleTime (as_v2.Status a);
          as_v2.CurrentReplicas := as_v2.CurrentReplicas (as_v2.Status a);
          as_v2.DesiredReplicas := as_v2.DesiredReplicas (as_v2.Status a);
          as_v2.CurrentMetrics := current;
          as_v2.Conditions := as_v2.Conditions (as_v2.Status a) |} |}.

End Part004.

(** ** Sample cluster states, used by the examples *)

Module Sample.
Import Anno.

(** JSON text of a conditions annotation, as the API server writes it for the
    fields the exporter decodes.  Strings here hold no quote or backslash, so
    none needs escaping. *)
Definition quote : string := String (Ascii.ascii_of_nat 34) EmptyString.

Definition jsonString (s : string) : string := quote +:+ s +:+ quote.

Definition jsonField (key value : string) : string :=
  jsonString key +:+ ":" +:+ value.

Fixpoint commaSeparated (items : list string) : string :=
  match items with
  | [] => ""
  | [x] => x
  | x :: rest => x +:+ "," +:+ commaSeparated rest
  end.

Definition conditionJson (c : condition) : string :=
  "{" +:+ commaSeparated
            [ jsonField "type" (jsonString (Type_ c));
              jsonField "status" (jsonString (Status c));
              jsonField "reason" (jsonString (Reason c));
              jsonField "message" (jsonString (Message c)) ] +:+ "}".

Definition conditionsJson (cs : list condition) : string :=
  "[" +:+ commaSeparated (map conditionJson cs) +:+ "]".

(** The zero [time.Time], which a missing [lastTransitionTime] decodes to. *)
Definition zeroTime : meta_v1.Time := {| meta_v1.Unix := -62135596800 |}.

Definition cond (ty status reason message : string) : condition :=
  {| Type_ := ty; Status := status; LastTransitionTime := zeroTime;
     Reason := reason; Message := message |}.

(** A decoder that knows the texts of a table and rejects every other text,
    the empty one included.  It stands for [json.Unmarshal] on the annotation
    texts of the examples. *)
Definition decodeFrom {A} (table : list (string * A)) (text : string)
  : Go.error + A :=
  match list_find (fun entry => entry.1 = text) table with
  | Some (_, (_, v)) => inr v
  | None => inl "json: cannot unmarshal the annotation"
  end.

Definition jsonOf (known : list (list condition)) : Json :=
  {| UnmarshalMetrics := decodeFrom [("[]", [])];
     UnmarshalConditions := decodeFrom (map (fun cs => (conditionsJson cs, cs)) known) |}.

(** An autoscaler named [web] in namespace [ns], scaling [Deployment/target],
    with an empty current-metrics list and the given conditions. *)
Definition web (ns target : string) (conditions : list condition)
  : as_v1.HorizontalPodAutoscaler :=
  {| as_v1.ObjectMeta :=
       {| meta_v1.Name := "web"; meta_v1.Namespace := ns;
          meta_v1.Annotations :=
            {[ metricsKey := "[]"; conditionsKey := conditionsJson conditions ]} |};
     as_v1.Spec :=
       {| as_v1.ScaleTargetRef :=
            {| Kind := "Deployment"; Name := target; APIVersion := "apps/v1" |};
          as_v1.MinReplicas := Some 2;
          as_v1.MaxReplicas := 10;
          as_v1.TargetCPUUtilizationPercentage := Some 80 |};
     as_v1.Status :=
       {| as_v1.LastScaleTime := None;
          as_v1.CurrentReplicas := 3;
          as_v1.DesiredReplicas := 3;
          as_v1.CurrentCPUUtilizationPercentage := Some 40 |} |}.

(** An autoscaler whose conditions annotation was cut short. *)
Definition truncated (ns : string) : as_v1.HorizontalPodAutoscaler :=
  {| as_v1.ObjectMeta :=
       {| meta_v1.Name := "api"; meta_v1.Namespace := ns;
          meta_v1.Annotations :=
            {[ metricsKey := "[]"; conditionsKey := "[{" ]} |};
     as_v1.Spec := as_v1.Spec (web ns "api" []);
     as_v1.Status := as_v1.Status (web ns "api" []) |}.

(** A newly created autoscaler: no utilization measured yet, never scaled,
    and neither annotation written. *)
Definition fresh (ns : string) : as_v1.HorizontalPodAutoscaler :=
  {| as_v1.ObjectMeta :=
       {| meta_v1.Name := "batch"; meta_v1.Namespace := ns;
          meta_v1.Annotations := ∅ |};
     as_v1.Spec :=
       {| as_v1.ScaleTargetRef :=
            {| Kind := "Deployment"; Name := "batch"; APIVersion := "apps/v1" |};
          as_v1.MinReplicas := Some 1;
          as_v1.MaxReplicas := 4;
          as_v1.TargetCPUUtilizationPercentage := Some 80 |};
     as_v1.Status :=
       {| as_v1.LastScaleTime := None;
          as_v1.CurrentReplicas := 1;
          as_v1.DesiredReplicas := 1;
          as_v1.CurrentCPUUtilizationPercentage := None |} |}.

(** Conditions of type AbleToScale with the reasons the controller gives. *)
Definition ready : condition := cond "AbleToScale" "True" "ReadyForNewScale" "".
Definition rescaled : condition := cond "AbleToScale" "True" "SucceededRescale" "".
Definition gotScale : condition := cond "AbleToScale" "True" "SucceededGetScale" "".
Definition backoff : condition := cond "AbleToScale" "False" "BackoffBoth" "".

Definition json : Json := jsonOf [[ready]; [rescaled]; [gotScale]; [backoff]].

(** The label sets of the examples. *)
Definition webLabel (ns target : string) : Labels :=
  {[ "hpa_name" := "web"; "hpa_namespace" := ns; "ref_kind" := "Deployment";
     "ref_name" := target; "ref_apiversion" := "apps/v1" ]}.

Definition condLabel (status reason message : string) : Labels :=
  {[ "cond_status" := status; "cond_reason" := reason; "cond_message" := message ]}.

(** A successful answer of the API server. *)
Definition listed {H} (items : list H) : ListResponse H :=
  {| out := Some items; err := None |}.

(** A v2beta1 autoscaler with the given metric lists and conditions. *)
Definition webV2 (target : list as_v2.MetricSpec.t)
    (current : list as_v2.MetricStatus.t) (conditions : list as_v2.Condition.t)
  : as_v2.HorizontalPodAutoscaler :=
  {| as_v2.ObjectMeta :=
       {| meta_v1.Name := "web"; meta_v1.Namespace := "default";
          meta_v1.Annotations := ∅ |};
     as_v2.Spec :=
       {| as_v2.ScaleTargetRef :=
            {| Kind := "Deployment"; Name := "web"; APIVersion := "apps/v1" |};
          as_v2.MinReplicas := Some 2;
          as_v2.MaxReplicas := 10;
          as_v2.Metrics := target |};
     as_v2.Status :=
       {| as_v2.LastScaleTime := None;
          as_v2.CurrentReplicas := 3;
          as_v2.DesiredReplicas := 5;
          as_v2.CurrentMetrics := current;
          as_v2.Conditions := conditions |} |}.

Definition cpuTarget (utilization : Z) : as_v2.MetricSpec.t :=
  {| as_v2.MetricSpec.Type_ := as_v2.ResourceMetricSourceType;
     as_v2.MetricSpec.Object := None;
     as_v2.MetricSpec.Pods := None;
     as_v2.MetricSpec.Resource :=
       Some {| as_v2.ResourceMetricSource.Name := "cpu";
               as_v2.ResourceMetricSource.TargetAverageUtilization := Some utilization;
               as_v2.ResourceMetricSource.TargetAverageValue := None |};
     as_v2.MetricSpec.External := None |}.

Definition cpuCurrent (utilization : Z) : as_v2.MetricStatus.t :=
  {| as_v2.MetricStatus.Type_ := as_v2.ResourceMetricSourceType;
     as_v2.MetricStatus.Object := None;
     as_v2.MetricStatus.Pods := None;
     as_v2.MetricStatus.Resource :=
       Some {| as_v2.ResourceMetricStatus.Name := "cpu";
               as_v2.ResourceMetricStatus.CurrentAverageUtilization := Some utilization;
               as_v2.ResourceMetricStatus.CurrentAverageValue :=
                 {| resource.MilliValue := 0 |} |};
     as_v2.MetricStatus.External := None |}.

(** Descriptors of a kind the exporter does not know. *)
Definition containerTarget : as_v2.MetricSpec.t :=
  {| as_v2.MetricSpec.Type_ := "ContainerResource";
     as_v2.MetricSpec.Object := None; as_v2.MetricSpec.Pods := None;
     as_v2.MetricSpec.Resource := None; as_v2.MetricSpec.External := None |}.

Definition containerCurrent : as_v2.MetricStatus.t :=
  {| as_v2.MetricStatus.Type_ := "ContainerResource";
     as_v2.MetricStatus.Object := None; as_v2.MetricStatus.Pods := None;
     as_v2.MetricStatus.Resource := None; as_v2.MetricStatus.External := None |}.

(** Base labels by name, for a cluster whose autoscalers all live in [prod]
    and scale the deployment they are named after. *)
Definition prodLabels (name : string) : Labels :=
  {[ "hpa_name" := name; "hpa_namespace" := "prod"; "ref_kind" := "Deployment";
     "ref_name" := name; "ref_apiversion" := "apps/v1" ]}.

End Sample.

(** ** The label names the gauge vectors are declared with *)

Module Declared.

(** [labels] of main.go, part_002 and part_003. *)
Definition labels : list string :=
  ["hpa_name"; "hpa_namespace"; "ref_kind"; "ref_name"; "ref_apiversion"].

(** [annoLabels] of part_002, part_003 and part_004. *)
Definition annoLabels : list string :=
  ["cond_status"; "cond_reason"; "cond_message"].

(** [baseLabels] and [metricLabels] of part_004. *)
Definition baseLabels : list string :=
  ["hpa_name"; "hpa_namespace"; "ref_kind"; "ref_name"; "ref_apiversion"].

Definition metricLabels : list string :=
  ["metric_kind"; "metric_name"; "metric_metricname"].

(** The label names each [prometheus.NewGaugeVec] is given, per variant. *)
Definition main (c : Main.Collector) : list string :=
  match c with
  | Main.hpaCurrentPodsNum => labels
  | Main.hpaDesiredPodsNum => labels
  | Main.hpaMinPodsNum => labels
  | Main.hpaMaxPodsNum => labels
  | Main.hpaCurrentCpuPercentage => labels
  | Main.hpaTargetCpuPercentage => labels
  | Main.hpaLastScaleSecond => labels
  end.

Definition anno (c : Anno.Collector) : list string :=
  match c with
  | Anno.hpaCurrentPodsNum => labels
  | Anno.hpaDesiredPodsNum => labels
  | Anno.hpaMinPodsNum => labels
  | Anno.hpaMaxPodsNum => labels
  | Anno.hpaCurrentCpuValue => labels
  | Anno.hpaCurrentCpuPercentage => labels
  | Anno.hpaTargetCpuPercentage => labels
  | Anno.hpaLastScaleSecond => labels
  | Anno.hpaAbleToScale => labels ++ annoLabels
  | Anno.hpaScalingActive => labels ++ annoLabels
  | Anno.hpaScalingLimited => labels ++ annoLabels
  end.

Definition part004 (c : Part004.Collector) : list string :=
  match c with
  | Part004.hpaCurrentPodsNum => baseLabels
  | Part004.hpaDesiredPodsNum => baseLabels
  | Part004.hpaMinPodsNum => baseLabels
  | Part004.hpaMaxPodsNum => baseLabels
  | Part004.hpaLastScaleSecond => baseLabels
  | Part004.hpaCurrentMetricsValue => baseLabels ++ metricLabels
  | Part004.hpaTargetMetricsValue => baseLabels ++ metricLabels
  | Part004.hpaAbleToScale => baseLabels ++ annoLabels
  | Part004.hpaScalingActive => baseLabels ++ annoLabels
  | Part004.hpaScalingLimited => baseLabels ++ annoLabels
  end.

End Declared.

(** ** Vocabulary of the statements about the registry as a whole *)

Section RegistryProperties.
Context {C : Type} `{Countable C} {K : Type}.
Abbreviation St := (State (gmap (C * Labels) float) K).

(** Code that keeps a property of the registry and the goroutine's own
    data, whether it returns or panics. *)
Definition keeps {A : Type} (I : gmap (C * Labels) float -> K -> Prop)
    (m : Go.M St A) : Prop :=
  forall s : St, I (registry s) (cache s) -> I (registry (m s).2) (cache (m s).2).

(** Every series carries exactly the label names its vector was declared
    with: what [With] and [Delete] check before they touch a vector. *)
Definition wellLabelled (names : C -> list string)
    (r : gmap (C * Labels) float) : Prop :=
  forall (c : C) (l : Labels),
    is_Some (r !! (c, l)) -> dom l = (list_to_set (names c) : gset string).

End RegistryProperties.

(** A label set that names the autoscaler of [meta]. *)
Definition namesHpa (meta : meta_v1.ObjectMeta) (l : Labels) : Prop :=
  l !! "hpa_name" = Some (meta_v1.Name meta) /\
  l !! "hpa_namespace" = Some (meta_v1.Namespace meta).

#[global] Instance namesHpa_dec meta l : Decision (namesHpa meta l).
Proof. unfold namesHpa. apply _. Defined.

(** What the label caches of part_003 hold at a tick boundary: under every
    name and for every condition type, label sets without [hpa_name] and
    [hpa_namespace] (the nil map of an absent key among them). *)
Definition conditionOnly (l : Labels) : Prop :=
  l !! "hpa_name" = None /\ l !! "hpa_namespace" = None.

Definition cachesConditionOnly (c : Part003.Caches) : Prop :=
  forall (k : Anno.CondKind) (name : string),
    conditionOnly (Part003.labelsAt (Part003.annoLabel k c) name) /\
    conditionOnly (Part003.labelsAt (Part003.annoLabelRev k c) name).

(** A registry of part_004 all of whose series name an autoscaler of the
    snapshot [hpa]. *)
Definition listedOnly (hpa : list as_v2.HorizontalPodAutoscaler)
    (r : Part004.Registry) : Prop :=
  forall (c : Part004.Collector) (l : Labels),
    is_Some (r !! (c, l)) ->
    Exists (fun a => namesHpa (as_v2.ObjectMeta a) l) hpa.

(** A registry of part_002 or part_003 in which the condition of type [k]
    stands at 1 under the labels [l]. *)
Definition activeAt (k : Anno.CondKind) (l : Labels) (r : Anno.Registry) : Prop :=
  r !! (Anno.gaugeOf k, l) = Some (Go.float64 1).

(** Code that panics exactly when [P] holds, whatever state it starts from. *)
Definition panicsIff {S A : Type} (m : Go.M S A) (P : Prop) : Prop :=
  forall s : S, (m s).1 = Go.Panicked <-> P.

(** main.go: an autoscaler that passes the guard of the loop body and has
    never been scaled. *)
Definition guardedUnscaled (a : as_v1.HorizontalPodAutoscaler) : Prop :=
  is_Some (as_v1.MinReplicas (as_v1.Spec a)) /\
  is_Some (as_v1.CurrentCPUUtilizationPercentage (as_v1.Status a)) /\
  is_Some (as_v1.TargetCPUUtilizationPercentage (as_v1.Spec a)) /\
  as_v1.LastScaleTime (as_v1.Status a) = None.

(** part_004: a target descriptor whose type names one of the four kinds
    while the payload of that kind, or the quantity read from it, is a nil
    pointer; and the like for a current descriptor. *)
Definition danglingTarget (m : as_v2.MetricSpec.t) : Prop :=
  (as_v2.MetricSpec.Type_ m = as_v2.ObjectMetricSourceType /\
   as_v2.MetricSpec.Object m = None) \/
  (as_v2.MetricSpec.Type_ m = as_v2.PodsMetricSourceType /\
   as_v2.MetricSpec.Pods m = None) \/
  (as_v2.MetricSpec.Type_ m = as_v2.ResourceMetricSourceType /\
   match as_v2.MetricSpec.Resource m with
   | None => True
   | Some r =>
       as_v2.ResourceMetricSource.TargetAverageUtilization r = None /\
       as_v2.ResourceMetricSource.TargetAverageValue r = None
   end) \/
  (as_v2.MetricSpec.Type_ m = as_v2.ExternalMetricSourceType /\
   match as_v2.MetricSpec.External m with
   | None => True
   | Some x =>
       as_v2.ExternalMetricSource.TargetAverageValue x = None /\
       as_v2.ExternalMetricSource.TargetValue x = None
   end).

Definition danglingCurrent (m : as_v2.MetricStatus.t) : Prop :=
  (as_v2.MetricStatus.Type_ m = as_v2.ObjectMetricSourceType /\
   as_v2.MetricStatus.Object m = None) \/
  (as_v2.MetricStatus.Type_ m = as_v2.PodsMetricSourceType /\
   as_v2.MetricStatus.Pods m = None) \/
  (as_v2.MetricStatus.Type_ m = as_v2.ResourceMetricSourceType /\
   as_v2.MetricStatus.Resource m = None) \/
  (as_v2.MetricStatus.Type_ m = as_v2.ExternalMetricSourceType /\
   as_v2.MetricStatus.External m = None).

Definition dangling (a : as_v2.HorizontalPodAutoscaler) : Prop :=
  Exists danglingTarget (as_v2.Metrics (as_v2.Spec a)) \/
  Exists danglingCurrent (as_v2.CurrentMetrics (as_v2.Status a)).

(** Decimal numerals, most significant digit first: the text of a digit
    list and the number it denotes. *)
Definition digitChar (d : Z) : Ascii.ascii := Ascii.ascii_of_N (Z.to_N (48 + d)).

Definition numeral (ds : list Z) : string :=
  fold_right (fun d s => String (digitChar d) s) EmptyString ds.

Definition valueOf (ds : list Z) : Z :=
  fold_left (fun acc d => acc * 10 + d) ds 0.

(** ** Condition logging, CloudWatch Logs and start-up *)

Module fmt.

(** [fmt.Sprintf] on string operands, for the verbs the variants use: [%s]
    and [%v] print the next operand as it is, [%%] a percent sign, a verb
    without operand prints [%!s(MISSING)].  Other verbs and surplus operands
    do not occur in the variants; the function leaves them out. *)
Fixpoint Sprintf (format : string) (a : list string) : string :=
  match format with
  | EmptyString => EmptyString
  | String c rest =>
      if Ascii.eqb c "%" then
        match rest with
        | EmptyString => "%!(NOVERB)"
        | String verb rest' =>
            if Ascii.eqb verb "s" || Ascii.eqb verb "v" then
              match a with
              | operand :: a' => operand +:+ Sprintf rest' a'
              | [] => "%!" +:+ String verb "(MISSING)" +:+ Sprintf rest' []
              end
            else if Ascii.eqb verb "%" then String "%" (Sprintf rest' a)
            else Sprintf rest' a
        end
      else String c (Sprintf rest a)
  end.

End fmt.

(** The double quote, which a string literal here cannot hold. *)
Definition dquote : string := String (Ascii.ascii_of_nat 34) EmptyString.

(** Go's [int64(x)]: two's complement wrap-around. *)
Definition wrap64 (x : Z) : Z := (x + 2 ^ 63) mod 2 ^ 64 - 2 ^ 63.

(** [for _, x := range xs { acc = step(acc, x) }] *)
Fixpoint rangeFold {S A B : Type} (xs : list A) (acc : B)
    (step : B -> A -> Go.M S B) : Go.M S B :=
  match xs with
  | [] => mret acc
  | x :: xs' => acc' ← step acc x; rangeFold xs' acc' step
  end.

(** The part of the AWS SDK the variants use: a value of [CloudWatchLogs]
    tells what each operation of the client answers.  The lists of an
    answer hold pointers, [None] for nil; the fields the variants fill from
    their flags or with [aws.String] and [aws.Int64] are never nil and hold
    the value. *)
Module cloudwatchlogs.

Module LogGroup.
Record t := { LogGroupName : string }.
End LogGroup.

Module LogStream.
Record t := { LogStreamName : string; UploadSequenceToken : option string }.
End LogStream.

Module DescribeLogGroupsInput.
Record t := { LogGroupNamePrefix : string }.
End DescribeLogGroupsInput.

Module DescribeLogGroupsOutput.
Record t := { LogGroups : list (option LogGroup.t) }.
End DescribeLogGroupsOutput.

Module CreateLogGroupInput.
Record t := { LogGroupName : string }.
End CreateLogGroupInput.

Module DescribeLogStreamsInput.
Record t := { LogGroupName : string; LogStreamNamePrefix : string }.
End DescribeLogStreamsInput.

Module DescribeLogStreamsOutput.
Record t := { LogStreams : list (option LogStream.t) }.
End DescribeLogStreamsOutput.

Module CreateLogStreamInput.
Record t := { LogGroupName : string; LogStreamName : string }.
End CreateLogStreamInput.

Module InputLogEvent.
Record t := { Message : string; Timestamp : Z }.
End InputLogEvent.

Module PutLogEventsInput.
Record t := {
  LogEvents : list InputLogEvent.t;
  LogGroupName : string;
  LogStreamName : string;
  SequenceToken : option string
}.
End PutLogEventsInput.

Record CloudWatchLogs := {
  DescribeLogGroups :
    DescribeLogGroupsInput.t -> option DescribeLogGroupsOutput.t * option Go.error;
  CreateLogGroup : CreateLogGroupInput.t -> option Go.error;
  DescribeLogStreams :
    DescribeLogStreamsInput.t -> option DescribeLogStreamsOutput.t * option Go.error;
  CreateLogStream : CreateLogStreamInput.t -> option Go.error;
  PutLogEvents : PutLogEventsInput.t -> option Go.error
}.

End cloudwatchlogs.

(** What the logging goroutine and the start-up code do besides listing,
    logging errors and sleeping: the lines they write and the operations
    they call on the CloudWatch Logs client, in order.  They run in a state
    whose third component is this list. *)
Inductive Call : Type :=
| LogInfo (text : string)        (* log.Info, log.Infof, log.Infoln *)
| Println (text : string)        (* fmt.Println *)
| CallDescribeLogGroups (input : cloudwatchlogs.DescribeLogGroupsInput.t)
| CallCreateLogGroup (input : cloudwatchlogs.CreateLogGroupInput.t)
| CallDescribeLogStreams (input : cloudwatchlogs.DescribeLogStreamsInput.t)
| CallCreateLogStream (input : cloudwatchlogs.CreateLogStreamInput.t)
| CallPutLogEvents (input : cloudwatchlogs.PutLogEventsInput.t).

(** The command-line flags, after [flag.Parse()].  part_002 declares the
    first four only; main.go has the first two. *)
Record Flags := {
  addr : string;
  metricsInterval : Z;
  loggingInterval : Z;
  conditionLogging : bool;
  loggingTo : string;
  cwLogGroup : string;
  cwLogStream : string
}.

(** The goroutines [main] starts before it serves HTTP. *)
Inductive Goroutine : Type := ConditionLogging | Metrics.

Section Logger.
Context {C : Type} `{Countable C}.
Abbreviation St := (State (gmap (C * Labels) float) (list Call)).

Definition call (c : Call) : Go.M St unit := writeCache (fun calls => calls ++ [c]).

(** Vocabulary of the statements: the state [s] with further calls made. *)
Definition logged (s : St) (calls : list Call) : St :=
  {| registry := registry s; cache := cache s ++ calls; events := events s |}.

End Logger.

(** *** src/unnamed/part_002: the logging goroutine *)

Module Part002Log.

Abbreviation St := (State Anno.Registry (list Call)).

Definition conditionsFormat : string :=
  "{" +:+ dquote +:+ "name" +:+ dquote +:+ ":" +:+ dquote +:+ "%s" +:+ dquote +:+ ","
  +:+ dquote +:+ "conditions" +:+ dquote +:+ ":%s}".

(** Body of [for _, a := range hpa] in the logging goroutine. *)
Definition logConditions (a : as_v1.HorizontalPodAutoscaler) : Go.M St unit :=
  let name := meta_v1.Name (as_v1.ObjectMeta a) in
  let logtext := Anno.annotation a Anno.conditionsKey in
  call (LogInfo (fmt.Sprintf conditionsFormat [name; logtext])).

Definition loggingIteration (flags : Flags)
    (resp : ListResponse as_v1.HorizontalPodAutoscaler) : Go.M St unit :=
  '(hpa, err) ← getHpaList resp;
  match err with
  | Some e => emit (LogError e)
  | None =>
      Go.range hpa logConditions;;
      emit (Sleep (loggingInterval flags))
  end.

End Part002Log.

(** *** What part_003 and part_004 share, line for line *)

Module CWLog.

Import cloudwatchlogs.

Section Functions.
Context {C : Type} `{Countable C}.
Context (flags : Flags) (cwSession : CloudWatchLogs).
Abbreviation St := (State (gmap (C * Labels) float) (list Call)).

Definition validateFlags : option Go.error :=
  if negb (bool_decide (loggingTo flags = "stdout")
           || bool_decide (loggingTo flags = "cwlogs"))
  then Some (fmt.Sprintf
               "invalid value `%s` of flag `loggingTo`, specify either `stdout` or `cwlogs`"
               [loggingTo flags])
  else None.

Definition createLogGroup : Go.M St (option Go.error) :=
  let input := {| CreateLogGroupInput.LogGroupName := cwLogGroup flags |} in
  call (CallCreateLogGroup input);;
  mret (CreateLogGroup cwSession input).

Definition createStream : Go.M St (option Go.error) :=
  let input := {| CreateLogStreamInput.LogGroupName := cwLogGroup flags;
                  CreateLogStreamInput.LogStreamName := cwLogStream flags |} in
  call (CallCreateLogStream input);;
  mret (CreateLogStream cwSession input).

Definition token : Go.M St (option string * option Go.error) :=
  let input := {| DescribeLogStreamsInput.LogGroupName := cwLogGroup flags;
                  DescribeLogStreamsInput.LogStreamNamePrefix := cwLogStream flags |} in
  call (CallDescribeLogStreams input);;
  let '(x, err) := DescribeLogStreams cwSession input in
  match err with
  | None =>
      x ← Go.deref x;
      match DescribeLogStreamsOutput.LogStreams x with
      | [] => err ← createStream; mret (None, err)
      | first :: _ =>
          first ← Go.deref first;
          mret (LogStream.UploadSequenceToken first, None)
      end
  | Some e => mret (None, Some e)
  end.

Definition checkLogGroup : Go.M St (option Go.error) :=
  let input := {| DescribeLogGroupsInput.LogGroupNamePrefix := cwLogGroup flags |} in
  call (CallDescribeLogGroups input);;
  let '(r, e) := DescribeLogGroups cwSession input in
  match e with
  | None =>
      r ← Go.deref r;
      match DescribeLogGroupsOutput.LogGroups r with
      | [] =>
          e ← createLogGroup;
          match e with
          | Some e => mret (Some e)
          | None => mret None
          end
      | _ :: _ => mret None
      end
  | Some e => mret (Some e)
  end.

(** Vocabulary of the statements: the four requests these functions build
    from the flags, and the event [putHPAConditionToCWLog] is meant to send
    for a text. *)
Definition describeGroups : DescribeLogGroupsInput.t :=
  {| DescribeLogGroupsInput.LogGroupNamePrefix := cwLogGroup flags |}.

Definition createTheGroup : CreateLogGroupInput.t :=
  {| CreateLogGroupInput.LogGroupName := cwLogGroup flags |}.

Definition describeStreams : DescribeLogStreamsInput.t :=
  {| DescribeLogStreamsInput.LogGroupName := cwLogGroup flags;
     DescribeLogStreamsInput.LogStreamNamePrefix := cwLogStream flags |}.

Definition createTheStream : CreateLogStreamInput.t :=
  {| CreateLogStreamInput.LogGroupName := cwLogGroup flags;
     CreateLogStreamInput.LogStreamName := cwLogStream flags |}.

(** [putHPAConditionToCWLog], for the autoscaler type and the
    [hpaConditionJsonString] of the variant; [now] is [time.Now().Unix()]. *)
Definition putHPAConditionToCWLog {H : Type}
    (hpaConditionJsonString : H -> Go.M St string) (now : Z) (hpa : list H)
  : Go.M St (option Go.error) :=
  '(t, e) ← token;
  match e with
  | Some e => mret (Some e)
  | None =>
      let timestamp := wrap64 (now * 1000) in
      cwevent ← rangeFold hpa []
        (fun cwevent a =>
           s ← hpaConditionJsonString a;
           mret (cwevent ++ [ {| InputLogEvent.Message := s;
                                 InputLogEvent.Timestamp := timestamp |} ]));
      let putEvent :=
        {| PutLogEventsInput.LogEvents := cwevent;
           PutLogEventsInput.LogGroupName := cwLogGroup flags;
           PutLogEventsInput.LogStreamName := cwLogStream flags;
           PutLogEventsInput.SequenceToken := t |} in
      call (CallPutLogEvents putEvent);;
      mret (PutLogEvents cwSession putEvent)
  end.

End Functions.

End CWLog.

(** *** src/unnamed/part_003: logging goroutine and start-up *)

Module Part003Log.

Abbreviation St := (State Anno.Registry (list Call)).

Definition hpaConditionJsonString (hpa : as_v1.HorizontalPodAutoscaler) : string :=
  let condJsonStr := Anno.annotation hpa Anno.conditionsKey in
  "{" +:+ dquote +:+ "name" +:+ dquote +:+ ":" +:+ dquote
  +:+ meta_v1.Name (as_v1.ObjectMeta hpa)
  +:+ dquote +:+ "," +:+ dquote +:+ "conditions" +:+ dquote +:+ ":"
  +:+ condJsonStr +:+ "}".

Definition loggingIteration (flags : Flags)
    (cwSession : cloudwatchlogs.CloudWatchLogs) (now : Z)
    (resp : ListResponse as_v1.HorizontalPodAutoscaler) : Go.M St unit :=
  '(hpa, err) ← getHpaList resp;
  match err with
  | Some e => emit (LogError e)
  | None =>
      (if decide (loggingTo flags = "cwlogs") then
         _ ← CWLog.putHPAConditionToCWLog flags cwSession
               (fun a => mret (hpaConditionJsonString a)) now hpa;
         mret tt
       else Go.range hpa Part002Log.logConditions);;
      emit (Sleep (loggingInterval flags))
  end.

Definition initial : St := {| registry := ∅; cache := []; events := [] |}.

(** [main] up to the goroutines it starts.  The time zone it sets is used by
    nothing in the file. *)
Definition main (flags : Flags) (cwSession : cloudwatchlogs.CloudWatchLogs)
  : Go.M St (list Goroutine) :=
  match CWLog.validateFlags flags with
  | Some e => Go.panic
  | None =>
      e ← CWLog.checkLogGroup flags cwSession;
      match e with
      | Some e => Go.panic
      | None =>
          call (LogInfo "start HPA exporter");;
          mret (if conditionLogging flags then [ConditionLogging; Metrics]
                else [Metrics])
      end
  end.

End Part003Log.

(** *** src/unnamed/part_004: logging goroutine and start-up *)

Module Part004Log.

Abbreviation St := (State Part004.Registry (list Call)).

Record conditions := {
  Name : string;
  Conditions : list as_v2.Condition.t
}.

(** [json.Marshal] at the type [conditions], an outside collaborator. *)
Definition Marshaler : Type := conditions -> Go.error + string.

Definition hpaConditionJsonString (Marshal : Marshaler)
    (hpa : as_v2.HorizontalPodAutoscaler) : Go.M St string :=
  let cond := {| Name := meta_v1.Name (as_v2.ObjectMeta hpa);
                 Conditions := as_v2.Conditions (as_v2.Status hpa) |} in
  match Marshal cond with
  | inl err => call (Println ("JSON Marshal error: " +:+ err));; mret "{}"
  | inr jsonBytes => mret jsonBytes
  end.

(** Vocabulary of the statements: the text [hpaConditionJsonString] returns
    and the lines it prints on the way. *)
Definition marshalled (Marshal : Marshaler) (hpa : as_v2.HorizontalPodAutoscaler)
  : string :=
  match Marshal {| Name := meta_v1.Name (as_v2.ObjectMeta hpa);
                   Conditions := as_v2.Conditions (as_v2.Status hpa) |} with
  | inl _ => "{}"
  | inr jsonBytes => jsonBytes
  end.

Definition complaints (Marshal : Marshaler) (hpa : as_v2.HorizontalPodAutoscaler)
  : list Call :=
  match Marshal {| Name := meta_v1.Name (as_v2.ObjectMeta hpa);
                   Conditions := as_v2.Conditions (as_v2.Status hpa) |} with
  | inl err => [Println ("JSON Marshal error: " +:+ err)]
  | inr _ => []
  end.

Definition loggingIteration (flags : Flags)
    (cwSession : cloudwatchlogs.CloudWatchLogs) (Marshal : Marshaler) (now : Z)
    (resp : ListResponse as_v2.HorizontalPodAutoscaler) : Go.M St unit :=
  '(hpa, err) ← getHpaList resp;
  match err with
  | Some e => emit (LogError e)
  | None =>
      (if decide (loggingTo flags = "cwlogs") then
         _ ← CWLog.putHPAConditionToCWLog flags cwSession
               (hpaConditionJsonString Marshal) now hpa;
         mret tt
       else
         Go.range hpa (fun a =>
           s ← hpaConditionJsonString Marshal a;
           call (LogInfo s)));;
      emit (Sleep (loggingInterval flags))
  end.

Definition initial : St := {| registry := ∅; cache := []; events := [] |}.

Definition main (flags : Flags) (cwSession : cloudwatchlogs.CloudWatchLogs)
  : Go.M St (list Goroutine) :=
  match CWLog.validateFlags flags with
  | Some e => Go.panic
  | None =>
      (if conditionLogging flags then
         e ← CWLog.checkLogGroup flags cwSession;
         match e with
         | Some e => Go.panic
         | None => mret tt
         end
       else mret tt);;
      call (LogInfo "start HPA exporter");;
      mret (if conditionLogging flags then [ConditionLogging; Metrics]
            else [Metrics])
  end.

End Part004Log.

(** *** Sample flags and CloudWatch answers, used by the examples *)

Module SampleLog.

Import cloudwatchlogs.

Definition defaults : Flags :=
  {| addr := ":9296"; metricsInterval := 30; loggingInterval := 60;
     conditionLogging := false; loggingTo := "stdout";
     cwLogGroup := "hpa-exporter"; cwLogStream := "condition-log" |}.

(** Condition logging switched on, with output to CloudWatch Logs. *)
Definition toCloudWatch : Flags :=
  {| addr := ":9296"; metricsInterval := 30; loggingInterval := 60;
     conditionLogging := true; loggingTo := "cwlogs";
     cwLogGroup := "hpa-exporter"; cwLogStream := "condition-log" |}.

(** A client that finds the given groups and streams and accepts every
    request. *)
Definition finds (groups : list LogGroup.t) (streams : list LogStream.t)
  : CloudWatchLogs :=
  {| DescribeLogGroups := fun _ =>
       (Some {| DescribeLogGroupsOutput.LogGroups := Some <$> groups |}, None);
     CreateLogGroup := fun _ => None;
     DescribeLogStreams := fun _ =>
       (Some {| DescribeLogStreamsOutput.LogStreams := Some <$> streams |}, None);
     CreateLogStream := fun _ => None;
     PutLogEvents := fun _ => None |}.

(** A client every operation of which fails. *)
Definition unreachable : CloudWatchLogs :=
  {| DescribeLogGroups := fun _ => (None, Some "RequestError: send request failed");
     CreateLogGroup := fun _ => Some "RequestError: send request failed";
     DescribeLogStreams := fun _ => (None, Some "RequestError: send request failed");
     CreateLogStream := fun _ => Some "RequestError: send request failed";
     PutLogEvents := fun _ => Some "RequestError: send request failed" |}.

Definition conditionLog : LogStream.t :=
  {| LogStream.LogStreamName := "condition-log";
     LogStream.UploadSequenceToken := Some "49590302938407" |}.

(** A marshaler that writes the name only, and one that always fails. *)
Definition nameOnly : Part004Log.Marshaler :=
  fun c => inr ("{" +:+ dquote +:+ "name" +:+ dquote +:+ ":" +:+ dquote
                +:+ Part004Log.Name c +:+ dquote +:+ "}").

End SampleLog.

(** Two pieces of code, each on a state of its own, that keep a relation
    between the two states and end alike: both return the same value or
    both panic. *)
Definition alike {S1 S2 A : Type} (R : S1 -> S2 -> Prop)
    (m1 : Go.M S1 A) (m2 : Go.M S2 A) : Prop :=
  forall (s1 : S1) (s2 : S2),
    R s1 s2 -> (m1 s1).1 = (m2 s2).1 /\ R (m1 s1).2 (m2 s2).2.

(** A state of part_002 and a state of part_003 that show the same base
    series and the same events. *)
Definition sameBase (s2 : Part002.St) (s3 : Part003.St) : Prop :=
  (forall (c : Anno.Collector) (l : Labels),
      Anno.baseCollector c = true ->
      registry s2 !! (c, l) = registry s3 !! (c, l)) /\
  events s2 = events s3.

(** A registry whose condition vectors hold the values 1 and 0 only. *)
Definition binary {C : Type} `{Countable C} (isCondition : C -> bool)
    (r : gmap (C * Labels) float) : Prop :=
  forall (c : C) (l : Labels) (v : float),
    isCondition c = true -> r !! (c, l) = Some v ->
    v = Go.float64 1 \/ v = Go.float64 0.

(** The three condition vectors of part_002 and part_003, and of part_004. *)
Definition conditionVector (c : Anno.Collector) : bool :=
  match c with
  | Anno.hpaAbleToScale | Anno.hpaScalingActive | Anno.hpaScalingLimited => true
  | _ => false
  end.

Definition conditionVectorV2 (c : Part004.Collector) : bool :=
  match c with
  | Part004.hpaAbleToScale | Part004.hpaScalingActive | Part004.hpaScalingLimited => true
  | _ => false
  end.

(** What identifies an autoscaler in the cluster: its namespace and name. *)
Definition identityOf (meta : meta_v1.ObjectMeta) : string * string :=
  (meta_v1.Namespace meta, meta_v1.Name meta).

(** * Properties *)

(** ** Numeric conversions *)

Example float64_80 : Go.float64 80 = 80%float.
Proof. vm_compute. reflexivity. Qed.

Example float64_rounds_to_even : Go.float64 (2 ^ 53 + 1) = Go.float64 (2 ^ 53).
Proof. vm_compute. reflexivity. Qed.

Example float64_min_int64 :
  Go.float64 (- 2 ^ 63) = (- 9223372036854775808)%float.
Proof. vm_compute. reflexivity. Qed.

(** ** Running Go code: loops and sequencing *)

Section Running.
Context {S : Type}.
Implicit Types s : S.

Lemma bind_run {A B} (m : Go.M S A) (f : A -> Go.M S B) s :
  (m ≫= f) s =
  match m s with
  | (Go.Val a, s') => f a s'
  | (Go.Panicked, s') => (Go.Panicked, s')
  end.
Proof. reflexivity. Qed.

(** What follows a step may be replaced by anything that runs the same. *)
Lemma bind_cong {A B} (m : Go.M S A) (f g : A -> Go.M S B) s :
  (forall a s', f a s' = g a s') -> (m ≫= f) s = (m ≫= g) s.
Proof.
  intros Hfg. rewrite !bind_run. destruct (m s) as [[a|] s']; [apply Hfg | reflexivity].
Qed.

Lemma range_cons_run {A} (x : A) xs (body : A -> Go.M S unit) s :
  Go.range (x :: xs) body s =
  match body x s with
  | (Go.Val _, s') => Go.range xs body s'
  | (Go.Panicked, s') => (Go.Panicked, s')
  end.
Proof. reflexivity. Qed.

Lemma range_app_run {A} (xs ys : list A) (body : A -> Go.M S unit) s :
  Go.range (xs ++ ys) body s =
  match Go.range xs body s with
  | (Go.Val _, s') => Go.range ys body s'
  | (Go.Panicked, s') => (Go.Panicked, s')
  end.
Proof.
  revert s. induction xs as [|x xs IH]; intros s.
  - reflexivity.
  - rewrite <- app_comm_cons, !range_cons_run.
    destruct (body x s) as [[[]|] s']; [apply IH | reflexivity].
Qed.

(** An element whose body does nothing can be left out of the loop. *)
Lemma range_skip {A} (xs : list A) x ys (body : A -> Go.M S unit) :
  (forall s, body x s = (Go.Val tt, s)) ->
  forall s, Go.range (xs ++ x :: ys) body s = Go.range (xs ++ ys) body s.
Proof.
  intros Hx s. rewrite !range_app_run.
  destruct (Go.range xs body s) as [[[]|] s']; [|reflexivity].
  rewrite range_cons_run, Hx. reflexivity.
Qed.

(** Two elements with the same body can stand for one another. *)
Lemma range_replace {A} (xs : list A) x y ys (body : A -> Go.M S unit) :
  (forall s, body x s = body y s) ->
  forall s, Go.range (xs ++ x :: ys) body s = Go.range (xs ++ y :: ys) body s.
Proof.
  intros Hxy s. rewrite !range_app_run.
  destruct (Go.range xs body s) as [[[]|] s']; [|reflexivity].
  rewrite !range_cons_run, Hxy. reflexivity.
Qed.

End Running.

(** ** Fetching the autoscaler list *)

(** C10.  [getHpaList] and [getHpaListV2] read [out.Items] before anyone looks
    at the error and without a nil guard: when [List] hands back a nil list
    object the field access panics whatever the error is, and only when the
    list object is non-nil do the items and the error reach the caller.  In
    each variant a nil list object together with an error therefore ends the
    metrics goroutine in a panic, with the error never logged. *)
Theorem getHpaList_reads_items_before_error :
  forall (e : Go.error) (interval : Z) (json : Anno.Json),
    (forall (H : Type) (resp : ListResponse H) (st : Main.St),
        match out resp with
        | None => (getHpaList resp st).1 = Go.Panicked
        | Some items => (getHpaList resp st).1 = Go.Val (items, err resp)
        end) /\
    (forall st, Main.metricsIteration interval {| out := None; err := Some e |} st
                = (Go.Panicked,
                   {| registry := registry st; cache := cache st;
                      events := events st ++ [ListCall] |})) /\
    (forall st, Part002.metricsIteration json interval {| out := None; err := Some e |} st
                = (Go.Panicked,
                   {| registry := registry st; cache := cache st;
                      events := events st ++ [ListCall] |})) /\
    (forall st, Part003.metricsIteration json interval {| out := None; err := Some e |} st
                = (Go.Panicked,
                   {| registry := registry st; cache := cache st;
                      events := events st ++ [ListCall] |})) /\
    (forall st, Part004.metricsIteration interval {| out := None; err := Some e |} st
                = (Go.Panicked,
                   {| registry := registry st; cache := cache st;
                      events := events st ++ [ListCall] |})).
Proof.
  intros e interval json.
  split; [|split; [|split; [|split]]]; try (intros st; reflexivity).
  intros H resp st. destruct resp as [[items|] err0]; reflexivity.
Qed.

(** ** Fetch errors *)

(** C4.  A tick whose fetch returns an error leaves every series of the
    registry as it was, and in the cache-based variant the label caches too;
    in the reset-based variant the reset is not reached.  This holds whether
    or not the list object is nil. *)
Theorem fetch_error_leaves_registry_unchanged :
  forall (e : Go.error) (interval : Z) (json : Anno.Json),
    (forall o st,
        registry (Main.metricsIteration interval {| out := o; err := Some e |} st).2
        = registry st) /\
    (forall o st,
        registry (Part002.metricsIteration json interval {| out := o; err := Some e |} st).2
        = registry st) /\
    (forall o st,
        let st' := (Part003.metricsIteration json interval {| out := o; err := Some e |} st).2 in
        registry st' = registry st /\ cache st' = cache st) /\
    (forall o st,
        registry (Part004.metricsIteration interval {| out := o; err := Some e |} st).2
        = registry st).
Proof.
  intros e interval json.
  split; [|split; [|split]]; intros [items|] st; try reflexivity.
  all: split; reflexivity.
Qed.

(** C3, as the code runs it.  In every variant the [continue] of the error
    branch jumps over the [time.Sleep] that ends the iteration: after a failed
    fetch the error is logged and the very next event is the next List call.
    Shown on a failing fetch followed by a successful, empty one. *)
Theorem fetch_error_retries_without_sleep :
  forall (e : Go.error) (interval : Z) (json : Anno.Json),
    (forall items st,
        events (Main.metricsLoop interval
                  [ {| out := Some items; err := Some e |};
                    {| out := Some []; err := None |} ] st).2
        = events st ++ [ListCall; LogError e; ListCall; Sleep interval]) /\
    (forall items st,
        events (Part002.metricsLoop json interval
                  [ {| out := Some items; err := Some e |};
                    {| out := Some []; err := None |} ] st).2
        = events st ++ [ListCall; LogError e; ListCall; Sleep interval]) /\
    (forall items st,
        events (Part003.metricsLoop json interval
                  [ {| out := Some items; err := Some e |};
                    {| out := Some []; err := None |} ] st).2
        = events st ++ [ListCall; LogError e; ListCall; Sleep interval]) /\
    (forall items st,
        events (Part004.metricsLoop interval
                  [ {| out := Some items; err := Some e |};
                    {| out := Some []; err := None |} ] st).2
        = events st ++ [ListCall; LogError e; ListCall; Sleep interval]).
Proof.
  intros e interval json.
  split; [|split; [|split]]; intros items st;
    cbv [Main.metricsLoop Part002.metricsLoop Part003.metricsLoop
         Part004.metricsLoop Main.metricsIteration Part002.metricsIteration
         Part003.metricsIteration Part004.metricsIteration
         Part004.resetAllMetric Part004.collectors ResetVec
         Go.range getHpaList emit Go.deref Go.modify Go.bind Go.ret
         mbind mret go_bind go_ret out err events fst snd];
    rewrite <- ?app_assoc; reflexivity.
Qed.

(** ** Condition labels *)

(** C2.  The inactive label set of a condition: its [cond_status] is
    [False] when the observed status is [True] and [True] for every other
    observed status, [False] and [Unknown] among them; [cond_reason] and
    [cond_message] are the empty string; it has no other label.  For the
    cache-based variant (part_003) and the reset-based one (part_004). *)
Theorem inactive_labels_negate_status :
  forall (c3 : Anno.condition) (c4 : as_v2.Condition.t),
    let rev3 := (Part003.makeAnnotationCondLabels c3).2 in
    let rev4 := (Part004.makeAnnotationCondLabels c4).2 in
    ((Anno.Status c3 = "True" -> rev3 !! "cond_status" = Some "False") /\
     (Anno.Status c3 <> "True" -> rev3 !! "cond_status" = Some "True") /\
     rev3 !! "cond_reason" = Some "" /\
     rev3 !! "cond_message" = Some "" /\
     dom rev3 = ({[ "cond_status"; "cond_reason"; "cond_message" ]} : gset string)) /\
    ((as_v2.Condition.Status c4 = "True" -> rev4 !! "cond_status" = Some "False") /\
     (as_v2.Condition.Status c4 <> "True" -> rev4 !! "cond_status" = Some "True") /\
     rev4 !! "cond_reason" = Some "" /\
     rev4 !! "cond_message" = Some "" /\
     dom rev4 = ({[ "cond_status"; "cond_reason"; "cond_message" ]} : gset string)).
Proof.
  intros c3 c4. cbn zeta.
  unfold Part003.makeAnnotationCondLabels, Part004.makeAnnotationCondLabels,
    Part003.conditionStatusTrue, Part003.conditionStatusFalse,
    core_v1.ConditionTrue, core_v1.ConditionFalse. cbn [snd].
  split.
  - split; [|split; [|split; [|split]]].
    + intros ->. rewrite decide_True by reflexivity. reflexivity.
    + intros Hne. rewrite decide_False by assumption. reflexivity.
    + reflexivity.
    + reflexivity.
    + rewrite !dom_insert_L, dom_singleton_L. set_solver.
  - split; [|split; [|split; [|split]]].
    + intros ->. rewrite decide_True by reflexivity. reflexivity.
    + intros Hne. rewrite decide_False by assumption. reflexivity.
    + reflexivity.
    + reflexivity.
    + rewrite !dom_insert_L, dom_singleton_L. set_solver.
Qed.

(** The three statuses the API defines, run through both functions. *)
Example inactive_status_of_each_status :
  let c3 s := {| Anno.Type_ := "ScalingActive"; Anno.Status := s;
                 Anno.LastTransitionTime := {| meta_v1.Unix := 0 |};
                 Anno.Reason := "ValidMetricFound"; Anno.Message := "ok" |} in
  let c4 s := {| as_v2.Condition.Type_ := "ScalingActive";
                 as_v2.Condition.Status := s;
                 as_v2.Condition.LastTransitionTime := {| meta_v1.Unix := 0 |};
                 as_v2.Condition.Reason := "ValidMetricFound";
                 as_v2.Condition.Message := "ok" |} in
  map (fun s => (Part003.makeAnnotationCondLabels (c3 s)).2 !! "cond_status")
      ["True"; "False"; "Unknown"]
  = [Some "False"; Some "True"; Some "True"] /\
  map (fun s => (Part004.makeAnnotationCondLabels (c4 s)).2 !! "cond_status")
      [core_v1.ConditionTrue; core_v1.ConditionFalse; core_v1.ConditionUnknown]
  = [Some "False"; Some "True"; Some "True"].
Proof. split; vm_compute; reflexivity. Qed.

(** ** Metric descriptors of the v2beta1 variant *)

(** C6.  A Resource-kind target descriptor that carries a utilization is
    published with that utilization promoted to float64 as its value and with
    [-] as its [metric_metricname] label, whatever its average value holds;
    an Object-kind target descriptor is published with the milli-value of its
    target quantity divided by 1000. *)
Theorem metric_kind_value_conversion :
  forall (baseLabel : Labels) (st : Part004.St)
         (mr : as_v2.MetricSpec.t) (r : as_v2.ResourceMetricSource.t) (u : Z)
         (mo : as_v2.MetricSpec.t) (o : as_v2.ObjectMetricSource.t),
    as_v2.MetricSpec.Type_ mr = as_v2.ResourceMetricSourceType ->
    as_v2.MetricSpec.Resource mr = Some r ->
    as_v2.ResourceMetricSource.TargetAverageUtilization r = Some u ->
    as_v2.MetricSpec.Type_ mo = as_v2.ObjectMetricSourceType ->
    as_v2.MetricSpec.Object mo = Some o ->
    Part004.parseResourceSpec (Some r)
    = Go.Val {| Part004.cmKind := "Resource";
                Part004.cmName := as_v2.ResourceMetricSource.Name r;
                Part004.cmMetricName := "-";
                Part004.cmValue := Go.float64 u |} /\
    Part004.parseObjectSpec (Some o)
    = Go.Val {| Part004.cmKind := Kind (as_v2.ObjectMetricSource.Target o);
                Part004.cmName := Name (as_v2.ObjectMetricSource.Target o);
                Part004.cmMetricName := as_v2.ObjectMetricSource.MetricName o;
                Part004.cmValue :=
                  PrimFloat.div
                    (Go.float64
                       (resource.MilliValue (as_v2.ObjectMetricSource.TargetValue o)))
                    1000%float |} /\
    (let '(result, st') := Part004.targetMetric baseLabel mr st in
     result = Go.Val tt /\
     registry st' !!
       (Part004.hpaTargetMetricsValue,
        mergeLabels baseLabel
          {[ "metric_kind" := "Resource";
             "metric_name" := as_v2.ResourceMetricSource.Name r;
             "metric_metricname" := "-" ]})
     = Some (Go.float64 u)) /\
    (let '(result, st') := Part004.targetMetric baseLabel mo st in
     result = Go.Val tt /\
     registry st' !!
       (Part004.hpaTargetMetricsValue,
        mergeLabels baseLabel
          {[ "metric_kind" := Kind (as_v2.ObjectMetricSource.Target o);
             "metric_name" := Name (as_v2.ObjectMetricSource.Target o);
             "metric_metricname" := as_v2.ObjectMetricSource.MetricName o ]})
     = Some (PrimFloat.div
               (Go.float64
                  (resource.MilliValue (as_v2.ObjectMetricSource.TargetValue o)))
               1000%float)).
Proof.
  intros baseLabel st mr r u mo o Htr Hr Hu Hto Ho.
  split; [|split; [|split]].
  - unfold Part004.parseResourceSpec. cbn. rewrite Hu. reflexivity.
  - reflexivity.
  - unfold Part004.targetMetric. cbn zeta. rewrite Htr, Hr.
    unfold Part004.parseResourceSpec. cbn. rewrite Hu. cbn.
    split; [reflexivity|]. apply lookup_insert_eq.
  - unfold Part004.targetMetric. cbn zeta. rewrite Hto, Ho. cbn.
    split; [reflexivity|]. apply lookup_insert_eq.
Qed.

(** The two descriptors of the spec's example: a utilization of 80 is
    published as 80.0 under [metric_metricname = -], a target quantity of
    2500 milli-units as 2.5. *)
Lemma metric_kind_value_conversion_witness :
  let baseLabel : Labels :=
    {[ "hpa_name" := "web"; "hpa_namespace" := "default";
       "ref_kind" := "Deployment"; "ref_name" := "web";
       "ref_apiversion" := "apps/v1" ]} in
  let r := {| as_v2.ResourceMetricSource.Name := "cpu";
              as_v2.ResourceMetricSource.TargetAverageUtilization := Some 80;
              as_v2.ResourceMetricSource.TargetAverageValue := None |} in
  let o := {| as_v2.ObjectMetricSource.Target :=
                {| Kind := "Ingress"; Name := "front"; APIVersion := "extensions/v1beta1" |};
              as_v2.ObjectMetricSource.MetricName := "requests-per-second";
              as_v2.ObjectMetricSource.TargetValue := {| resource.MilliValue := 2500 |} |} in
  let mr := {| as_v2.MetricSpec.Type_ := "Resource"; as_v2.MetricSpec.Object := None;
               as_v2.MetricSpec.Pods := None; as_v2.MetricSpec.Resource := Some r;
               as_v2.MetricSpec.External := None |} in
  let mo := {| as_v2.MetricSpec.Type_ := "Object"; as_v2.MetricSpec.Object := Some o;
               as_v2.MetricSpec.Pods := None; as_v2.MetricSpec.Resource := None;
               as_v2.MetricSpec.External := None |} in
  registry (Part004.targetMetric baseLabel mr Part004.initial).2 !!
    (Part004.hpaTargetMetricsValue,
     mergeLabels baseLabel
       {[ "metric_kind" := "Resource"; "metric_name" := "cpu";
          "metric_metricname" := "-" ]})
  = Some 80%float /\
  registry (Part004.targetMetric baseLabel mo Part004.initial).2 !!
    (Part004.hpaTargetMetricsValue,
     mergeLabels baseLabel
       {[ "metric_kind" := "Ingress"; "metric_name" := "front";
          "metric_metricname" := "requests-per-second" ]})
  = Some 2.5%float.
Proof.
  intros baseLabel r o mr mo.
  destruct (metric_kind_value_conversion baseLabel Part004.initial mr r 80 mo o
              eq_refl eq_refl eq_refl eq_refl eq_refl)
    as (_ & _ & Hres & Hobj).
  destruct (Part004.targetMetric baseLabel mr Part004.initial) as [res1 st1].
  destruct (Part004.targetMetric baseLabel mo Part004.initial) as [res2 st2].
  split.
  - exact (proj2 Hres).
  - exact (proj2 Hobj).
Defined.

Lemma targetMetric_unknown_type (baseLabel : Labels) (m : as_v2.MetricSpec.t) (s : Part004.St) :
  ~ Part004.knownMetricType (as_v2.MetricSpec.Type_ m) ->
  Part004.targetMetric baseLabel m s = (Go.Val tt, s).
Proof.
  intros Hunknown. unfold Part004.targetMetric, Part004.knownMetricType in *.
  cbn zeta. repeat case_decide; solve [reflexivity | exfalso; tauto].
Qed.

Lemma currentMetric_unknown_type (baseLabel : Labels) (m : as_v2.MetricStatus.t) (s : Part004.St) :
  ~ Part004.knownMetricType (as_v2.MetricStatus.Type_ m) ->
  Part004.currentMetric baseLabel m s = (Go.Val tt, s).
Proof.
  intros Hunknown. unfold Part004.currentMetric, Part004.knownMetricType in *.
  cbn zeta. repeat case_decide; solve [reflexivity | exfalso; tauto].
Qed.

Lemma publishHpa_without_unknown_metrics (a : as_v2.HorizontalPodAutoscaler)
    (ms1 ms2 : list as_v2.MetricSpec.t) (m : as_v2.MetricSpec.t)
    (cs1 cs2 : list as_v2.MetricStatus.t) (c : as_v2.MetricStatus.t)
    (s : Part004.St) :
  ~ Part004.knownMetricType (as_v2.MetricSpec.Type_ m) ->
  ~ Part004.knownMetricType (as_v2.MetricStatus.Type_ c) ->
  Part004.publishHpa (Part004.withMetrics a (ms1 ++ m :: ms2) (cs1 ++ c :: cs2)) s
  = Part004.publishHpa (Part004.withMetrics a (ms1 ++ ms2) (cs1 ++ cs2)) s.
Proof.
  intros Hm Hc. unfold Part004.publishHpa. cbn zeta.
  change (Part004.baseLabelOf (Part004.withMetrics a (ms1 ++ m :: ms2) (cs1 ++ c :: cs2)))
    with (Part004.baseLabelOf a).
  change (Part004.baseLabelOf (Part004.withMetrics a (ms1 ++ ms2) (cs1 ++ cs2)))
    with (Part004.baseLabelOf a).
  change (Part004.publishBase (Part004.baseLabelOf a)
            (Part004.withMetrics a (ms1 ++ m :: ms2) (cs1 ++ c :: cs2)))
    with (Part004.publishBase (Part004.baseLabelOf a) a).
  change (Part004.publishBase (Part004.baseLabelOf a)
            (Part004.withMetrics a (ms1 ++ ms2) (cs1 ++ cs2)))
    with (Part004.publishBase (Part004.baseLabelOf a) a).
  cbn [Part004.withMetrics as_v2.Spec as_v2.Status as_v2.Metrics
       as_v2.CurrentMetrics as_v2.Conditions as_v2.MinReplicas
       as_v2.MaxReplicas as_v2.LastScaleTime as_v2.CurrentReplicas
       as_v2.DesiredReplicas].
  apply bind_cong; intros [] ?.
  rewrite !(bind_run (Go.range _ _)).
  rewrite (range_skip ms1 m ms2 _ (fun s0 => targetMetric_unknown_type _ m s0 Hm)).
  destruct (Go.range (ms1 ++ ms2) _ _) as [[[]|] ?]; [|reflexivity].
  rewrite !(bind_run (Go.range _ _)).
  rewrite (range_skip cs1 c cs2 _ (fun s0 => currentMetric_unknown_type _ c s0 Hc)).
  reflexivity.
Qed.

(** C8.  A target or current metric descriptor whose type is none of Object,
    Pods, Resource, External makes its loop body do nothing: no series, no
    panic, and the loop goes on.  A whole tick over a snapshot that holds such
    descriptors therefore ends exactly as the tick over the same snapshot
    without them: same result, same registry, same events. *)
Theorem unknown_metric_kinds_are_dropped :
  forall (interval : Z) (pre post : list as_v2.HorizontalPodAutoscaler)
         (a : as_v2.HorizontalPodAutoscaler)
         (ms1 ms2 : list as_v2.MetricSpec.t) (m : as_v2.MetricSpec.t)
         (cs1 cs2 : list as_v2.MetricStatus.t) (c : as_v2.MetricStatus.t)
         (st : Part004.St),
    ~ Part004.knownMetricType (as_v2.MetricSpec.Type_ m) ->
    ~ Part004.knownMetricType (as_v2.MetricStatus.Type_ c) ->
    (forall baseLabel s, Part004.targetMetric baseLabel m s = (Go.Val tt, s)) /\
    (forall baseLabel s, Part004.currentMetric baseLabel c s = (Go.Val tt, s)) /\
    Part004.metricsIteration interval
      {| out := Some (pre ++ Part004.withMetrics a (ms1 ++ m :: ms2) (cs1 ++ c :: cs2) :: post);
         err := None |} st
    = Part004.metricsIteration interval
        {| out := Some (pre ++ Part004.withMetrics a (ms1 ++ ms2) (cs1 ++ cs2) :: post);
           err := None |} st.
Proof.
  intros interval pre post a ms1 ms2 m cs1 cs2 c st Hm Hc.
  split; [|split].
  - intros baseLabel s. apply targetMetric_unknown_type, Hm.
  - intros baseLabel s. apply currentMetric_unknown_type, Hc.
  - unfold Part004.metricsIteration, getHpaList. cbn [out err Go.deref].
    rewrite !bind_run. cbn [emit Go.modify].
    rewrite !bind_run. cbn [mret go_ret Go.ret].
    rewrite !bind_run.
    destruct (Part004.resetAllMetric _) as [[[]|] s1]; [|reflexivity].
    rewrite !bind_run.
    rewrite (range_replace pre _
               (Part004.withMetrics a (ms1 ++ ms2) (cs1 ++ cs2)) post
               Part004.publishHpa
               (fun s0 => publishHpa_without_unknown_metrics a ms1 ms2 m cs1 cs2 c s0 Hm Hc)).
    reflexivity.
Qed.

(** A snapshot with a ContainerResource descriptor in each list is published
    exactly as the snapshot without them. *)
Lemma unknown_metric_kinds_are_dropped_witness :
  Part004.metricsIteration 30
    (Sample.listed
       [Sample.webV2 [Sample.cpuTarget 80; Sample.containerTarget]
                     [Sample.containerCurrent; Sample.cpuCurrent 72] []])
    Part004.initial
  = Part004.metricsIteration 30
      (Sample.listed [Sample.webV2 [Sample.cpuTarget 80] [Sample.cpuCurrent 72] []])
      Part004.initial.
Proof.
  refine (proj2 (proj2 (unknown_metric_kinds_are_dropped 30 [] []
            (Sample.webV2 [] [] []) [Sample.cpuTarget 80] [] Sample.containerTarget
            [] [Sample.cpuCurrent 72] Sample.containerCurrent Part004.initial _ _))).
  - unfold Part004.knownMetricType. cbn. intros [H|[H|[H|H]]]; discriminate H.
  - unfold Part004.knownMetricType. cbn. intros [H|[H|[H|H]]]; discriminate H.
Defined.

(** ** The events recorded so far never steer the code *)

Section DataOnly.
Context {C : Type} `{Countable C} {K : Type}.
Abbreviation St := (State (gmap (C * Labels) float) K).

Lemma sameData_refl (s : St) : sameData s s.
Proof. split; reflexivity. Qed.

Lemma dataOnly_ret {A : Type} (a : A) : dataOnly (mret a : Go.M St A).
Proof. intros s1 s2 Hs. split; [reflexivity | exact Hs]. Qed.

Lemma dataOnly_panic {A : Type} : dataOnly (Go.panic : Go.M St A).
Proof. intros s1 s2 Hs. split; [reflexivity | exact Hs]. Qed.

Lemma dataOnly_lift {A : Type} (r : Go.res A) : dataOnly (lift r : Go.M St A).
Proof. intros s1 s2 Hs. split; [reflexivity | exact Hs]. Qed.

Lemma dataOnly_deref {A : Type} (p : option A) : dataOnly (Go.deref p : Go.M St A).
Proof. destruct p; [apply dataOnly_ret | apply dataOnly_panic]. Qed.

Lemma dataOnly_bind {A B : Type} (m : Go.M St A) (f : A -> Go.M St B) :
  dataOnly m -> (forall a, dataOnly (f a)) -> dataOnly (m ≫= f).
Proof.
  intros Hm Hf s1 s2 Hs. rewrite !bind_run.
  destruct (Hm s1 s2 Hs) as [Hres Hdata].
  destruct (m s1) as [[a1|] s1'], (m s2) as [[a2|] s2']; cbn in *;
    try discriminate Hres.
  - injection Hres as ->. apply Hf, Hdata.
  - split; [reflexivity | exact Hdata].
Qed.

Lemma dataOnly_range {A : Type} (xs : list A) (body : A -> Go.M St unit) :
  (forall x, dataOnly (body x)) -> dataOnly (Go.range xs body).
Proof.
  intros Hbody. induction xs as [|x xs IH].
  - apply (dataOnly_ret tt).
  - apply (dataOnly_bind (body x)); [apply Hbody | intros _; exact IH].
Qed.

Lemma dataOnly_WithSet (c : C) (l : Labels) (v : float) : dataOnly (WithSet c l v : Go.M St unit).
Proof.
  intros s1 s2 [Hr Hc]. split; [reflexivity|]. split; cbn; congruence.
Qed.

Lemma dataOnly_Delete (c : C) (l : Labels) : dataOnly (Delete c l : Go.M St unit).
Proof.
  intros s1 s2 [Hr Hc]. split; [reflexivity|]. split; cbn; congruence.
Qed.

Lemma dataOnly_ResetVec (c : C) : dataOnly (ResetVec c : Go.M St unit).
Proof.
  intros s1 s2 [Hr Hc]. split; [reflexivity|]. split; cbn; congruence.
Qed.

Lemma dataOnly_emit (e : Event) : dataOnly (emit e : Go.M St unit).
Proof.
  intros s1 s2 [Hr Hc]. split; [reflexivity|]. split; cbn; congruence.
Qed.

Lemma dataOnly_readCache : dataOnly (readCache : Go.M St K).
Proof.
  intros s1 s2 [Hr Hc]. split; [cbn; congruence|]. split; assumption.
Qed.

Lemma dataOnly_writeCache (f : K -> K) : dataOnly (writeCache f : Go.M St unit).
Proof.
  intros s1 s2 [Hr Hc]. split; [reflexivity|]. split; cbn; congruence.
Qed.

End DataOnly.

Create HintDb go_data discriminated.
#[export] Hint Resolve dataOnly_ret dataOnly_panic dataOnly_lift dataOnly_deref
  dataOnly_WithSet dataOnly_Delete dataOnly_ResetVec dataOnly_emit
  dataOnly_readCache dataOnly_writeCache : go_data.

(** Peels sequencing, loops and case distinctions off a [dataOnly] goal. *)
Ltac data_only :=
  repeat first
    [ match goal with |- forall _, _ => intro end
    | progress cbn beta zeta
    | apply dataOnly_bind
    | apply dataOnly_range
    | solve [auto with go_data]
    | match goal with
      | |- dataOnly (match ?x with _ => _ end) => destruct x
      | |- dataOnly (if ?b then _ else _) => destruct b
      | |- dataOnly (let '(_, _) := ?x in _) => destruct x
      end ].

Lemma dataOnly_publishBase {K : Type} (label : Labels)
    (a : as_v1.HorizontalPodAutoscaler) (cpuVal : Z) :
  dataOnly (Anno.publishBase (K:=K) label a cpuVal).
Proof. unfold Anno.publishBase. data_only. Qed.

Lemma dataOnly_cpuValOf {K : Type} (metrics : list Anno.currentMetrics) :
  dataOnly (Anno.cpuValOf (K:=K) metrics).
Proof.
  unfold Anno.cpuValOf, Anno.currentAverageCpuValue. data_only.
Qed.

#[export] Hint Resolve dataOnly_publishBase dataOnly_cpuValOf : go_data.

Lemma dataOnly_publishHpa_002 (json : Anno.Json) (a : as_v1.HorizontalPodAutoscaler) :
  dataOnly (Part002.publishHpa json a).
Proof.
  unfold Part002.publishHpa, Part002.publishCondition. cbn zeta. data_only.
Qed.

Lemma dataOnly_publishHpa_003 (json : Anno.Json) (a : as_v1.HorizontalPodAutoscaler) :
  dataOnly (Part003.publishHpa json a).
Proof.
  unfold Part003.publishHpa, Part003.publishCondition, Part003.relabel.
  cbn zeta. data_only.
Qed.

Lemma dataOnly_publishHpa_004 (a : as_v2.HorizontalPodAutoscaler) :
  dataOnly (Part004.publishHpa a).
Proof.
  unfold Part004.publishHpa, Part004.publishBase, Part004.targetMetric,
    Part004.currentMetric, Part004.publishMetric, Part004.publishCondition.
  data_only.
Qed.

(** ** Malformed annotations *)

Section SkippedElement.
Context {C : Type} `{Countable C} {K : Type}.
Abbreviation St := (State (gmap (C * Labels) float) K).

(** An element whose body changes nothing but the events can be left out of
    the loop without changing the result, the registry or the caches. *)
Lemma range_skip_data {A : Type} (pre post : list A) (x : A)
    (body : A -> Go.M St unit) :
  (forall y, dataOnly (body y)) ->
  (forall s, (body x s).1 = Go.Val tt /\ sameData (body x s).2 s) ->
  forall s : St,
    (Go.range (pre ++ x :: post) body s).1 = (Go.range (pre ++ post) body s).1 /\
    sameData (Go.range (pre ++ x :: post) body s).2 (Go.range (pre ++ post) body s).2.
Proof.
  intros Hbody Hx s. rewrite !range_app_run.
  destruct (Go.range pre body s) as [[[]|] s1].
  - rewrite range_cons_run.
    destruct (Hx s1) as [Hres Hdata].
    destruct (body x s1) as [r s1']. cbn in Hres, Hdata. subst r.
    apply (dataOnly_range post body Hbody), Hdata.
  - split; [reflexivity | apply sameData_refl].
Qed.

End SkippedElement.

Lemma publishHpa_003_decode_error (json : Anno.Json)
    (a : as_v1.HorizontalPodAutoscaler) (e : Go.error) (s : Part003.St) :
  Anno.decodeError json a = Some e ->
  Part003.publishHpa json a s
  = (Go.Val tt,
     {| registry := registry s; cache := cache s;
        events := events s ++ [LogError e] |}).
Proof.
  unfold Anno.decodeError, Part003.publishHpa. cbn zeta. intros He.
  destruct (Anno.UnmarshalMetrics json _) as [e1|metrics].
  - injection He as ->. reflexivity.
  - destruct (Anno.UnmarshalConditions json _) as [e2|conditions];
      [|discriminate He].
    injection He as ->. reflexivity.
Qed.

Lemma publishHpa_002_decode_error (json : Anno.Json)
    (a : as_v1.HorizontalPodAutoscaler) (e : Go.error) (s : Part002.St) :
  Anno.decodeError json a = Some e ->
  Part002.publishHpa json a s
  = (Go.Val tt,
     {| registry := registry s; cache := cache s;
        events := events s ++ [LogError e] |}).
Proof.
  unfold Anno.decodeError, Part002.publishHpa. cbn zeta. intros He.
  destruct (Anno.UnmarshalMetrics json _) as [e1|metrics].
  - injection He as ->. reflexivity.
  - destruct (Anno.UnmarshalConditions json _) as [e2|conditions];
      [|discriminate He].
    injection He as ->. reflexivity.
Qed.

Lemma publishHpa_002_skipped (json : Anno.Json)
    (a : as_v1.HorizontalPodAutoscaler) (e : Go.error) :
  Anno.decodeError json a = Some e ->
  forall s : Part002.St,
    (Part002.publishHpa json a s).1 = Go.Val tt /\
    sameData (Part002.publishHpa json a s).2 s.
Proof.
  intros He s. rewrite (publishHpa_002_decode_error json a e s He).
  split; [reflexivity | split; reflexivity].
Qed.

Lemma publishHpa_003_skipped (json : Anno.Json)
    (a : as_v1.HorizontalPodAutoscaler) (e : Go.error) :
  Anno.decodeError json a = Some e ->
  forall s : Part003.St,
    (Part003.publishHpa json a s).1 = Go.Val tt /\
    sameData (Part003.publishHpa json a s).2 s.
Proof.
  intros He s. rewrite (publishHpa_003_decode_error json a e s He).
  split; [reflexivity | split; reflexivity].
Qed.

(** C9.  In the two annotation-based variants, an autoscaler whose
    current-metrics annotation or, failing that, conditions annotation does
    not decode is given up on: the error is logged, no gauge is written and
    no cache entry changes, and the loop body returns normally.  The tick over
    a snapshot that holds such an autoscaler ends with the result, the
    registry and the caches of the tick over the snapshot without it, so the
    other autoscalers are processed as ever and the goroutine goes on to its
    next tick. *)
Theorem malformed_annotation_skips_one_autoscaler :
  forall (json : Anno.Json) (interval : Z)
         (pre post : list as_v1.HorizontalPodAutoscaler)
         (a : as_v1.HorizontalPodAutoscaler) (e : Go.error)
         (s2 : Part002.St) (s3 : Part003.St),
    Anno.decodeError json a = Some e ->
    (Part002.publishHpa json a s2
     = (Go.Val tt,
        {| registry := registry s2; cache := cache s2;
           events := events s2 ++ [LogError e] |}) /\
     let with_a := Part002.metricsIteration json interval
                     {| out := Some (pre ++ a :: post); err := None |} s2 in
     let without := Part002.metricsIteration json interval
                      {| out := Some (pre ++ post); err := None |} s2 in
     with_a.1 = without.1 /\ sameData with_a.2 without.2) /\
    (Part003.publishHpa json a s3
     = (Go.Val tt,
        {| registry := registry s3; cache := cache s3;
           events := events s3 ++ [LogError e] |}) /\
     let with_a := Part003.metricsIteration json interval
                     {| out := Some (pre ++ a :: post); err := None |} s3 in
     let without := Part003.metricsIteration json interval
                      {| out := Some (pre ++ post); err := None |} s3 in
     with_a.1 = without.1 /\ sameData with_a.2 without.2).
Proof.
  intros json interval pre post a e s2 s3 He. split.
  - split; [apply publishHpa_002_decode_error, He|]. cbn zeta.
    unfold Part002.metricsIteration, getHpaList. cbn [out err Go.deref].
    rewrite !bind_run. cbn [emit Go.modify]. rewrite !bind_run.
    cbn [mret go_ret Go.ret]. rewrite !bind_run.
    match goal with
    | |- context [Go.range (pre ++ post) _ ?s0] =>
        destruct (range_skip_data pre post a (Part002.publishHpa json)
                    (dataOnly_publishHpa_002 json)
                    (publishHpa_002_skipped json a e He) s0)
          as [Hres Hdata]
    end.
    destruct (Go.range (pre ++ a :: post) _ _) as [[[]|] s1],
             (Go.range (pre ++ post) _ _) as [[[]|] s1'];
      cbn in Hres; try discriminate Hres.
    + apply (dataOnly_emit (Sleep interval)), Hdata.
    + split; [reflexivity | exact Hdata].
  - split; [apply publishHpa_003_decode_error, He|]. cbn zeta.
    unfold Part003.metricsIteration, getHpaList. cbn [out err Go.deref].
    rewrite !bind_run. cbn [emit Go.modify]. rewrite !bind_run.
    cbn [mret go_ret Go.ret]. rewrite !bind_run.
    match goal with
    | |- context [Go.range (pre ++ post) _ ?s0] =>
        destruct (range_skip_data pre post a (Part003.publishHpa json)
                    (dataOnly_publishHpa_003 json)
                    (publishHpa_003_skipped json a e He) s0)
          as [Hres Hdata]
    end.
    destruct (Go.range (pre ++ a :: post) _ _) as [[[]|] s1],
             (Go.range (pre ++ post) _ _) as [[[]|] s1'];
      cbn in Hres; try discriminate Hres.
    + apply (dataOnly_emit (Sleep interval)), Hdata.
    + split; [reflexivity | exact Hdata].
Qed.

(** Between two healthy autoscalers, one whose conditions annotation is cut
    short: the tick ends as the tick over the two healthy ones. *)
Lemma malformed_annotation_skips_one_autoscaler_witness :
  let with_a :=
    Part003.metricsIteration Sample.json 30
      (Sample.listed [Sample.web "prod" "web" [Sample.ready];
                      Sample.truncated "prod";
                      Sample.web "staging" "web" [Sample.backoff]])
      Part003.initial in
  let without :=
    Part003.metricsIteration Sample.json 30
      (Sample.listed [Sample.web "prod" "web" [Sample.ready];
                      Sample.web "staging" "web" [Sample.backoff]])
      Part003.initial in
  Anno.decodeError Sample.json (Sample.truncated "prod")
  = Some "json: cannot unmarshal the annotation" /\
  with_a.1 = without.1 /\ sameData with_a.2 without.2.
Proof.
  assert (Anno.decodeError Sample.json (Sample.truncated "prod")
          = Some "json: cannot unmarshal the annotation") as He
    by (vm_compute; reflexivity).
  split; [exact He|].
  exact (proj2 (proj2 (malformed_annotation_skips_one_autoscaler Sample.json 30
           [Sample.web "prod" "web" [Sample.ready]]
           [Sample.web "staging" "web" [Sample.backoff]]
           (Sample.truncated "prod") _ Part002.initial Part003.initial He))).
Defined.

(** ** Which vectors a piece of code writes *)

Section WritesOnly.
Context {C : Type} `{Countable C} {K : Type}.
Abbreviation St := (State (gmap (C * Labels) float) K).
Implicit Types P : C -> Prop.

Lemma writesOnly_ret {A : Type} P (a : A) : writesOnly P (mret a : Go.M St A).
Proof. intros s key _. reflexivity. Qed.

Lemma writesOnly_panic {A : Type} P : writesOnly P (Go.panic : Go.M St A).
Proof. intros s key _. reflexivity. Qed.

Lemma writesOnly_lift {A : Type} P (r : Go.res A) : writesOnly P (lift r : Go.M St A).
Proof. intros s key _. reflexivity. Qed.

Lemma writesOnly_bind {A B : Type} P (m : Go.M St A) (f : A -> Go.M St B) :
  writesOnly P m -> (forall a, writesOnly P (f a)) -> writesOnly P (m ≫= f).
Proof.
  intros Hm Hf s key Hkey. rewrite bind_run.
  specialize (Hm s key Hkey).
  destruct (m s) as [[a|] s']; cbn in Hm.
  - rewrite (Hf a s' key Hkey). exact Hm.
  - exact Hm.
Qed.

Lemma writesOnly_range {A : Type} P (xs : list A) (body : A -> Go.M St unit) :
  (forall x, writesOnly P (body x)) -> writesOnly P (Go.range xs body).
Proof.
  intros Hbody. induction xs as [|x xs IH].
  - apply (writesOnly_ret P tt).
  - apply (writesOnly_bind P (body x)); [apply Hbody | intros _; exact IH].
Qed.

Lemma writesOnly_WithSet P (c : C) (l : Labels) (v : float) :
  P c -> writesOnly P (WithSet c l v : Go.M St unit).
Proof.
  intros Hc s [c' l'] Hkey. cbn in *.
  apply lookup_insert_ne. intros [= -> _]. exact (Hkey Hc).
Qed.

Lemma writesOnly_Delete P (c : C) (l : Labels) :
  P c -> writesOnly P (Delete c l : Go.M St unit).
Proof.
  intros Hc s [c' l'] Hkey. cbn in *.
  apply lookup_delete_ne. intros [= -> _]. exact (Hkey Hc).
Qed.

Lemma writesOnly_emit P (e : Event) : writesOnly P (emit e : Go.M St unit).
Proof. intros s key _. reflexivity. Qed.

Lemma writesOnly_readCache P : writesOnly P (readCache : Go.M St K).
Proof. intros s key _. reflexivity. Qed.

Lemma writesOnly_writeCache P (f : K -> K) : writesOnly P (writeCache f : Go.M St unit).
Proof. intros s key _. reflexivity. Qed.

End WritesOnly.

Create HintDb go_writes discriminated.
#[export] Hint Resolve writesOnly_ret writesOnly_panic writesOnly_lift
  writesOnly_emit writesOnly_readCache writesOnly_writeCache : go_writes.

(** Peels sequencing, loops and case distinctions off a [writesOnly] goal;
    that a vector written is one the goal admits is settled by evaluation. *)
Ltac writes_only :=
  repeat first
    [ match goal with |- forall _, _ => intro end
    | progress cbn beta zeta
    | apply writesOnly_bind
    | apply writesOnly_range
    | solve [auto with go_writes]
    | apply writesOnly_WithSet; cbn beta; solve [reflexivity | auto with go_writes]
    | apply writesOnly_Delete; cbn beta; solve [reflexivity | auto with go_writes]
    | match goal with
      | |- writesOnly _ (match ?x with _ => _ end) => destruct x
      | |- writesOnly _ (if ?b then _ else _) => destruct b
      | |- writesOnly _ (let '(_, _) := ?x in _) => destruct x
      end ].

(** ** Optional fields and the base series *)

(** Splits a conjunction into its conjuncts, and nothing else. *)
Ltac split_ands := repeat match goal with |- _ /\ _ => split end.

(** Settles an equation between two closed finite sets by deciding it. *)
Ltac decide_set_eq := apply (bool_decide_eq_true_1 _); vm_compute; reflexivity.

(** Runs straight-line gauge code on a state. *)
Ltac run_go :=
  cbv [mbind mret go_bind go_ret Go.bind Go.ret Go.modify Go.deref Go.panic
       WithSet Delete emit readCache writeCache lift registry cache events
       fst snd].

(** Reads a series back out of a pile of [With(...).Set(...)] calls. *)
Ltac read_series :=
  run_go;
  repeat (rewrite lookup_insert_ne by (intros [=]));
  first [ apply lookup_insert_eq | reflexivity ].

Lemma publishHpa_main_suppressed (a : as_v1.HorizontalPodAutoscaler) (s : Main.St) :
  as_v1.MinReplicas (as_v1.Spec a) = None \/
  as_v1.CurrentCPUUtilizationPercentage (as_v1.Status a) = None \/
  as_v1.TargetCPUUtilizationPercentage (as_v1.Spec a) = None ->
  Main.publishHpa a s = (Go.Val tt, s).
Proof.
  unfold Main.publishHpa. intros Habsent.
  destruct (as_v1.MinReplicas _), (as_v1.CurrentCPUUtilizationPercentage _),
    (as_v1.TargetCPUUtilizationPercentage _); try reflexivity.
  destruct Habsent as [Hn|[Hn|Hn]]; discriminate Hn.
Qed.

Lemma publishHpa_main_published (a : as_v1.HorizontalPodAutoscaler) (s : Main.St)
    (minReplicas currentCPU targetCPU : Z) (t : meta_v1.Time) :
  as_v1.MinReplicas (as_v1.Spec a) = Some minReplicas ->
  as_v1.CurrentCPUUtilizationPercentage (as_v1.Status a) = Some currentCPU ->
  as_v1.TargetCPUUtilizationPercentage (as_v1.Spec a) = Some targetCPU ->
  as_v1.LastScaleTime (as_v1.Status a) = Some t ->
  (Main.publishHpa a s).1 = Go.Val tt /\
  let r := registry (Main.publishHpa a s).2 in
  let label := Main.labelOf a in
  published r Main.hpaCurrentPodsNum label (as_v1.CurrentReplicas (as_v1.Status a)) /\
  published r Main.hpaDesiredPodsNum label (as_v1.DesiredReplicas (as_v1.Status a)) /\
  published r Main.hpaMinPodsNum label minReplicas /\
  published r Main.hpaMaxPodsNum label (as_v1.MaxReplicas (as_v1.Spec a)) /\
  published r Main.hpaCurrentCpuPercentage label currentCPU /\
  published r Main.hpaTargetCpuPercentage label targetCPU /\
  published r Main.hpaLastScaleSecond label (meta_v1.Unix t).
Proof.
  unfold Main.publishHpa, published. intros -> -> -> ->. cbn.
  split_ands; read_series.
Qed.

Lemma publishBase_004_published (label : Labels)
    (a : as_v2.HorizontalPodAutoscaler) (s : Part004.St) :
  (Part004.publishBase label a s).1 = Go.Val tt /\
  let r := registry (Part004.publishBase label a s).2 in
  published r Part004.hpaCurrentPodsNum label (as_v2.CurrentReplicas (as_v2.Status a)) /\
  published r Part004.hpaDesiredPodsNum label (as_v2.DesiredReplicas (as_v2.Status a)) /\
  publishedIf (registry s) r Part004.hpaMinPodsNum label (as_v2.MinReplicas (as_v2.Spec a)) /\
  published r Part004.hpaMaxPodsNum label (as_v2.MaxReplicas (as_v2.Spec a)) /\
  publishedIf (registry s) r Part004.hpaLastScaleSecond label
    (meta_v1.Unix <$> as_v2.LastScaleTime (as_v2.Status a)).
Proof.
  unfold Part004.publishBase, publishedIf, published.
  destruct (as_v2.MinReplicas _), (as_v2.LastScaleTime _); cbn;
    split_ands; read_series.
Qed.

Lemma writesOnly_loops_004 (label : Labels) (a : as_v2.HorizontalPodAutoscaler) :
  writesOnly (fun c => Part004.baseCollector c = false)
    (Go.range (as_v2.Metrics (as_v2.Spec a)) (Part004.targetMetric label);;
     Go.range (as_v2.CurrentMetrics (as_v2.Status a)) (Part004.currentMetric label);;
     Go.range (as_v2.Conditions (as_v2.Status a)) (Part004.publishCondition label)).
Proof.
  unfold Part004.targetMetric, Part004.currentMetric, Part004.publishMetric,
    Part004.publishCondition.
  writes_only.
Qed.

Lemma publishBase_anno_published {K : Type} (label : Labels)
    (a : as_v1.HorizontalPodAutoscaler) (cpuVal : Z)
    (s : State (gmap (Anno.Collector * Labels) float) K) :
  (Anno.publishBase label a cpuVal s).1 = Go.Val tt /\
  cache (Anno.publishBase label a cpuVal s).2 = cache s /\
  let r := registry (Anno.publishBase label a cpuVal s).2 in
  published r Anno.hpaCurrentPodsNum label (as_v1.CurrentReplicas (as_v1.Status a)) /\
  published r Anno.hpaDesiredPodsNum label (as_v1.DesiredReplicas (as_v1.Status a)) /\
  publishedIf (registry s) r Anno.hpaMinPodsNum label (as_v1.MinReplicas (as_v1.Spec a)) /\
  published r Anno.hpaMaxPodsNum label (as_v1.MaxReplicas (as_v1.Spec a)) /\
  published r Anno.hpaCurrentCpuValue label cpuVal /\
  publishedIf (registry s) r Anno.hpaCurrentCpuPercentage label
    (as_v1.CurrentCPUUtilizationPercentage (as_v1.Status a)) /\
  publishedIf (registry s) r Anno.hpaTargetCpuPercentage label
    (as_v1.TargetCPUUtilizationPercentage (as_v1.Spec a)) /\
  publishedIf (registry s) r Anno.hpaLastScaleSecond label
    (meta_v1.Unix <$> as_v1.LastScaleTime (as_v1.Status a)).
Proof.
  unfold Anno.publishBase, publishedIf, published.
  destruct (as_v1.MinReplicas _), (as_v1.CurrentCPUUtilizationPercentage _),
    (as_v1.TargetCPUUtilizationPercentage _), (as_v1.LastScaleTime _); cbn;
    split_ands; read_series.
Qed.

(** Reading the CPU value out of the first metric writes no gauge. *)
Lemma cpuValOf_run {K : Type} (metrics : list Anno.currentMetrics)
    (s : State (gmap (Anno.Collector * Labels) float) K) :
  exists cpuVal s',
    Anno.cpuValOf metrics s = (Go.Val cpuVal, s') /\
    registry s' = registry s /\ cache s' = cache s.
Proof.
  unfold Anno.cpuValOf, Anno.currentAverageCpuValue.
  destruct metrics as [|m0 rest]; [repeat eexists|].
  cbn zeta. destruct (Anno.ParseInt _); repeat eexists.
Qed.

Lemma gaugeOf_not_base (k : Anno.CondKind) :
  Anno.baseCollector (Anno.gaugeOf k) = false.
Proof. destruct k; reflexivity. Qed.

#[export] Hint Resolve gaugeOf_not_base : go_writes.

Lemma writesOnly_conditions_002 (label : Labels) (conditions : list Anno.condition) :
  writesOnly (fun c => Anno.baseCollector c = false)
    (Go.range conditions (Part002.publishCondition label)).
Proof.
  unfold Part002.publishCondition. writes_only.
Qed.

Lemma writesOnly_conditions_003 (label : Labels) (name : string)
    (conditions : list Anno.condition) :
  writesOnly (fun c => Anno.baseCollector c = false)
    (Go.range conditions (Part003.publishCondition label name)).
Proof.
  unfold Part003.publishCondition, Part003.relabel. writes_only.
Qed.

(** Carries what holds of the base series after [publishBase] over code that
    writes other vectors only. *)
Lemma published_frame {C : Type} `{Countable C}
    (r r' : gmap (C * Labels) float) (c : C) (label : Labels) (v : Z) :
  r' !! (c, label) = r !! (c, label) -> published r c label v -> published r' c label v.
Proof. unfold published. congruence. Qed.

Lemma publishedIf_frame {C : Type} `{Countable C}
    (r0 r0' r r' : gmap (C * Labels) float) (c : C) (label : Labels)
    (field : option Z) :
  r' !! (c, label) = r !! (c, label) -> r0' !! (c, label) = r0 !! (c, label) ->
  publishedIf r0 r c label field -> publishedIf r0' r' c label field.
Proof. unfold publishedIf, published. destruct field; congruence. Qed.

Lemma publishHpa_004_base (a : as_v2.HorizontalPodAutoscaler) (s : Part004.St) :
  let r := registry (Part004.publishHpa a s).2 in
  let label := Part004.baseLabelOf a in
  published r Part004.hpaCurrentPodsNum label (as_v2.CurrentReplicas (as_v2.Status a)) /\
  published r Part004.hpaDesiredPodsNum label (as_v2.DesiredReplicas (as_v2.Status a)) /\
  publishedIf (registry s) r Part004.hpaMinPodsNum label (as_v2.MinReplicas (as_v2.Spec a)) /\
  published r Part004.hpaMaxPodsNum label (as_v2.MaxReplicas (as_v2.Spec a)) /\
  publishedIf (registry s) r Part004.hpaLastScaleSecond label
    (meta_v1.Unix <$> as_v2.LastScaleTime (as_v2.Status a)).
Proof.
  cbn zeta. unfold Part004.publishHpa. cbn zeta. rewrite bind_run.
  destruct (publishBase_004_published (Part004.baseLabelOf a) a s)
    as (Hres & H1 & H2 & H3 & H4 & H5).
  destruct (Part004.publishBase _ a s) as [res sb]. cbn in Hres. subst res.
  cbn [snd] in H1, H2, H3, H4, H5.
  pose proof (writesOnly_loops_004 (Part004.baseLabelOf a) a sb) as Hframe.
  split_ands;
    [ eapply published_frame; [apply Hframe; discriminate | eassumption]
    | eapply published_frame; [apply Hframe; discriminate | eassumption]
    | eapply publishedIf_frame; [apply Hframe; discriminate | reflexivity | eassumption]
    | eapply published_frame; [apply Hframe; discriminate | eassumption]
    | eapply publishedIf_frame; [apply Hframe; discriminate | reflexivity | eassumption] ].
Qed.

Lemma publishHpa_003_base (json : Anno.Json) (a : as_v1.HorizontalPodAutoscaler)
    (s : Part003.St) :
  Anno.decodeError json a = None ->
  let r := registry (Part003.publishHpa json a s).2 in
  let label := Anno.labelOf a in
  published r Anno.hpaCurrentPodsNum label (as_v1.CurrentReplicas (as_v1.Status a)) /\
  published r Anno.hpaDesiredPodsNum label (as_v1.DesiredReplicas (as_v1.Status a)) /\
  publishedIf (registry s) r Anno.hpaMinPodsNum label (as_v1.MinReplicas (as_v1.Spec a)) /\
  published r Anno.hpaMaxPodsNum label (as_v1.MaxReplicas (as_v1.Spec a)) /\
  (exists cpuVal, published r Anno.hpaCurrentCpuValue label cpuVal) /\
  publishedIf (registry s) r Anno.hpaCurrentCpuPercentage label
    (as_v1.CurrentCPUUtilizationPercentage (as_v1.Status a)) /\
  publishedIf (registry s) r Anno.hpaTargetCpuPercentage label
    (as_v1.TargetCPUUtilizationPercentage (as_v1.Spec a)) /\
  publishedIf (registry s) r Anno.hpaLastScaleSecond label
    (meta_v1.Unix <$> as_v1.LastScaleTime (as_v1.Status a)).
Proof.
  unfold Anno.decodeError, Part003.publishHpa. cbn zeta. intros Hdec.
  destruct (Anno.UnmarshalMetrics json _) as [e1|metrics]; [discriminate Hdec|].
  destruct (Anno.UnmarshalConditions json _) as [e2|conditions]; [discriminate Hdec|].
  rewrite bind_run.
  destruct (cpuValOf_run metrics s) as (cpuVal & s' & -> & Hreg & _).
  rewrite bind_run.
  destruct (publishBase_anno_published (Anno.labelOf a) a cpuVal s')
    as (Hres & _ & H1 & H2 & H3 & H4 & H5 & H6 & H7 & H8).
  destruct (Anno.publishBase _ a cpuVal s') as [res sb]. cbn in Hres. subst res.
  cbn [snd] in H1, H2, H3, H4, H5, H6, H7, H8. rewrite Hreg in H3, H6, H7, H8.
  pose proof (writesOnly_conditions_003 (Anno.labelOf a)
                (meta_v1.Name (as_v1.ObjectMeta a)) conditions sb) as Hframe.
  split_ands;
    [ eapply published_frame; [apply Hframe; discriminate | eassumption]
    | eapply published_frame; [apply Hframe; discriminate | eassumption]
    | eapply publishedIf_frame; [apply Hframe; discriminate | reflexivity | eassumption]
    | eapply published_frame; [apply Hframe; discriminate | eassumption]
    | exists cpuVal; eapply published_frame; [apply Hframe; discriminate | eassumption]
    | eapply publishedIf_frame; [apply Hframe; discriminate | reflexivity | eassumption]
    | eapply publishedIf_frame; [apply Hframe; discriminate | reflexivity | eassumption]
    | eapply publishedIf_frame; [apply Hframe; discriminate | reflexivity | eassumption] ].
Qed.

Lemma publishHpa_002_base (json : Anno.Json) (a : as_v1.HorizontalPodAutoscaler)
    (s : Part002.St) :
  Anno.decodeError json a = None ->
  let r := registry (Part002.publishHpa json a s).2 in
  let label := Anno.labelOf a in
  published r Anno.hpaCurrentPodsNum label (as_v1.CurrentReplicas (as_v1.Status a)) /\
  published r Anno.hpaDesiredPodsNum label (as_v1.DesiredReplicas (as_v1.Status a)) /\
  publishedIf (registry s) r Anno.hpaMinPodsNum label (as_v1.MinReplicas (as_v1.Spec a)) /\
  published r Anno.hpaMaxPodsNum label (as_v1.MaxReplicas (as_v1.Spec a)) /\
  (exists cpuVal, published r Anno.hpaCurrentCpuValue label cpuVal) /\
  publishedIf (registry s) r Anno.hpaCurrentCpuPercentage label
    (as_v1.CurrentCPUUtilizationPercentage (as_v1.Status a)) /\
  publishedIf (registry s) r Anno.hpaTargetCpuPercentage label
    (as_v1.TargetCPUUtilizationPercentage (as_v1.Spec a)) /\
  publishedIf (registry s) r Anno.hpaLastScaleSecond label
    (meta_v1.Unix <$> as_v1.LastScaleTime (as_v1.Status a)).
Proof.
  unfold Anno.decodeError, Part002.publishHpa. cbn zeta. intros Hdec.
  destruct (Anno.UnmarshalMetrics json _) as [e1|metrics]; [discriminate Hdec|].
  destruct (Anno.UnmarshalConditions json _) as [e2|conditions]; [discriminate Hdec|].
  rewrite bind_run.
  destruct (cpuValOf_run metrics s) as (cpuVal & s' & -> & Hreg & _).
  rewrite bind_run.
  destruct (publishBase_anno_published (Anno.labelOf a) a cpuVal s')
    as (Hres & _ & H1 & H2 & H3 & H4 & H5 & H6 & H7 & H8).
  destruct (Anno.publishBase _ a cpuVal s') as [res sb]. cbn in Hres. subst res.
  cbn [snd] in H1, H2, H3, H4, H5, H6, H7, H8. rewrite Hreg in H3, H6, H7, H8.
  pose proof (writesOnly_conditions_002 (Anno.labelOf a) conditions sb) as Hframe.
  split_ands;
    [ eapply published_frame; [apply Hframe; discriminate | eassumption]
    | eapply published_frame; [apply Hframe; discriminate | eassumption]
    | eapply publishedIf_frame; [apply Hframe; discriminate | reflexivity | eassumption]
    | eapply published_frame; [apply Hframe; discriminate | eassumption]
    | exists cpuVal; eapply published_frame; [apply Hframe; discriminate | eassumption]
    | eapply publishedIf_frame; [apply Hframe; discriminate | reflexivity | eassumption]
    | eapply publishedIf_frame; [apply Hframe; discriminate | reflexivity | eassumption]
    | eapply publishedIf_frame; [apply Hframe; discriminate | reflexivity | eassumption] ].
Qed.

(** C7, as the code has it.  In the v1-style variant (main.go) an autoscaler
    that lacks min-replicas, current CPU utilization or target CPU utilization
    gets no series at all, and one that has all three and a last-scale time
    gets each of the seven base series set to its field.  In the
    annotation-based variants (part_002, part_003), for an autoscaler whose
    two annotations decode, and in the v2beta1 variant (part_004) for every
    autoscaler, the series of an absent optional field is not written, being
    left as the registry had it, and every other base series is set to its
    field.  What main.go does with all three fields present and no last-scale
    time is left out here. *)
Theorem optional_fields_suppress_series :
  forall (json : Anno.Json) (a : as_v1.HorizontalPodAutoscaler)
         (a' : as_v2.HorizontalPodAutoscaler)
         (s1 : Main.St) (s2 : Part002.St) (s3 : Part003.St) (s4 : Part004.St),
    (as_v1.MinReplicas (as_v1.Spec a) = None \/
     as_v1.CurrentCPUUtilizationPercentage (as_v1.Status a) = None \/
     as_v1.TargetCPUUtilizationPercentage (as_v1.Spec a) = None ->
     Main.publishHpa a s1 = (Go.Val tt, s1)) /\
    (forall minReplicas currentCPU targetCPU t,
        as_v1.MinReplicas (as_v1.Spec a) = Some minReplicas ->
        as_v1.CurrentCPUUtilizationPercentage (as_v1.Status a) = Some currentCPU ->
        as_v1.TargetCPUUtilizationPercentage (as_v1.Spec a) = Some targetCPU ->
        as_v1.LastScaleTime (as_v1.Status a) = Some t ->
        (Main.publishHpa a s1).1 = Go.Val tt /\
        let r := registry (Main.publishHpa a s1).2 in
        let label := Main.labelOf a in
        published r Main.hpaCurrentPodsNum label (as_v1.CurrentReplicas (as_v1.Status a)) /\
        published r Main.hpaDesiredPodsNum label (as_v1.DesiredReplicas (as_v1.Status a)) /\
        published r Main.hpaMinPodsNum label minReplicas /\
        published r Main.hpaMaxPodsNum label (as_v1.MaxReplicas (as_v1.Spec a)) /\
        published r Main.hpaCurrentCpuPercentage label currentCPU /\
        published r Main.hpaTargetCpuPercentage label targetCPU /\
        published r Main.hpaLastScaleSecond label (meta_v1.Unix t)) /\
    (Anno.decodeError json a = None ->
     let r := registry (Part002.publishHpa json a s2).2 in
     let label := Anno.labelOf a in
     published r Anno.hpaCurrentPodsNum label (as_v1.CurrentReplicas (as_v1.Status a)) /\
     published r Anno.hpaDesiredPodsNum label (as_v1.DesiredReplicas (as_v1.Status a)) /\
     publishedIf (registry s2) r Anno.hpaMinPodsNum label (as_v1.MinReplicas (as_v1.Spec a)) /\
     published r Anno.hpaMaxPodsNum label (as_v1.MaxReplicas (as_v1.Spec a)) /\
     (exists cpuVal, published r Anno.hpaCurrentCpuValue label cpuVal) /\
     publishedIf (registry s2) r Anno.hpaCurrentCpuPercentage label
       (as_v1.CurrentCPUUtilizationPercentage (as_v1.Status a)) /\
     publishedIf (registry s2) r Anno.hpaTargetCpuPercentage label
       (as_v1.TargetCPUUtilizationPercentage (as_v1.Spec a)) /\
     publishedIf (registry s2) r Anno.hpaLastScaleSecond label
       (meta_v1.Unix <$> as_v1.LastScaleTime (as_v1.Status a))) /\
    (Anno.decodeError json a = None ->
     let r := registry (Part003.publishHpa json a s3).2 in
     let label := Anno.labelOf a in
     published r Anno.hpaCurrentPodsNum label (as_v1.CurrentReplicas (as_v1.Status a)) /\
     published r Anno.hpaDesiredPodsNum label (as_v1.DesiredReplicas (as_v1.Status a)) /\
     publishedIf (registry s3) r Anno.hpaMinPodsNum label (as_v1.MinReplicas (as_v1.Spec a)) /\
     published r Anno.hpaMaxPodsNum label (as_v1.MaxReplicas (as_v1.Spec a)) /\
     (exists cpuVal, published r Anno.hpaCurrentCpuValue label cpuVal) /\
     publishedIf (registry s3) r Anno.hpaCurrentCpuPercentage label
       (as_v1.CurrentCPUUtilizationPercentage (as_v1.Status a)) /\
     publishedIf (registry s3) r Anno.hpaTargetCpuPercentage label
       (as_v1.TargetCPUUtilizationPercentage (as_v1.Spec a)) /\
     publishedIf (registry s3) r Anno.hpaLastScaleSecond label
       (meta_v1.Unix <$> as_v1.LastScaleTime (as_v1.Status a))) /\
    (let r := registry (Part004.publishHpa a' s4).2 in
     let label := Part004.baseLabelOf a' in
     published r Part004.hpaCurrentPodsNum label (as_v2.CurrentReplicas (as_v2.Status a')) /\
     published r Part004.hpaDesiredPodsNum label (as_v2.DesiredReplicas (as_v2.Status a')) /\
     publishedIf (registry s4) r Part004.hpaMinPodsNum label (as_v2.MinReplicas (as_v2.Spec a')) /\
     published r Part004.hpaMaxPodsNum label (as_v2.MaxReplicas (as_v2.Spec a')) /\
     publishedIf (registry s4) r Part004.hpaLastScaleSecond label
       (meta_v1.Unix <$> as_v2.LastScaleTime (as_v2.Status a'))).
Proof.
  intros json a a' s1 s2 s3 s4.
  split; [|split; [|split; [|split]]].
  - apply publishHpa_main_suppressed.
  - intros minReplicas currentCPU targetCPU t.
    apply publishHpa_main_published.
  - apply publishHpa_002_base.
  - apply publishHpa_003_base.
  - apply publishHpa_004_base.
Qed.

(** C7 as stated fails on part_003: a newly created autoscaler has no
    utilization yet and no annotations; the empty current-metrics annotation
    does not decode, so the body gives up on the autoscaler and not one of
    its series is published, the replica counts included. *)
Lemma annotation_variant_suppresses_every_series :
  let run :=
    Part003.metricsIteration Sample.json 30
      (Sample.listed [Sample.fresh "prod"]) Part003.initial in
  run.1 = Go.Val tt /\
  registry run.2 = ∅ /\
  events run.2
  = [ListCall; LogError "json: cannot unmarshal the annotation"; Sleep 30].
Proof.
  cbv zeta. split_ands.
  - vm_compute. reflexivity.
  - apply map_size_empty_inv. vm_compute. reflexivity.
  - vm_compute. reflexivity.
Qed.

(** main.go with all three guarded fields present and no last-scale time:
    six series are written, then the nil [LastScaleTime] is dereferenced. *)
Example main_panics_without_last_scale_time :
  let a := Sample.web "prod" "web" [] in
  as_v1.LastScaleTime (as_v1.Status a) = None /\
  (Main.metricsIteration 30 (Sample.listed [a]) Main.initial).1 = Go.Panicked /\
  size (registry (Main.metricsIteration 30 (Sample.listed [a]) Main.initial).2) = 6%nat.
Proof. cbv zeta. split_ands; vm_compute; reflexivity. Qed.

(** ** Relabeling with the per-name cache (part_003) *)

(** The scenario of the spec: one autoscaler whose AbleToScale condition goes
    from reason ReadyForNewScale to reason SucceededRescale between two ticks.
    After the second tick its vector holds the new active series at 1 and the
    inactive series at 0, and nothing else. *)
Example relabel_replaces_changed_reason :
  let run :=
    Part003.metricsLoop Sample.json 30
      [ Sample.listed [Sample.web "prod" "web" [Sample.ready]];
        Sample.listed [Sample.web "prod" "web" [Sample.rescaled]] ]
      Part003.initial in
  let label := Sample.webLabel "prod" "web" in
  let new := mergeLabels label (Sample.condLabel "True" "SucceededRescale" "") in
  let inactive := mergeLabels label (Sample.condLabel "False" "" "") in
  run.1 = Go.Val tt /\
  seriesOf Anno.hpaAbleToScale (registry run.2) = {[ new; inactive ]} /\
  registry run.2 !! (Anno.hpaAbleToScale, new) = Some 1%float /\
  registry run.2 !! (Anno.hpaAbleToScale, inactive) = Some 0%float.
Proof.
  cbv zeta. split_ands; [| decide_set_eq | |]; vm_compute; reflexivity.
Qed.

(** C1, as the code runs it.  Two autoscalers named [web], one in namespace
    [staging] and one in [prod], share the cache entry [web].  When the
    condition of the [staging] one changes its reason between two ticks, the
    tick deletes, under the [staging] labels, the condition labels cached for
    the [prod] one: the series with the old reason stays in the registry at 1,
    next to the series with the new reason. *)
Theorem relabel_keeps_stale_series_on_shared_name :
  let run :=
    Part003.metricsLoop Sample.json 30
      [ Sample.listed [Sample.web "staging" "web" [Sample.ready];
                       Sample.web "prod" "web" [Sample.gotScale]];
        Sample.listed [Sample.web "staging" "web" [Sample.rescaled];
                       Sample.web "prod" "web" [Sample.gotScale]] ]
      Part003.initial in
  let label := Sample.webLabel "staging" "web" in
  let old := mergeLabels label (Sample.condLabel "True" "ReadyForNewScale" "") in
  let new := mergeLabels label (Sample.condLabel "True" "SucceededRescale" "") in
  let inactive := mergeLabels label (Sample.condLabel "False" "" "") in
  run.1 = Go.Val tt /\
  hpaSeries Anno.hpaAbleToScale "staging" "web" (registry run.2)
  = {[ old; new; inactive ]} /\
  registry run.2 !! (Anno.hpaAbleToScale, old) = Some 1%float /\
  registry run.2 !! (Anno.hpaAbleToScale, new) = Some 1%float /\
  registry run.2 !! (Anno.hpaAbleToScale, inactive) = Some 0%float.
Proof.
  cbv zeta. split_ands; [| decide_set_eq | | |]; vm_compute; reflexivity.
Qed.

(** The same loss with a single autoscaler, whose scale target is changed
    between two ticks: the deletion is keyed by the new base labels, so both
    series published under the old ones stay. *)
Example relabel_keeps_stale_series_on_new_target :
  let run :=
    Part003.metricsLoop Sample.json 30
      [ Sample.listed [Sample.web "prod" "web-v1" [Sample.ready]];
        Sample.listed [Sample.web "prod" "web-v2" [Sample.rescaled]] ]
      Part003.initial in
  run.1 = Go.Val tt /\
  hpaSeries Anno.hpaAbleToScale "prod" "web" (registry run.2)
  = {[ mergeLabels (Sample.webLabel "prod" "web-v1")
         (Sample.condLabel "True" "ReadyForNewScale" "");
       mergeLabels (Sample.webLabel "prod" "web-v1")
         (Sample.condLabel "False" "" "");
       mergeLabels (Sample.webLabel "prod" "web-v2")
         (Sample.condLabel "True" "SucceededRescale" "");
       mergeLabels (Sample.webLabel "prod" "web-v2")
         (Sample.condLabel "False" "" "") ]}.
Proof.
  cbv zeta. split; [vm_compute; reflexivity | decide_set_eq].
Qed.

(** C5, as the code runs it on part_003.  After a tick that saw the two
    autoscalers named [web] with other conditions, the same snapshot is
    published twice in a row.  The first of the two ticks leaves a stale
    series of the [staging] autoscaler behind; the second one, finding the
    labels of the [prod] autoscaler in the shared cache entry, deletes it: the
    label sets of the vector differ between the two ticks. *)
Theorem cached_relabel_changes_inventory_on_second_tick :
  let before :=
    Sample.listed [Sample.web "staging" "web" [Sample.gotScale];
                   Sample.web "prod" "web" [Sample.rescaled]] in
  let snapshot :=
    Sample.listed [Sample.web "staging" "web" [Sample.ready];
                   Sample.web "prod" "web" [Sample.gotScale]] in
  let once := Part003.metricsLoop Sample.json 30 [before; snapshot] Part003.initial in
  let twice := Part003.metricsIteration Sample.json 30 snapshot once.2 in
  let stale :=
    mergeLabels (Sample.webLabel "staging" "web")
      (Sample.condLabel "True" "SucceededGetScale" "") in
  once.1 = Go.Val tt /\ twice.1 = Go.Val tt /\
  registry once.2 !! (Anno.hpaAbleToScale, stale) = Some 1%float /\
  registry twice.2 !! (Anno.hpaAbleToScale, stale) = None /\
  seriesOf Anno.hpaAbleToScale (registry twice.2)
  = seriesOf Anno.hpaAbleToScale (registry once.2) ∖ {[ stale ]}.
Proof.
  cbv zeta. split_ands; [| | | | decide_set_eq]; vm_compute; reflexivity.
Qed.

(** ** The reset-based variant rebuilds the registry from the snapshot *)

Section ResetFacts.
Context {C : Type} `{Countable C} {K : Type}.
Abbreviation St := (State (gmap (C * Labels) float) K).

Lemma ResetVec_run (c : C) (s : St) :
  (ResetVec c s).1 = Go.Val tt /\
  cache (ResetVec c s).2 = cache s /\ events (ResetVec c s).2 = events s.
Proof. split_ands; reflexivity. Qed.

Lemma ResetVec_drops (c : C) (l : Labels) (s : St) :
  registry (ResetVec c s).2 !! (c, l) = None.
Proof.
  cbn. apply map_lookup_filter_None_2. right. intros v _ Hne. apply Hne. reflexivity.
Qed.

Lemma ResetVec_keeps_absent (c : C) (key : C * Labels) (s : St) :
  registry s !! key = None -> registry (ResetVec c s).2 !! key = None.
Proof. intros Hkey. cbn. apply map_lookup_filter_None_2. left. exact Hkey. Qed.

(** Resetting a list of vectors drops every series of every one of them and
    touches neither caches nor events. *)
Lemma reset_all_run (cs : list C) (s : St) :
  (Go.range cs ResetVec s).1 = Go.Val tt /\
  cache (Go.range cs ResetVec s).2 = cache s /\
  events (Go.range cs ResetVec s).2 = events s /\
  forall key, key.1 ∈ cs \/ registry s !! key = None ->
              registry (Go.range cs ResetVec s).2 !! key = None.
Proof.
  revert s. induction cs as [|c cs IH]; intros s.
  - split_ands; try reflexivity.
    intros key [Hin|Hnone]; [inversion Hin | exact Hnone].
  - rewrite range_cons_run.
    change (ResetVec c s) with (Go.Val tt, (ResetVec c s).2). cbv iota beta.
    destruct (IH (ResetVec c s).2) as (IHres & IHcache & IHevents & IHkeys).
    split_ands; [exact IHres | exact IHcache | exact IHevents |].
    intros [c' l] [Hin|Hnone]; apply IHkeys; cbn [fst] in *.
    + apply elem_of_cons in Hin as [->|Hin];
        [right; exact (ResetVec_drops c l s) | left; exact Hin].
    + right. exact (ResetVec_keeps_absent c (c', l) s Hnone).
Qed.

End ResetFacts.

Lemma resetAllMetric_run (s : Part004.St) :
  Part004.resetAllMetric s
  = (Go.Val tt, {| registry := ∅; cache := cache s; events := events s |}).
Proof.
  unfold Part004.resetAllMetric.
  destruct (reset_all_run Part004.collectors s) as (Hres & Hcache & Hevents & Hkeys).
  destruct (Go.range Part004.collectors ResetVec s) as [res [r c ev]].
  cbn in Hres, Hcache, Hevents, Hkeys. subst res c ev. f_equal. f_equal.
  apply map_eq. intros [c l]. rewrite lookup_empty. apply Hkeys. left. cbn.
  unfold Part004.collectors. destruct c; set_solver.
Qed.

(** The registry a successful tick of part_004 leaves depends on the snapshot
    alone, not on what the registry held before. *)
Lemma reset_tick_registry_from_snapshot (interval : Z)
    (hpa : list as_v2.HorizontalPodAutoscaler) (s s' : Part004.St) :
  registry (Part004.metricsIteration interval {| out := Some hpa; err := None |} s).2
  = registry (Part004.metricsIteration interval {| out := Some hpa; err := None |} s').2.
Proof.
  unfold Part004.metricsIteration, getHpaList. cbn [out err Go.deref].
  rewrite !bind_run. cbn [emit Go.modify]. rewrite !bind_run.
  cbn [mret go_ret Go.ret]. rewrite !bind_run, !resetAllMetric_run.
  cbn [cache events registry].
  match goal with
  | |- registry (?m ?s1).2 = registry (?m ?s2).2 =>
      assert (dataOnly m) as Hm;
        [|apply (Hm s1 s2); split; cbn; [reflexivity | destruct (cache s), (cache s'); reflexivity]]
  end.
  apply dataOnly_bind; [|intros _; apply dataOnly_emit].
  apply dataOnly_range. apply dataOnly_publishHpa_004.
Qed.

(** Publishing the same snapshot twice in a row with part_004 leaves the
    registry of the first tick: every series, every value. *)
Lemma reset_tick_idempotent (interval : Z)
    (hpa : list as_v2.HorizontalPodAutoscaler) (s : Part004.St) :
  let once := (Part004.metricsIteration interval {| out := Some hpa; err := None |} s).2 in
  let twice := (Part004.metricsIteration interval {| out := Some hpa; err := None |} once).2 in
  registry twice = registry once.
Proof. cbv zeta. apply reset_tick_registry_from_snapshot. Qed.

(** ** The cache-based relabeling when names identify the autoscalers *)

Lemma gaugeOf_inj (k k' : Anno.CondKind) : Anno.gaugeOf k = Anno.gaugeOf k' -> k = k'.
Proof. destruct k, k'; intros [=]; reflexivity. Qed.

Lemma annoLabel_store (k k' : Anno.CondKind) (name : string) (fwd rev : Labels)
    (c : Part003.Caches) :
  Part003.annoLabel k' (Part003.storeLabels k name fwd rev c)
  = if decide (k' = k) then <[name := fwd]> (Part003.annoLabel k' c)
    else Part003.annoLabel k' c.
Proof. destruct k, k'; reflexivity. Qed.

Lemma annoLabelRev_store (k k' : Anno.CondKind) (name : string) (fwd rev : Labels)
    (c : Part003.Caches) :
  Part003.annoLabelRev k' (Part003.storeLabels k name fwd rev c)
  = if decide (k' = k) then <[name := rev]> (Part003.annoLabelRev k' c)
    else Part003.annoLabelRev k' c.
Proof. destruct k, k'; reflexivity. Qed.

(** Merging condition labels into base labels keeps the [hpa_name]. *)
Lemma hpa_name_of_merge (label : Labels) (cond : Anno.condition) :
  mergeLabels label (Part003.makeAnnotationCondLabels cond).1 !! "hpa_name"
  = label !! "hpa_name" /\
  mergeLabels label (Part003.makeAnnotationCondLabels cond).2 !! "hpa_name"
  = label !! "hpa_name".
Proof.
  unfold mergeLabels, Part003.makeAnnotationCondLabels. cbn [fst snd].
  split; apply lookup_union_r; reflexivity.
Qed.

Lemma mergeLabels_nil (label : Labels) : mergeLabels label ∅ = label.
Proof. unfold mergeLabels. apply (left_id_L ∅ (∪)). Qed.

(** The active and the inactive label set of a condition never coincide. *)
Lemma active_inactive_differ (label : Labels) (cond : Anno.condition) :
  mergeLabels label (Part003.makeAnnotationCondLabels cond).1
  <> mergeLabels label (Part003.makeAnnotationCondLabels cond).2.
Proof.
  intros Heq.
  assert (mergeLabels label (Part003.makeAnnotationCondLabels cond).1 !! "cond_status"
          = mergeLabels label (Part003.makeAnnotationCondLabels cond).2 !! "cond_status")
    as Hstatus by (rewrite Heq; reflexivity).
  unfold mergeLabels, Part003.makeAnnotationCondLabels in Hstatus. cbn [fst snd] in Hstatus.
  rewrite (lookup_union_Some_l _ _ _ (Anno.Status cond)) in Hstatus by reflexivity.
  unfold Part003.conditionStatusTrue, Part003.conditionStatusFalse in Hstatus.
  destruct (decide (Anno.Status cond = "True")) as [Htrue|Hother].
  - rewrite (lookup_union_Some_l _ _ _ "False") in Hstatus by reflexivity.
    rewrite Htrue in Hstatus. discriminate Hstatus.
  - rewrite (lookup_union_Some_l _ _ _ "True") in Hstatus by reflexivity.
    injection Hstatus as Hs. contradiction.
Qed.

Lemma relabel_run (k : Anno.CondKind) (label : Labels) (name : string)
    (cond : Anno.condition) (s : Part003.St) :
  Part003.relabel k label name cond s
  = (Go.Val tt, Part003.relabelled k label name cond s).
Proof.
  unfold Part003.relabel, Part003.relabelled.
  destruct (Part003.makeAnnotationCondLabels cond) as [fwd rev].
  run_go. unfold Part003.labelsAt.
  rewrite annoLabel_store, annoLabelRev_store, !decide_True by reflexivity.
  rewrite !lookup_insert_eq. reflexivity.
Qed.

Section Consistency.
Context (F : string -> Labels) (F_name : forall n : string, F n !! "hpa_name" = Some n).

(** What the cache remembers for a name carries that name once merged. *)
Lemma old_labels_named (k : Anno.CondKind) (name : string) (s : Part003.St) :
  Part003.cachedPublished F s ->
  mergeLabels (F name) (Part003.labelsAt (Part003.annoLabel k (cache s)) name)
    !! "hpa_name" = Some name /\
  mergeLabels (F name) (Part003.labelsAt (Part003.annoLabelRev k (cache s)) name)
    !! "hpa_name" = Some name.
Proof.
  intros Hcached. unfold Part003.labelsAt.
  destruct (Hcached k name) as [[-> ->]|(c0 & -> & -> & _)]; cbn [default from_option id].
  - rewrite mergeLabels_nil. split; apply F_name.
  - destruct (hpa_name_of_merge (F name) c0) as [-> ->]. split; apply F_name.
Qed.

(** A case of the switch touches only series of its own vector that carry
    the name it works on. *)
Lemma relabelled_untouched (k : Anno.CondKind) (name : string)
    (cond : Anno.condition) (s : Part003.St) (key : Anno.Collector * Labels) :
  Part003.cachedPublished F s ->
  key.1 <> Anno.gaugeOf k \/ key.2 !! "hpa_name" <> Some name ->
  registry (Part003.relabelled k (F name) name cond s) !! key = registry s !! key.
Proof.
  intros Hcached Hkey. destruct key as [c l]. cbn [fst snd] in Hkey.
  destruct (old_labels_named k name s Hcached) as [Hold HoldRev].
  destruct (hpa_name_of_merge (F name) cond) as [Hfwd Hrev].
  rewrite F_name in Hfwd, Hrev.
  unfold Part003.relabelled.
  destruct (Part003.makeAnnotationCondLabels cond) as [fwd rev].
  cbn [fst snd registry] in *.
  rewrite !lookup_insert_ne, !lookup_delete_ne; [reflexivity|..];
    intros [= <- <-]; destruct Hkey as [Hc|Hn];
    solve [apply Hc; reflexivity | apply Hn; assumption].
Qed.

Lemma relabelled_consistent (k : Anno.CondKind) (name : string)
    (cond : Anno.condition) (s : Part003.St) :
  Part003.consistent F s ->
  Part003.consistent F (Part003.relabelled k (F name) name cond s).
Proof.
  intros [Hcached Hpublished].
  pose proof (relabelled_untouched k name cond s) as Huntouched.
  pose proof (active_inactive_differ (F name) cond) as Hdiffer.
  assert (cache (Part003.relabelled k (F name) name cond s)
          = Part003.storeLabels k name (Part003.makeAnnotationCondLabels cond).1
              (Part003.makeAnnotationCondLabels cond).2 (cache s)) as Hcache.
  { unfold Part003.relabelled.
    destruct (Part003.makeAnnotationCondLabels cond); reflexivity. }
  assert (registry (Part003.relabelled k (F name) name cond s)
            !! (Anno.gaugeOf k, mergeLabels (F name) (Part003.makeAnnotationCondLabels cond).1)
          = Some (Go.float64 1) /\
          registry (Part003.relabelled k (F name) name cond s)
            !! (Anno.gaugeOf k, mergeLabels (F name) (Part003.makeAnnotationCondLabels cond).2)
          = Some (Go.float64 0)) as [Hnew HnewRev].
  { unfold Part003.relabelled.
    destruct (Part003.makeAnnotationCondLabels cond) as [fwd rev].
    cbn [fst snd registry] in *. split.
    - rewrite lookup_insert_ne by (intros [= Heq]; apply Hdiffer; symmetry; exact Heq).
      apply lookup_insert_eq.
    - apply lookup_insert_eq. }
  split.
  - (* what the cache holds is published *)
    intros k' n. rewrite Hcache, annoLabel_store, annoLabelRev_store.
    destruct (decide (k' = k)) as [->|Hk].
    + destruct (decide (n = name)) as [->|Hn].
      * right. exists cond. rewrite !lookup_insert_eq.
        split; [reflexivity | split; [reflexivity | split; [exact Hnew | exact HnewRev]]].
      * rewrite !lookup_insert_ne by congruence.
        destruct (Hcached k n) as [Hnone|(c0 & Hf & Hr & H1 & H0)]; [left; exact Hnone|].
        right. exists c0. split; [exact Hf | split; [exact Hr | split]].
        -- rewrite Huntouched; [exact H1 | exact Hcached |].
           right. cbn [snd].
           rewrite (proj1 (hpa_name_of_merge (F n) c0)), F_name. congruence.
        -- rewrite Huntouched; [exact H0 | exact Hcached |].
           right. cbn [snd].
           rewrite (proj2 (hpa_name_of_merge (F n) c0)), F_name. congruence.
    + destruct (Hcached k' n) as [Hnone|(c0 & Hf & Hr & H1 & H0)]; [left; exact Hnone|].
      right. exists c0. split; [exact Hf | split; [exact Hr | split]].
      * rewrite Huntouched; [exact H1 | exact Hcached |].
        left. cbn [fst]. intros Heq. apply Hk, gaugeOf_inj, Heq.
      * rewrite Huntouched; [exact H0 | exact Hcached |].
        left. cbn [fst]. intros Heq. apply Hk, gaugeOf_inj, Heq.
  - (* what is published is in the cache *)
    intros k' l Hsome. rewrite Hcache.
    setoid_rewrite annoLabel_store. setoid_rewrite annoLabelRev_store.
    destruct (decide (k' = k)) as [->|Hk].
    + destruct (decide (l = mergeLabels (F name) (Part003.makeAnnotationCondLabels cond).2))
        as [->|HneRev].
      { exists name, cond. rewrite !lookup_insert_eq.
        split; [reflexivity | split; [reflexivity | right; reflexivity]]. }
      destruct (decide (l = mergeLabels (F name) (Part003.makeAnnotationCondLabels cond).1))
        as [->|HneFwd].
      { exists name, cond. rewrite !lookup_insert_eq.
        split; [reflexivity | split; [reflexivity | left; reflexivity]]. }
      assert (is_Some (registry s !! (Anno.gaugeOf k, l)) /\
              l <> mergeLabels (F name) (Part003.labelsAt (Part003.annoLabel k (cache s)) name) /\
              l <> mergeLabels (F name) (Part003.labelsAt (Part003.annoLabelRev k (cache s)) name))
        as (Hwas & HneOld & HneOldRev).
      { revert Hsome. unfold Part003.relabelled.
        destruct (Part003.makeAnnotationCondLabels cond) as [fwd rev].
        cbn [fst snd registry] in *.
        rewrite !lookup_insert_ne by congruence.
        rewrite !lookup_delete_is_Some. intros (H1 & H2 & H3).
        split_ands; [exact H3 | congruence | congruence]. }
      destruct (Hpublished k l Hwas) as (n1 & c1 & Hf & Hr & Hl).
      destruct (decide (n1 = name)) as [->|Hn1].
      * exfalso. unfold Part003.labelsAt in HneOld, HneOldRev.
        rewrite Hf in HneOld. rewrite Hr in HneOldRev. cbn [default from_option id] in *.
        destruct Hl as [Hl|Hl]; [apply HneOld, Hl | apply HneOldRev, Hl].
      * exists n1, c1. rewrite !lookup_insert_ne by congruence.
        split; [exact Hf | split; [exact Hr | exact Hl]].
    + assert (is_Some (registry s !! (Anno.gaugeOf k', l))) as Hwas.
      { rewrite <- (Huntouched (Anno.gaugeOf k', l) Hcached); [exact Hsome|].
        left. cbn [fst]. intros Heq. apply Hk, gaugeOf_inj, Heq. }
      destruct (Hpublished k' l Hwas) as (n1 & c1 & Hf & Hr & Hl).
      exists n1, c1. split; [exact Hf | split; [exact Hr | exact Hl]].
Qed.


(** Consistency looks at the caches and the three condition vectors only. *)
Lemma consistent_same (s s' : Part003.St) :
  cache s' = cache s ->
  (forall (k : Anno.CondKind) (l : Labels),
      registry s' !! (Anno.gaugeOf k, l) = registry s !! (Anno.gaugeOf k, l)) ->
  Part003.consistent F s -> Part003.consistent F s'.
Proof.
  intros Hcache Hreg [Hcached Hpublished]. split.
  - intros k n. rewrite Hcache.
    destruct (Hcached k n) as [Hnone|(c0 & Hf & Hr & H1 & H0)]; [left; exact Hnone|].
    right. exists c0. rewrite !Hreg.
    split; [exact Hf | split; [exact Hr | split; [exact H1 | exact H0]]].
  - intros k l. rewrite Hcache, Hreg. apply Hpublished.
Qed.

Lemma conditions_consistent (name : string) (conditions : list Anno.condition)
    (s : Part003.St) :
  Part003.consistent F s ->
  (Go.range conditions (Part003.publishCondition (F name) name) s).1 = Go.Val tt /\
  Part003.consistent F
    (Go.range conditions (Part003.publishCondition (F name) name) s).2.
Proof.
  revert s. induction conditions as [|cond conditions IH]; intros s Hs.
  - split; [reflexivity | exact Hs].
  - rewrite range_cons_run. unfold Part003.publishCondition at 1 3.
    destruct (Anno.condKindOf (Anno.Type_ cond)) as [k|].
    + rewrite relabel_run. apply IH, relabelled_consistent, Hs.
    + apply IH, Hs.
Qed.

Lemma writesOnly_publishBase (label : Labels) (a : as_v1.HorizontalPodAutoscaler)
    (cpuVal : Z) :
  writesOnly (fun c => Anno.baseCollector c = true)
    (Anno.publishBase (K:=Part003.Caches) label a cpuVal).
Proof. unfold Anno.publishBase. writes_only. Qed.

Lemma publishHpa_consistent (json : Anno.Json) (a : as_v1.HorizontalPodAutoscaler)
    (s : Part003.St) :
  Anno.labelOf a = F (meta_v1.Name (as_v1.ObjectMeta a)) ->
  Part003.consistent F s ->
  (Part003.publishHpa json a s).1 = Go.Val tt /\
  Part003.consistent F (Part003.publishHpa json a s).2.
Proof.
  intros Hlabel Hs. unfold Part003.publishHpa. cbn zeta.
  destruct (Anno.UnmarshalMetrics json _) as [e1|metrics];
    [split; [reflexivity | apply (consistent_same s); [reflexivity.. | exact Hs]]|].
  destruct (Anno.UnmarshalConditions json _) as [e2|conditions];
    [split; [reflexivity | apply (consistent_same s); [reflexivity.. | exact Hs]]|].
  rewrite bind_run.
  destruct (cpuValOf_run metrics s) as (cpuVal & s1 & -> & Hreg1 & Hcache1).
  rewrite bind_run.
  destruct (publishBase_anno_published (Anno.labelOf a) a cpuVal s1)
    as (Hres & Hcache2 & _).
  pose proof (writesOnly_publishBase (Anno.labelOf a) a cpuVal s1) as Hframe.
  destruct (Anno.publishBase _ a cpuVal s1) as [res s2].
  cbn [fst snd] in Hres, Hcache2, Hframe. subst res.
  rewrite Hlabel. apply conditions_consistent.
  apply (consistent_same s); [congruence | | exact Hs].
  intros k l. rewrite Hframe, Hreg1; [reflexivity|].
  cbn [fst]. rewrite gaugeOf_not_base. discriminate.
Qed.

Lemma snapshot_consistent (json : Anno.Json)
    (hpa : list as_v1.HorizontalPodAutoscaler) (s : Part003.St) :
  Part003.labelled F hpa ->
  Part003.consistent F s ->
  (Go.range hpa (Part003.publishHpa json) s).1 = Go.Val tt /\
  Part003.consistent F (Go.range hpa (Part003.publishHpa json) s).2.
Proof.
  intros Hhpa. revert s. induction Hhpa as [|a hpa Ha Hhpa IH]; intros s Hs.
  - split; [reflexivity | exact Hs].
  - rewrite range_cons_run.
    destruct (publishHpa_consistent json a s Ha Hs) as [Hres Hs1].
    destruct (Part003.publishHpa json a s) as [res s1]. cbn [fst snd] in Hres, Hs1.
    subst res. apply IH, Hs1.
Qed.

Lemma iteration_consistent (json : Anno.Json) (interval : Z)
    (resp : ListResponse as_v1.HorizontalPodAutoscaler) (s : Part003.St) :
  (forall items, out resp = Some items -> Part003.labelled F items) ->
  Part003.consistent F s ->
  Part003.consistent F (Part003.metricsIteration json interval resp s).2.
Proof.
  intros Hresp Hs. unfold Part003.metricsIteration, getHpaList.
  destruct resp as [[items|] err0]; cbn [out err Go.deref] in *.
  - run_go.
    assert (Part003.consistent F
              {| registry := registry s; cache := cache s;
                 events := events s ++ [ListCall] |}) as Hs0
      by (apply (consistent_same s); [reflexivity.. | exact Hs]).
    destruct err0 as [e|].
    + apply (consistent_same s); [reflexivity.. | exact Hs].
    + destruct (snapshot_consistent json items _ (Hresp items eq_refl) Hs0)
        as [Hres Hs1].
      destruct (Go.range items (Part003.publishHpa json) _) as [res s1].
      cbn [fst snd] in Hres, Hs1. subst res.
      apply (consistent_same s1); [reflexivity.. | exact Hs1].
  - run_go. apply (consistent_same s); [reflexivity.. | exact Hs].
Qed.

Lemma initial_consistent : Part003.consistent F Part003.initial.
Proof.
  split.
  - intros k n. left. destruct k; split; reflexivity.
  - intros k l [v Hv]. cbn in Hv. rewrite lookup_empty in Hv. discriminate Hv.
Qed.

Lemma loop_consistent (json : Anno.Json) (interval : Z)
    (resps : list (ListResponse as_v1.HorizontalPodAutoscaler)) (s : Part003.St) :
  Forall (fun resp => forall items, out resp = Some items -> Part003.labelled F items)
         resps ->
  Part003.consistent F s ->
  Part003.consistent F (Part003.metricsLoop json interval resps s).2.
Proof.
  unfold Part003.metricsLoop. intros Hresps. revert s.
  induction Hresps as [|resp resps Hresp Hresps IH]; intros s Hs.
  - exact Hs.
  - rewrite range_cons_run.
    pose proof (iteration_consistent json interval resp s Hresp Hs) as Hs1.
    destruct (Part003.metricsIteration json interval resp s) as [[[]|] s1];
      cbn [snd] in Hs1; [apply IH, Hs1 | exact Hs1].
Qed.

(** In a consistent state, the series of a condition vector that carry a
    name the cache knows are the active and the inactive series of the cached
    pair, at 1 and at 0, and no other. *)
Lemma consistent_exact (s : Part003.St) (k : Anno.CondKind) (name : string)
    (fwd rev : Labels) :
  Part003.consistent F s ->
  Part003.annoLabel k (cache s) !! name = Some fwd ->
  Part003.annoLabelRev k (cache s) !! name = Some rev ->
  registry s !! (Anno.gaugeOf k, mergeLabels (F name) fwd) = Some (Go.float64 1) /\
  registry s !! (Anno.gaugeOf k, mergeLabels (F name) rev) = Some (Go.float64 0) /\
  mergeLabels (F name) fwd <> mergeLabels (F name) rev /\
  forall l : Labels,
    is_Some (registry s !! (Anno.gaugeOf k, l)) ->
    l !! "hpa_name" = Some name ->
    l = mergeLabels (F name) fwd \/ l = mergeLabels (F name) rev.
Proof.
  intros [Hcached Hpublished] Hfwd Hrev.
  destruct (Hcached k name) as [[Hnone _]|(c0 & Hf & Hr & H1 & H0)];
    [congruence|].
  assert (fwd = (Part003.makeAnnotationCondLabels c0).1) as -> by congruence.
  assert (rev = (Part003.makeAnnotationCondLabels c0).2) as -> by congruence.
  split; [exact H1 | split; [exact H0 | split; [apply active_inactive_differ|]]].
  intros l Hsome Hname.
  destruct (Hpublished k l Hsome) as (n1 & c1 & Hf1 & Hr1 & Hl).
  assert (n1 = name) as ->.
  { destruct (hpa_name_of_merge (F n1) c1) as [Hn Hn'].
    rewrite F_name in Hn, Hn'.
    destruct Hl as [-> | ->]; congruence. }
  assert ((Part003.makeAnnotationCondLabels c1).1 = (Part003.makeAnnotationCondLabels c0).1)
    as Heq1 by congruence.
  assert ((Part003.makeAnnotationCondLabels c1).2 = (Part003.makeAnnotationCondLabels c0).2)
    as Heq2 by congruence.
  rewrite <- Heq1, <- Heq2. exact Hl.
Qed.

End Consistency.

(** ** What the cache holds after an autoscaler was processed *)

Lemma lastOfKind_cons (k : Anno.CondKind) (cond : Anno.condition)
    (conditions : list Anno.condition) :
  Part003.lastOfKind k (cond :: conditions)
  = match Part003.lastOfKind k conditions with
    | Some c => Some c
    | None => if decide (Anno.condKindOf (Anno.Type_ cond) = Some k)
              then Some cond else None
    end.
Proof.
  unfold Part003.lastOfKind. rewrite filter_cons.
  destruct (decide (Anno.condKindOf (Anno.Type_ cond) = Some k)).
  - rewrite last_cons. reflexivity.
  - destruct (last _); reflexivity.
Qed.

(** After the condition loop of one autoscaler, the maps of each condition
    type hold under its name the labels of the last condition of that type,
    or what they held before when there is none; other names keep theirs. *)
Lemma conditions_cache (label : Labels) (name : string)
    (conditions : list Anno.condition) (s : Part003.St) (k : Anno.CondKind)
    (n : string) :
  let s' := (Go.range conditions (Part003.publishCondition label name) s).2 in
  Part003.annoLabel k (cache s') !! n
  = match Part003.lastOfKind k conditions with
    | Some c => if decide (n = name)
                then Some (Part003.makeAnnotationCondLabels c).1
                else Part003.annoLabel k (cache s) !! n
    | None => Part003.annoLabel k (cache s) !! n
    end /\
  Part003.annoLabelRev k (cache s') !! n
  = match Part003.lastOfKind k conditions with
    | Some c => if decide (n = name)
                then Some (Part003.makeAnnotationCondLabels c).2
                else Part003.annoLabelRev k (cache s) !! n
    | None => Part003.annoLabelRev k (cache s) !! n
    end.
Proof.
  cbv zeta. revert s. induction conditions as [|cond conditions IH]; intros s.
  - split; reflexivity.
  - rewrite range_cons_run, lastOfKind_cons.
    unfold Part003.publishCondition at 1 3.
    destruct (Anno.condKindOf (Anno.Type_ cond)) as [k0|] eqn:Hkind.
    + rewrite relabel_run. destruct (IH (Part003.relabelled k0 label name cond s))
        as [IHf IHr]. rewrite IHf, IHr.
      assert (cache (Part003.relabelled k0 label name cond s)
              = Part003.storeLabels k0 name (Part003.makeAnnotationCondLabels cond).1
                  (Part003.makeAnnotationCondLabels cond).2 (cache s)) as ->.
      { unfold Part003.relabelled.
        destruct (Part003.makeAnnotationCondLabels cond); reflexivity. }
      rewrite annoLabel_store, annoLabelRev_store.
      destruct (Part003.lastOfKind k conditions) as [c|].
      * destruct (decide (n = name)) as [->|Hn]; [split; reflexivity|].
        destruct (decide (k = k0)) as [->|Hk]; [|split; reflexivity].
        rewrite !lookup_insert_ne by congruence. split; reflexivity.
      * destruct (decide (k = k0)) as [->|Hk].
        -- rewrite decide_True by reflexivity.
           destruct (decide (n = name)) as [->|Hn].
           ++ rewrite !lookup_insert_eq. split; reflexivity.
           ++ rewrite !lookup_insert_ne by congruence. split; reflexivity.
        -- rewrite decide_False by congruence. split; reflexivity.
    + change ((mret tt : Go.M Part003.St unit) s) with (Go.Val tt, s). cbv iota beta.
      destruct (IH s) as [IHf IHr]. rewrite IHf, IHr.
      destruct (Part003.lastOfKind k conditions) as [c|]; [split; reflexivity|].
      rewrite decide_False by discriminate. split; reflexivity.
Qed.

(** The loop body of part_003 never panics. *)
Lemma conditions_return (label : Labels) (name : string)
    (conditions : list Anno.condition) (s : Part003.St) :
  (Go.range conditions (Part003.publishCondition label name) s).1 = Go.Val tt.
Proof.
  revert s. induction conditions as [|cond conditions IH]; intros s.
  - reflexivity.
  - rewrite range_cons_run. unfold Part003.publishCondition at 1.
    destruct (Anno.condKindOf _); [rewrite relabel_run|]; apply IH.
Qed.

Lemma publishHpa_003_returns (json : Anno.Json) (a : as_v1.HorizontalPodAutoscaler)
    (s : Part003.St) :
  (Part003.publishHpa json a s).1 = Go.Val tt.
Proof.
  unfold Part003.publishHpa. cbn zeta.
  destruct (Anno.UnmarshalMetrics json _) as [e1|metrics]; [reflexivity|].
  destruct (Anno.UnmarshalConditions json _) as [e2|conditions]; [reflexivity|].
  rewrite bind_run.
  destruct (cpuValOf_run metrics s) as (cpuVal & s2 & -> & _ & _).
  rewrite bind_run.
  destruct (publishBase_anno_published (Anno.labelOf a) a cpuVal s2) as (Hres & _).
  destruct (Anno.publishBase _ a cpuVal s2) as [res s3].
  cbn [fst] in Hres. subst res. apply conditions_return.
Qed.

Lemma publishHpa_cache (json : Anno.Json) (a : as_v1.HorizontalPodAutoscaler)
    (s : Part003.St) (k : Anno.CondKind) (n : string) :
  let s' := (Part003.publishHpa json a s).2 in
  Part003.annoLabel k (cache s') !! n
  = match Part003.observed json a k with
    | Some c => if decide (n = meta_v1.Name (as_v1.ObjectMeta a))
                then Some (Part003.makeAnnotationCondLabels c).1
                else Part003.annoLabel k (cache s) !! n
    | None => Part003.annoLabel k (cache s) !! n
    end /\
  Part003.annoLabelRev k (cache s') !! n
  = match Part003.observed json a k with
    | Some c => if decide (n = meta_v1.Name (as_v1.ObjectMeta a))
                then Some (Part003.makeAnnotationCondLabels c).2
                else Part003.annoLabelRev k (cache s) !! n
    | None => Part003.annoLabelRev k (cache s) !! n
    end.
Proof.
  cbv zeta. unfold Part003.publishHpa, Part003.observed. cbn zeta.
  destruct (Anno.UnmarshalMetrics json _) as [e1|metrics]; [split; reflexivity|].
  destruct (Anno.UnmarshalConditions json _) as [e2|conditions]; [split; reflexivity|].
  rewrite bind_run.
  destruct (cpuValOf_run metrics s) as (cpuVal & s1 & -> & _ & Hcache1).
  rewrite bind_run.
  destruct (publishBase_anno_published (Anno.labelOf a) a cpuVal s1)
    as (Hres & Hcache2 & _).
  destruct (Anno.publishBase _ a cpuVal s1) as [res s2].
  cbn [fst snd] in Hres, Hcache2. subst res.
  destruct (conditions_cache (Anno.labelOf a) (meta_v1.Name (as_v1.ObjectMeta a))
              conditions s2 k n) as [Hf Hr].
  rewrite Hf, Hr, Hcache2, Hcache1. split; reflexivity.
Qed.

Lemma snapshot_cache (json : Anno.Json) (hpa : list as_v1.HorizontalPodAutoscaler)
    (s : Part003.St) (k : Anno.CondKind) (n : string) :
  let s' := (Go.range hpa (Part003.publishHpa json) s).2 in
  Part003.annoLabel k (cache s') !! n
  = match Part003.observedIn json hpa k n with
    | Some c => Some (Part003.makeAnnotationCondLabels c).1
    | None => Part003.annoLabel k (cache s) !! n
    end /\
  Part003.annoLabelRev k (cache s') !! n
  = match Part003.observedIn json hpa k n with
    | Some c => Some (Part003.makeAnnotationCondLabels c).2
    | None => Part003.annoLabelRev k (cache s) !! n
    end.
Proof.
  cbv zeta. revert s. induction hpa as [|a hpa IH]; intros s.
  - split; reflexivity.
  - rewrite range_cons_run. cbn [Part003.observedIn].
    destruct (publishHpa_cache json a s k n) as [Hf Hr].
    pose proof (publishHpa_003_returns json a s) as Hres.
    destruct (Part003.publishHpa json a s) as [res s1].
    cbn [fst snd] in Hf, Hr, Hres. subst res.
    destruct (IH s1) as [IHf IHr]. rewrite IHf, IHr. clear IHf IHr IH.
    destruct (Part003.observedIn json hpa k n) as [c|]; [split; reflexivity|].
    destruct (Part003.observed json a k) as [c|].
    + destruct (decide (meta_v1.Name (as_v1.ObjectMeta a) = n)) as [Hn|Hn].
      * rewrite decide_True in Hf, Hr by congruence. split; assumption.
      * rewrite decide_False in Hf, Hr by congruence. split; assumption.
    + destruct (decide (meta_v1.Name (as_v1.ObjectMeta a) = n)); split; assumption.
Qed.

Lemma snapshot_returns (json : Anno.Json) (hpa : list as_v1.HorizontalPodAutoscaler)
    (s : Part003.St) :
  (Go.range hpa (Part003.publishHpa json) s).1 = Go.Val tt.
Proof.
  revert s. induction hpa as [|a hpa IH]; intros s.
  - reflexivity.
  - rewrite range_cons_run. pose proof (publishHpa_003_returns json a s) as Hres.
    destruct (Part003.publishHpa json a s) as [res s1]. cbn [fst] in Hres.
    subst res. apply IH.
Qed.

(** A successful tick of part_003 is its loop over the snapshot, between
    the List call and the sleep. *)
Lemma iteration_003_run (json : Anno.Json) (interval : Z)
    (hpa : list as_v1.HorizontalPodAutoscaler) (s : Part003.St) :
  let s0 := {| registry := registry s; cache := cache s;
               events := events s ++ [ListCall] |} in
  let s1 := (Go.range hpa (Part003.publishHpa json) s0).2 in
  Part003.metricsIteration json interval {| out := Some hpa; err := None |} s
  = (Go.Val tt,
     {| registry := registry s1; cache := cache s1;
        events := events s1 ++ [Sleep interval] |}).
Proof.
  cbv zeta. unfold Part003.metricsIteration, getHpaList. cbn [out err Go.deref].
  rewrite !bind_run. cbn [emit Go.modify]. rewrite !bind_run.
  cbn [mret go_ret Go.ret]. rewrite !bind_run.
  match goal with
  | |- context [Go.range hpa _ ?s0] =>
      pose proof (snapshot_returns json hpa s0) as Hres;
      destruct (Go.range hpa (Part003.publishHpa json) s0) as [res s1]
  end.
  cbn [fst] in Hres. subst res. reflexivity.
Qed.

(** Two maps records that agree on every lookup are the same. *)
Lemma caches_eq (c1 c2 : Part003.Caches) :
  (forall (k : Anno.CondKind) (n : string),
      Part003.annoLabel k c1 !! n = Part003.annoLabel k c2 !! n /\
      Part003.annoLabelRev k c1 !! n = Part003.annoLabelRev k c2 !! n) ->
  c1 = c2.
Proof.
  intros Hlookup. destruct c1, c2.
  f_equal; apply map_eq; intros n.
  - apply (Hlookup Anno.AbleToScale n).
  - apply (Hlookup Anno.AbleToScale n).
  - apply (Hlookup Anno.ScalingActive n).
  - apply (Hlookup Anno.ScalingActive n).
  - apply (Hlookup Anno.ScalingLimited n).
  - apply (Hlookup Anno.ScalingLimited n).
Qed.

(** In consistent states the condition vectors are a function of the caches. *)
Lemma consistent_determined (F : string -> Labels) (s1 s2 : Part003.St)
    (k : Anno.CondKind) (l : Labels) :
  Part003.consistent F s1 -> Part003.consistent F s2 ->
  cache s1 = cache s2 ->
  registry s1 !! (Anno.gaugeOf k, l) = registry s2 !! (Anno.gaugeOf k, l).
Proof.
  assert (forall (sa sb : Part003.St) (v : float),
             Part003.consistent F sa -> Part003.consistent F sb ->
             cache sa = cache sb ->
             registry sa !! (Anno.gaugeOf k, l) = Some v ->
             registry sb !! (Anno.gaugeOf k, l) = Some v) as Hone.
  { intros sa sb v [Hca Hpa] [Hcb _] Hcache Hv.
    destruct (Hpa k l (ex_intro _ v Hv)) as (n & c & Hf & Hr & Hl).
    destruct (Hca k n) as [[Hnone _]|(ca & Hfa & Hra & H1a & H0a)]; [congruence|].
    destruct (Hcb k n) as [[Hnone _]|(cb & Hfb & Hrb & H1b & H0b)]; [congruence|].
    assert ((Part003.makeAnnotationCondLabels ca).1 = (Part003.makeAnnotationCondLabels c).1)
      as Ea1 by congruence.
    assert ((Part003.makeAnnotationCondLabels ca).2 = (Part003.makeAnnotationCondLabels c).2)
      as Ea2 by congruence.
    assert ((Part003.makeAnnotationCondLabels cb).1 = (Part003.makeAnnotationCondLabels c).1)
      as Eb1 by congruence.
    assert ((Part003.makeAnnotationCondLabels cb).2 = (Part003.makeAnnotationCondLabels c).2)
      as Eb2 by congruence.
    rewrite Ea1 in H1a. rewrite Ea2 in H0a. rewrite Eb1 in H1b. rewrite Eb2 in H0b.
    destruct Hl as [-> | ->]; congruence. }
  intros Hs1 Hs2 Hcache.
  destruct (registry s1 !! (Anno.gaugeOf k, l)) as [v|] eqn:H1.
  - symmetry. apply (Hone s1 s2 v Hs1 Hs2 Hcache H1).
  - destruct (registry s2 !! (Anno.gaugeOf k, l)) as [v|] eqn:H2; [|reflexivity].
    rewrite (Hone s2 s1 v Hs2 Hs1 (eq_sym Hcache) H2) in H1. discriminate H1.
Qed.

(** X20; C1, where it holds.  Let the base labels of every autoscaler be given by
    its name, in the snapshot of this tick and in those before it.  Then
    after a successful tick, for every condition type and every name for
    which the tick saw a condition of that type, the vector holds under that
    name exactly the active series of the last such condition, at 1, and its
    inactive series, at 0; no series of an earlier reason, message or status
    is left under that name. *)
Theorem delete_before_set_when_names_identify :
  forall (F : string -> Labels) (json : Anno.Json) (interval : Z)
         (history : list (ListResponse as_v1.HorizontalPodAutoscaler))
         (hpa : list as_v1.HorizontalPodAutoscaler)
         (k : Anno.CondKind) (name : string) (c : Anno.condition),
    (forall n : string, F n !! "hpa_name" = Some n) ->
    Forall (fun resp => forall items, out resp = Some items -> Part003.labelled F items)
           history ->
    Part003.labelled F hpa ->
    Part003.observedIn json hpa k name = Some c ->
    let before := (Part003.metricsLoop json interval history Part003.initial).2 in
    let after :=
      (Part003.metricsIteration json interval {| out := Some hpa; err := None |} before).2 in
    let active := mergeLabels (F name) (Part003.makeAnnotationCondLabels c).1 in
    let inactive := mergeLabels (F name) (Part003.makeAnnotationCondLabels c).2 in
    registry after !! (Anno.gaugeOf k, active) = Some (Go.float64 1) /\
    registry after !! (Anno.gaugeOf k, inactive) = Some (Go.float64 0) /\
    active <> inactive /\
    forall l : Labels,
      is_Some (registry after !! (Anno.gaugeOf k, l)) ->
      l !! "hpa_name" = Some name ->
      l = active \/ l = inactive.
Proof.
  intros F json interval history hpa k name c HF Hhistory Hhpa Hobserved.
  cbv zeta.
  pose proof (loop_consistent F HF json interval history Part003.initial Hhistory
                (initial_consistent F)) as Hbefore.
  set (before := (Part003.metricsLoop json interval history Part003.initial).2) in *.
  rewrite iteration_003_run. cbv zeta. cbn [snd registry].
  set (s0 := {| registry := registry before; cache := cache before;
                events := events before ++ [ListCall] |}).
  assert (Part003.consistent F s0) as Hs0
    by (apply (consistent_same F before); [reflexivity.. | exact Hbefore]).
  destruct (snapshot_consistent F HF json hpa s0 Hhpa Hs0) as [_ Hs1].
  destruct (snapshot_cache json hpa s0 k name) as [Hf Hr].
  rewrite Hobserved in Hf, Hr.
  exact (consistent_exact F HF _ k name _ _ Hs1 Hf Hr).
Qed.

(** X21; C5, where it holds for part_003.  Under the same condition on names,
    publishing a snapshot a second time leaves the caches and every series of
    the three condition vectors, values included, as the first tick left
    them. *)
Theorem cached_relabel_idempotent_when_names_identify :
  forall (F : string -> Labels) (json : Anno.Json) (interval : Z)
         (hpa : list as_v1.HorizontalPodAutoscaler) (s : Part003.St),
    (forall n : string, F n !! "hpa_name" = Some n) ->
    Part003.consistent F s ->
    Part003.labelled F hpa ->
    let once :=
      (Part003.metricsIteration json interval {| out := Some hpa; err := None |} s).2 in
    let twice :=
      (Part003.metricsIteration json interval {| out := Some hpa; err := None |} once).2 in
    cache twice = cache once /\
    forall (k : Anno.CondKind) (l : Labels),
      registry twice !! (Anno.gaugeOf k, l) = registry once !! (Anno.gaugeOf k, l).
Proof.
  intros F json interval hpa s HF Hs Hhpa. cbv zeta.
  pose proof (iteration_consistent F HF json interval
                {| out := Some hpa; err := None |} s
                (fun items Heq => eq_ind hpa (Part003.labelled F) Hhpa items
                                    (f_equal (default hpa) Heq)) Hs) as Honce.
  set (once := (Part003.metricsIteration json interval
                  {| out := Some hpa; err := None |} s).2) in *.
  pose proof (iteration_consistent F HF json interval
                {| out := Some hpa; err := None |} once
                (fun items Heq => eq_ind hpa (Part003.labelled F) Hhpa items
                                    (f_equal (default hpa) Heq)) Honce) as Htwice.
  assert (cache (Part003.metricsIteration json interval
                   {| out := Some hpa; err := None |} once).2 = cache once) as Hcache.
  { apply caches_eq. intros k n.
    rewrite iteration_003_run. cbv zeta. cbn [snd cache].
    destruct (snapshot_cache json hpa
                {| registry := registry once; cache := cache once;
                   events := events once ++ [ListCall] |} k n) as [Hf Hr].
    rewrite Hf, Hr. cbn [cache].
    subst once. rewrite iteration_003_run. cbv zeta. cbn [snd cache].
    destruct (snapshot_cache json hpa
                {| registry := registry s; cache := cache s;
                   events := events s ++ [ListCall] |} k n) as [Hf1 Hr1].
    rewrite Hf1, Hr1.
    destruct (Part003.observedIn json hpa k n); split; reflexivity. }
  split; [exact Hcache|].
  intros k l. apply (consistent_determined F _ _ k l Htwice Honce Hcache).
Qed.

(** One autoscaler in [prod] whose reason changes between two ticks: the
    conditions of the theorem hold, and the vector ends with the two series
    of the new condition under its name. *)
Lemma delete_before_set_when_names_identify_witness :
  let history := [Sample.listed [Sample.web "prod" "web" [Sample.ready]]] in
  let hpa := [Sample.web "prod" "web" [Sample.rescaled]] in
  let before := (Part003.metricsLoop Sample.json 30 history Part003.initial).2 in
  let after := (Part003.metricsIteration Sample.json 30 (Sample.listed hpa) before).2 in
  let active :=
    mergeLabels (Sample.prodLabels "web")
      (Part003.makeAnnotationCondLabels Sample.rescaled).1 in
  let inactive :=
    mergeLabels (Sample.prodLabels "web")
      (Part003.makeAnnotationCondLabels Sample.rescaled).2 in
  registry after !! (Anno.hpaAbleToScale, active) = Some (Go.float64 1) /\
  registry after !! (Anno.hpaAbleToScale, inactive) = Some (Go.float64 0) /\
  active <> inactive /\
  forall l : Labels,
    is_Some (registry after !! (Anno.hpaAbleToScale, l)) ->
    l !! "hpa_name" = Some "web" ->
    l = active \/ l = inactive.
Proof.
  cbv zeta.
  assert (forall n : string, Sample.prodLabels n !! "hpa_name" = Some n) as HF
    by (intros n; apply lookup_insert_eq).
  assert (forall conditions : list Anno.condition,
             Part003.labelled Sample.prodLabels [Sample.web "prod" "web" conditions])
    as Hlabelled.
  { intros conditions. constructor; [|constructor]. reflexivity. }
  refine (delete_before_set_when_names_identify Sample.prodLabels Sample.json 30
            [Sample.listed [Sample.web "prod" "web" [Sample.ready]]]
            [Sample.web "prod" "web" [Sample.rescaled]]
            Anno.AbleToScale "web" Sample.rescaled HF _ (Hlabelled _) _).
  - constructor; [|constructor]. intros items [= <-]. apply Hlabelled.
  - vm_compute. reflexivity.
Defined.

Lemma cached_relabel_idempotent_when_names_identify_witness :
  let hpa := [Sample.web "prod" "web" [Sample.rescaled]] in
  let once := (Part003.metricsIteration Sample.json 30 (Sample.listed hpa) Part003.initial).2 in
  let twice := (Part003.metricsIteration Sample.json 30 (Sample.listed hpa) once).2 in
  cache twice = cache once /\
  forall (k : Anno.CondKind) (l : Labels),
    registry twice !! (Anno.gaugeOf k, l) = registry once !! (Anno.gaugeOf k, l).
Proof.
  cbv zeta.
  refine (cached_relabel_idempotent_when_names_identify Sample.prodLabels Sample.json 30
            [Sample.web "prod" "web" [Sample.rescaled]] Part003.initial _ _ _).
  - intros n. apply lookup_insert_eq.
  - apply initial_consistent.
  - constructor; [|constructor]. reflexivity.
Defined.

(** ** Properties of the registry that the code keeps *)

Section Keeps.
Context {C : Type} `{Countable C} {K : Type}.
Abbreviation St := (State (gmap (C * Labels) float) K).
Implicit Types I : gmap (C * Labels) float -> K -> Prop.

Lemma keeps_ret {A : Type} I (a : A) : keeps I (mret a : Go.M St A).
Proof. intros s Hs. exact Hs. Qed.

Lemma keeps_panic {A : Type} I : keeps I (Go.panic : Go.M St A).
Proof. intros s Hs. exact Hs. Qed.

Lemma keeps_lift {A : Type} I (r : Go.res A) : keeps I (lift r : Go.M St A).
Proof. intros s Hs. exact Hs. Qed.

Lemma keeps_deref {A : Type} I (p : option A) : keeps I (Go.deref p : Go.M St A).
Proof. intros s Hs. destruct p; exact Hs. Qed.

Lemma keeps_bind {A B : Type} I (m : Go.M St A) (f : A -> Go.M St B) :
  keeps I m -> (forall a, keeps I (f a)) -> keeps I (m ≫= f).
Proof.
  intros Hm Hf s Hs. rewrite bind_run. specialize (Hm s Hs).
  destruct (m s) as [[a|] s']; cbn in Hm.
  - exact (Hf a s' Hm).
  - exact Hm.
Qed.

Lemma keeps_range {A : Type} I (xs : list A) (body : A -> Go.M St unit) :
  (forall x, x ∈ xs -> keeps I (body x)) -> keeps I (Go.range xs body).
Proof.
  induction xs as [|x xs IH]; intros Hbody.
  - apply (keeps_ret I tt).
  - apply (keeps_bind I (body x)).
    + apply Hbody. left.
    + intros _. apply IH. intros y Hy. apply Hbody. right. exact Hy.
Qed.

Lemma keeps_WithSet I (c : C) (l : Labels) (v : float) :
  (forall r k, I r k -> I (<[(c, l) := v]> r) k) ->
  keeps I (WithSet c l v : Go.M St unit).
Proof. intros HI s Hs. exact (HI _ _ Hs). Qed.

Lemma keeps_Delete I (c : C) (l : Labels) :
  (forall r k, I r k -> I (delete (c, l) r) k) ->
  keeps I (Delete c l : Go.M St unit).
Proof. intros HI s Hs. exact (HI _ _ Hs). Qed.

Lemma keeps_ResetVec I (c : C) :
  (forall r k, I r k -> I (filter (fun kv => kv.1.1 ≠ c) r) k) ->
  keeps I (ResetVec c : Go.M St unit).
Proof. intros HI s Hs. exact (HI _ _ Hs). Qed.

Lemma keeps_emit I (e : Event) : keeps I (emit e : Go.M St unit).
Proof. intros s Hs. exact Hs. Qed.

Lemma keeps_readCache I : keeps I (readCache : Go.M St K).
Proof. intros s Hs. exact Hs. Qed.

Lemma keeps_writeCache I (f : K -> K) :
  (forall r k, I r k -> I r (f k)) -> keeps I (writeCache f : Go.M St unit).
Proof. intros HI s Hs. exact (HI _ _ Hs). Qed.

Lemma keeps_and {A : Type} I (J : gmap (C * Labels) float -> K -> Prop)
    (m : Go.M St A) :
  keeps I m -> keeps J m -> keeps (fun r k => I r k /\ J r k) m.
Proof. intros HI HJ s [Hs1 Hs2]. split; [exact (HI s Hs1) | exact (HJ s Hs2)]. Qed.

Lemma keeps_run {A : Type} I (m : Go.M St A) (s : St) :
  keeps I m -> I (registry s) (cache s) -> I (registry (m s).2) (cache (m s).2).
Proof. intros Hm. apply Hm. Qed.

Lemma keeps_getHpaList {X : Type} I (resp : ListResponse X) :
  keeps I (getHpaList resp : Go.M St (list X * option Go.error)).
Proof. intros s Hs. destruct resp as [[items|] e]; exact Hs. Qed.

End Keeps.

Create HintDb go_keeps discriminated.
#[export] Hint Resolve keeps_ret keeps_panic keeps_lift keeps_deref keeps_emit
  keeps_readCache keeps_getHpaList : go_keeps.

(** Peels sequencing, loops and case distinctions off a [keeps] goal and
    leaves the writes, deletions and resets. *)
Ltac keeps_peel :=
  repeat first
    [ match goal with |- forall _, _ => intro end
    | progress cbn beta zeta
    | solve [auto with go_keeps]
    | match goal with
      | |- keeps _ (_ ≫= _) => apply keeps_bind
      | |- keeps _ (Go.range _ _) => apply keeps_range
      end
    | match goal with
      | |- keeps _ (match ?x with _ => _ end) => destruct x
      | |- keeps _ (if ?b then _ else _) => destruct b
      | |- keeps _ (let '(_, _) := ?x in _) => destruct x
      end ].

(** ** Every series carries the label names of its vector *)

Section WellLabelled.
Context {C : Type} `{Countable C}.
Implicit Types r : gmap (C * Labels) float.

Lemma wellLabelled_empty (names : C -> list string) :
  wellLabelled names (∅ : gmap (C * Labels) float).
Proof. intros c l [v Hv]. rewrite lookup_empty in Hv. discriminate Hv. Qed.

Lemma wellLabelled_insert (names : C -> list string) (c : C) (l : Labels)
    (v : float) r :
  dom l = (list_to_set (names c) : gset string) ->
  wellLabelled names r -> wellLabelled names (<[(c, l) := v]> r).
Proof.
  intros Hl Hr c' l' Hsome.
  destruct (decide ((c, l) = (c', l'))) as [[= <- <-]|Hne].
  - exact Hl.
  - rewrite lookup_insert_ne in Hsome by exact Hne. exact (Hr c' l' Hsome).
Qed.

Lemma wellLabelled_subseteq (names : C -> list string) r r' :
  r' ⊆ r -> wellLabelled names r -> wellLabelled names r'.
Proof.
  intros Hsub Hr c l [v Hv]. apply (Hr c l). exists v.
  exact (lookup_weaken _ _ _ _ Hv Hsub).
Qed.

Lemma wellLabelled_delete (names : C -> list string) (key : C * Labels) r :
  wellLabelled names r -> wellLabelled names (delete key r).
Proof. apply wellLabelled_subseteq, delete_subseteq. Qed.

Lemma wellLabelled_filter (names : C -> list string)
    (P : (C * Labels) * float -> Prop) `{!forall x, Decision (P x)} r :
  wellLabelled names r -> wellLabelled names (filter P r).
Proof. apply wellLabelled_subseteq, map_filter_subseteq. Qed.

End WellLabelled.

(** The label sets the four variants build. *)
Lemma dom_labelOf_main (a : as_v1.HorizontalPodAutoscaler) :
  dom (Main.labelOf a) = (list_to_set Declared.labels : gset string).
Proof.
  unfold Main.labelOf, Declared.labels. cbn [list_to_set].
  rewrite !dom_insert_L, dom_singleton_L. set_solver.
Qed.

Lemma dom_labelOf_anno (a : as_v1.HorizontalPodAutoscaler) :
  dom (Anno.labelOf a) = (list_to_set Declared.labels : gset string).
Proof.
  unfold Anno.labelOf, Declared.labels. cbn [list_to_set].
  rewrite !dom_insert_L, dom_singleton_L. set_solver.
Qed.

Lemma dom_baseLabelOf (a : as_v2.HorizontalPodAutoscaler) :
  dom (Part004.baseLabelOf a) = (list_to_set Declared.baseLabels : gset string).
Proof.
  unfold Part004.baseLabelOf, Declared.baseLabels. cbn [list_to_set].
  rewrite !dom_insert_L, dom_singleton_L. set_solver.
Qed.

Lemma dom_mergeLabels (m1 m2 : Labels) (n1 n2 : list string) :
  dom m1 = (list_to_set n1 : gset string) ->
  dom m2 = (list_to_set n2 : gset string) ->
  dom (mergeLabels m1 m2) = (list_to_set (n1 ++ n2) : gset string).
Proof.
  intros Hm1 Hm2. unfold mergeLabels.
  rewrite dom_union_L, list_to_set_app_L, Hm1, Hm2. apply (comm_L (∪)).
Qed.

Lemma dom_condLabels_003 (cond : Anno.condition) :
  dom (Part003.makeAnnotationCondLabels cond).1
  = (list_to_set Declared.annoLabels : gset string) /\
  dom (Part003.makeAnnotationCondLabels cond).2
  = (list_to_set Declared.annoLabels : gset string).
Proof.
  unfold Part003.makeAnnotationCondLabels, Declared.annoLabels.
  cbn [fst snd list_to_set].
  rewrite !dom_insert_L, !dom_singleton_L. split; set_solver.
Qed.

Lemma dom_condLabels_004 (cond : as_v2.Condition.t) :
  dom (Part004.makeAnnotationCondLabels cond).1
  = (list_to_set Declared.annoLabels : gset string) /\
  dom (Part004.makeAnnotationCondLabels cond).2
  = (list_to_set Declared.annoLabels : gset string).
Proof.
  unfold Part004.makeAnnotationCondLabels, Declared.annoLabels.
  cbn [fst snd list_to_set].
  rewrite !dom_insert_L, !dom_singleton_L. split; set_solver.
Qed.

Lemma dom_metricLabels (m : Part004.commonMetrics) :
  dom (Part004.parseCommonMetrics m).2
  = (list_to_set Declared.metricLabels : gset string).
Proof.
  unfold Part004.parseCommonMetrics, Declared.metricLabels.
  cbn [fst snd list_to_set].
  rewrite !dom_insert_L, !dom_singleton_L. set_solver.
Qed.

Lemma keeps_labels_main (a : as_v1.HorizontalPodAutoscaler) :
  keeps (fun r _ => wellLabelled Declared.main r) (Main.publishHpa a).
Proof.
  unfold Main.publishHpa. keeps_peel.
  all: apply keeps_WithSet; intros r _; apply wellLabelled_insert; apply dom_labelOf_main.
Qed.

Lemma keeps_labels_base_anno {K : Type} (a : as_v1.HorizontalPodAutoscaler) (cpuVal : Z) :
  keeps (fun r _ => wellLabelled Declared.anno r)
        (Anno.publishBase (K := K) (Anno.labelOf a) a cpuVal).
Proof.
  unfold Anno.publishBase. keeps_peel.
  all: apply keeps_WithSet; intros r _; apply wellLabelled_insert; apply dom_labelOf_anno.
Qed.

#[export] Hint Resolve keeps_labels_main keeps_labels_base_anno : go_keeps.

Lemma keeps_cpuValOf {K : Type} (I : Anno.Registry -> K -> Prop)
    (metrics : list Anno.currentMetrics) :
  keeps I (Anno.cpuValOf (K := K) metrics).
Proof.
  unfold Anno.cpuValOf, Anno.currentAverageCpuValue. keeps_peel.
Qed.

#[export] Hint Resolve keeps_cpuValOf : go_keeps.

Lemma keeps_labels_condition_002 (a : as_v1.HorizontalPodAutoscaler)
    (cond : Anno.condition) :
  keeps (fun r _ => wellLabelled Declared.anno r) (Part002.publishCondition (Anno.labelOf a) cond).
Proof.
  unfold Part002.publishCondition. keeps_peel.
  all: apply keeps_WithSet; intros r _; apply wellLabelled_insert.
  all: match goal with
       | k : Anno.CondKind |- _ =>
           replace (Declared.anno (Anno.gaugeOf k))
             with (Declared.labels ++ Declared.annoLabels) by (destruct k; reflexivity)
       end.
  all: apply dom_mergeLabels; [apply dom_labelOf_anno|].
  all: unfold Declared.annoLabels; cbn [list_to_set];
    rewrite !dom_insert_L, !dom_singleton_L; set_solver.
Qed.

#[export] Hint Resolve keeps_labels_condition_002 : go_keeps.

Lemma keeps_labels_002 (json : Anno.Json) (a : as_v1.HorizontalPodAutoscaler) :
  keeps (fun r _ => wellLabelled Declared.anno r) (Part002.publishHpa json a).
Proof. unfold Part002.publishHpa. keeps_peel. Qed.

Lemma keeps_labels_relabel (k : Anno.CondKind) (a : as_v1.HorizontalPodAutoscaler)
    (name : string) (cond : Anno.condition) :
  keeps (fun r _ => wellLabelled Declared.anno r) (Part003.relabel k (Anno.labelOf a) name cond).
Proof.
  intros s Hs. rewrite relabel_run. unfold Part003.relabelled.
  destruct (dom_condLabels_003 cond) as [Hfwd Hrev].
  destruct (Part003.makeAnnotationCondLabels cond) as [fwd rev].
  cbn [fst snd registry] in *.
  assert (Declared.anno (Anno.gaugeOf k) = Declared.labels ++ Declared.annoLabels)
    as Hnames by (destruct k; reflexivity).
  apply wellLabelled_insert;
    [rewrite Hnames; apply dom_mergeLabels; [apply dom_labelOf_anno | exact Hrev]|].
  apply wellLabelled_insert;
    [rewrite Hnames; apply dom_mergeLabels; [apply dom_labelOf_anno | exact Hfwd]|].
  apply wellLabelled_delete, wellLabelled_delete. exact Hs.
Qed.

#[export] Hint Resolve keeps_labels_relabel : go_keeps.

Lemma keeps_labels_003 (json : Anno.Json) (a : as_v1.HorizontalPodAutoscaler) :
  keeps (fun r _ => wellLabelled Declared.anno r) (Part003.publishHpa json a).
Proof.
  unfold Part003.publishHpa. keeps_peel.
  unfold Part003.publishCondition. keeps_peel.
Qed.

Lemma keeps_labels_metric (c : Part004.Collector) (a : as_v2.HorizontalPodAutoscaler)
    (parsed : Go.res Part004.commonMetrics) :
  Declared.part004 c = Declared.baseLabels ++ Declared.metricLabels ->
  keeps (fun r _ => wellLabelled Declared.part004 r)
        (Part004.publishMetric c (Part004.baseLabelOf a) parsed).
Proof.
  intros Hc. unfold Part004.publishMetric, Part004.parseCommonMetrics. keeps_peel.
  apply keeps_WithSet; intros r _; apply wellLabelled_insert.
  rewrite Hc. apply dom_mergeLabels; [apply dom_baseLabelOf|].
  unfold Declared.metricLabels. cbn [list_to_set].
  rewrite !dom_insert_L, !dom_singleton_L. set_solver.
Qed.

Lemma keeps_labels_base_004 (a : as_v2.HorizontalPodAutoscaler) :
  keeps (fun r _ => wellLabelled Declared.part004 r)
        (Part004.publishBase (Part004.baseLabelOf a) a).
Proof.
  unfold Part004.publishBase. keeps_peel.
  all: apply keeps_WithSet; intros r _; apply wellLabelled_insert; apply dom_baseLabelOf.
Qed.

Lemma keeps_labels_target (a : as_v2.HorizontalPodAutoscaler)
    (metric : as_v2.MetricSpec.t) :
  keeps (fun r _ => wellLabelled Declared.part004 r)
        (Part004.targetMetric (Part004.baseLabelOf a) metric).
Proof.
  unfold Part004.targetMetric. keeps_peel.
  all: apply keeps_labels_metric; reflexivity.
Qed.

Lemma keeps_labels_current (a : as_v2.HorizontalPodAutoscaler)
    (metric : as_v2.MetricStatus.t) :
  keeps (fun r _ => wellLabelled Declared.part004 r)
        (Part004.currentMetric (Part004.baseLabelOf a) metric).
Proof.
  unfold Part004.currentMetric. keeps_peel.
  all: apply keeps_labels_metric; reflexivity.
Qed.

Lemma keeps_labels_condition_004 (a : as_v2.HorizontalPodAutoscaler)
    (cond : as_v2.Condition.t) :
  keeps (fun r _ => wellLabelled Declared.part004 r)
        (Part004.publishCondition (Part004.baseLabelOf a) cond).
Proof.
  unfold Part004.publishCondition.
  destruct (dom_condLabels_004 cond) as [Hfwd Hrev].
  destruct (Part004.makeAnnotationCondLabels cond) as [fwd rev]. cbn [fst snd] in *.
  keeps_peel.
  all: apply keeps_WithSet; intros r _; apply wellLabelled_insert.
  all: apply (dom_mergeLabels _ _ Declared.baseLabels Declared.annoLabels);
    [apply dom_baseLabelOf | assumption].
Qed.

#[export] Hint Resolve keeps_labels_base_004 keeps_labels_target
  keeps_labels_current keeps_labels_condition_004 : go_keeps.

Lemma keeps_labels_004 (a : as_v2.HorizontalPodAutoscaler) :
  keeps (fun r _ => wellLabelled Declared.part004 r) (Part004.publishHpa a).
Proof. unfold Part004.publishHpa. keeps_peel. Qed.

#[export] Hint Resolve keeps_labels_002 keeps_labels_003 keeps_labels_004 : go_keeps.

(** X1.  In every variant, whatever the API server answers, every series the
    metrics goroutine has published since start-up carries exactly the label
    names its vector was declared with: no call of [With] hits a vector with
    a missing or a surplus label name. *)
Theorem series_carry_declared_label_names :
  forall (json : Anno.Json) (interval : Z)
         (answers : list (ListResponse as_v1.HorizontalPodAutoscaler))
         (answersV2 : list (ListResponse as_v2.HorizontalPodAutoscaler)),
    wellLabelled Declared.main
      (registry (Main.metricsLoop interval answers Main.initial).2) /\
    wellLabelled Declared.anno
      (registry (Part002.metricsLoop json interval answers Part002.initial).2) /\
    wellLabelled Declared.anno
      (registry (Part003.metricsLoop json interval answers Part003.initial).2) /\
    wellLabelled Declared.part004
      (registry (Part004.metricsLoop interval answersV2 Part004.initial).2).
Proof.
  intros json interval answers answersV2. split_ands.
  - refine (keeps_run (fun r _ => wellLabelled Declared.main r)
              (Main.metricsLoop interval answers) Main.initial _ (wellLabelled_empty _)).
    unfold Main.metricsLoop. keeps_peel. unfold Main.metricsIteration. keeps_peel.
  - refine (keeps_run (fun r _ => wellLabelled Declared.anno r)
              (Part002.metricsLoop json interval answers) Part002.initial _
              (wellLabelled_empty _)).
    unfold Part002.metricsLoop. keeps_peel. unfold Part002.metricsIteration. keeps_peel.
  - refine (keeps_run (fun r _ => wellLabelled Declared.anno r)
              (Part003.metricsLoop json interval answers) Part003.initial _
              (wellLabelled_empty _)).
    unfold Part003.metricsLoop. keeps_peel. unfold Part003.metricsIteration. keeps_peel.
  - refine (keeps_run (fun r _ => wellLabelled Declared.part004 r)
              (Part004.metricsLoop interval answersV2) Part004.initial _
              (wellLabelled_empty _)).
    unfold Part004.metricsLoop. keeps_peel. unfold Part004.metricsIteration. keeps_peel.
    unfold Part004.resetAllMetric. keeps_peel.
    apply keeps_ResetVec. intros r _. apply wellLabelled_filter.
Qed.

(** ** Which autoscaler a series belongs to *)

Lemma namesHpa_labelOf_main (a : as_v1.HorizontalPodAutoscaler) :
  namesHpa (as_v1.ObjectMeta a) (Main.labelOf a).
Proof. split; reflexivity. Qed.

Lemma namesHpa_labelOf_anno (a : as_v1.HorizontalPodAutoscaler) :
  namesHpa (as_v1.ObjectMeta a) (Anno.labelOf a).
Proof. split; reflexivity. Qed.

Lemma namesHpa_baseLabelOf (a : as_v2.HorizontalPodAutoscaler) :
  namesHpa (as_v2.ObjectMeta a) (Part004.baseLabelOf a).
Proof. split; reflexivity. Qed.

Lemma namesHpa_merge (meta : meta_v1.ObjectMeta) (label extra : Labels) :
  namesHpa meta label -> conditionOnly extra -> namesHpa meta (mergeLabels label extra).
Proof.
  intros [Hname Hns] [Hxname Hxns]. unfold mergeLabels. split.
  - rewrite lookup_union_r by exact Hxname. exact Hname.
  - rewrite lookup_union_r by exact Hxns. exact Hns.
Qed.

Lemma conditionOnly_empty : conditionOnly ∅.
Proof. split; apply lookup_empty. Qed.

Lemma conditionOnly_dom (l : Labels) (names : list string) :
  dom l = (list_to_set names : gset string) ->
  "hpa_name" ∉ names -> "hpa_namespace" ∉ names -> conditionOnly l.
Proof.
  intros Hdom Hname Hns.
  split; apply not_elem_of_dom; rewrite Hdom, elem_of_list_to_set; assumption.
Qed.

Lemma annoLabels_conditionOnly (l : Labels) :
  dom l = (list_to_set Declared.annoLabels : gset string) -> conditionOnly l.
Proof.
  intros Hdom. apply (conditionOnly_dom l _ Hdom);
    apply (bool_decide_eq_false_1 _); reflexivity.
Qed.

Lemma metricLabels_conditionOnly (l : Labels) :
  dom l = (list_to_set Declared.metricLabels : gset string) -> conditionOnly l.
Proof.
  intros Hdom. apply (conditionOnly_dom l _ Hdom);
    apply (bool_decide_eq_false_1 _); reflexivity.
Qed.

Lemma condLabels_002_conditionOnly (status reason message : string) :
  conditionOnly ({[ "cond_status" := status; "cond_reason" := reason;
                    "cond_message" := message ]} : Labels).
Proof.
  apply annoLabels_conditionOnly. unfold Declared.annoLabels. cbn [list_to_set].
  rewrite !dom_insert_L, !dom_singleton_L. set_solver.
Qed.

Lemma condLabels_003_conditionOnly (cond : Anno.condition) :
  conditionOnly (Part003.makeAnnotationCondLabels cond).1 /\
  conditionOnly (Part003.makeAnnotationCondLabels cond).2.
Proof.
  destruct (dom_condLabels_003 cond) as [Hfwd Hrev].
  split; apply annoLabels_conditionOnly; assumption.
Qed.

Lemma condLabels_004_conditionOnly (cond : as_v2.Condition.t) :
  conditionOnly (Part004.makeAnnotationCondLabels cond).1 /\
  conditionOnly (Part004.makeAnnotationCondLabels cond).2.
Proof.
  destruct (dom_condLabels_004 cond) as [Hfwd Hrev].
  split; apply annoLabels_conditionOnly; assumption.
Qed.

(** ** A tick of the set-based variants touches the listed autoscalers only *)

Section Untouched.
Context {C : Type} `{Countable C} {K : Type}.
Abbreviation St := (State (gmap (C * Labels) float) K).

(** A write or a deletion under labels that name an autoscaler leaves a
    series alone whose labels do not name it. *)
Lemma keeps_series_WithSet (meta : meta_v1.ObjectMeta) (c : C) (l : Labels)
    (v : float) (key : C * Labels) (v0 : option float) :
  namesHpa meta l -> ~ namesHpa meta key.2 ->
  keeps (fun r _ => r !! key = v0) (WithSet c l v : Go.M St unit).
Proof.
  intros Hl Hkey. apply keeps_WithSet. intros r _ Hr.
  rewrite lookup_insert_ne; [exact Hr|].
  intros <-. exact (Hkey Hl).
Qed.

Lemma keeps_series_Delete (meta : meta_v1.ObjectMeta) (c : C) (l : Labels)
    (key : C * Labels) (v0 : option float) :
  namesHpa meta l -> ~ namesHpa meta key.2 ->
  keeps (fun r _ => r !! key = v0) (Delete c l : Go.M St unit).
Proof.
  intros Hl Hkey. apply keeps_Delete. intros r _ Hr.
  rewrite lookup_delete_ne; [exact Hr|].
  intros <-. exact (Hkey Hl).
Qed.

End Untouched.

Lemma untouched_main (a : as_v1.HorizontalPodAutoscaler)
    (key : Main.Collector * Labels) (v0 : option float) :
  ~ namesHpa (as_v1.ObjectMeta a) key.2 ->
  keeps (fun r _ => r !! key = v0) (Main.publishHpa a).
Proof.
  intros Hkey. unfold Main.publishHpa. keeps_peel.
  all: apply (keeps_series_WithSet (as_v1.ObjectMeta a)); [|exact Hkey].
  all: apply namesHpa_labelOf_main.
Qed.

Lemma untouched_base_anno {K : Type} (a : as_v1.HorizontalPodAutoscaler)
    (cpuVal : Z) (key : Anno.Collector * Labels) (v0 : option float) :
  ~ namesHpa (as_v1.ObjectMeta a) key.2 ->
  keeps (fun r _ => r !! key = v0)
        (Anno.publishBase (K := K) (Anno.labelOf a) a cpuVal).
Proof.
  intros Hkey. unfold Anno.publishBase. keeps_peel.
  all: apply (keeps_series_WithSet (as_v1.ObjectMeta a)); [|exact Hkey].
  all: apply namesHpa_labelOf_anno.
Qed.

Lemma untouched_condition_002 (a : as_v1.HorizontalPodAutoscaler)
    (cond : Anno.condition) (key : Anno.Collector * Labels) (v0 : option float) :
  ~ namesHpa (as_v1.ObjectMeta a) key.2 ->
  keeps (fun r _ => r !! key = v0) (Part002.publishCondition (Anno.labelOf a) cond).
Proof.
  intros Hkey. unfold Part002.publishCondition. keeps_peel.
  all: apply (keeps_series_WithSet (as_v1.ObjectMeta a)); [|exact Hkey].
  all: apply namesHpa_merge;
    [apply namesHpa_labelOf_anno | apply condLabels_002_conditionOnly].
Qed.

Lemma untouched_002 (json : Anno.Json) (a : as_v1.HorizontalPodAutoscaler)
    (key : Anno.Collector * Labels) (v0 : option float) :
  ~ namesHpa (as_v1.ObjectMeta a) key.2 ->
  keeps (fun r _ => r !! key = v0) (Part002.publishHpa json a).
Proof.
  intros Hkey. unfold Part002.publishHpa. keeps_peel.
  - apply untouched_base_anno. exact Hkey.
  - apply untouched_condition_002. exact Hkey.
Qed.

(** The caches of part_003 hold condition labels only. *)
Lemma noLabels_conditionOnly : cachesConditionOnly Part003.noLabels.
Proof. intros k name. destruct k; split; apply conditionOnly_empty. Qed.

Lemma storeLabels_conditionOnly (k : Anno.CondKind) (name : string)
    (cond : Anno.condition) (c : Part003.Caches) :
  cachesConditionOnly c ->
  cachesConditionOnly
    (Part003.storeLabels k name (Part003.makeAnnotationCondLabels cond).1
       (Part003.makeAnnotationCondLabels cond).2 c).
Proof.
  intros Hc k' name'. destruct (Hc k' name') as [Hf Hr].
  destruct (condLabels_003_conditionOnly cond) as [Hfwd Hrev].
  unfold Part003.labelsAt in *.
  rewrite annoLabel_store, annoLabelRev_store.
  destruct (decide (k' = k)) as [->|Hk]; [|split; assumption].
  destruct (decide (name = name')) as [->|Hname].
  - rewrite !lookup_insert_eq. split; assumption.
  - rewrite !lookup_insert_ne by exact Hname. split; assumption.
Qed.

Lemma relabel_conditionOnly (k : Anno.CondKind) (label : Labels) (name : string)
    (cond : Anno.condition) :
  keeps (fun _ c => cachesConditionOnly c) (Part003.relabel k label name cond).
Proof.
  intros s Hs. rewrite relabel_run. unfold Part003.relabelled.
  pose proof (storeLabels_conditionOnly k name cond (cache s) Hs) as Hstore.
  destruct (Part003.makeAnnotationCondLabels cond) as [fwd rev]. exact Hstore.
Qed.

Lemma relabel_untouched (k : Anno.CondKind) (a : as_v1.HorizontalPodAutoscaler)
    (name : string) (cond : Anno.condition)
    (key : Anno.Collector * Labels) (v0 : option float) :
  ~ namesHpa (as_v1.ObjectMeta a) key.2 ->
  keeps (fun r c => cachesConditionOnly c /\ r !! key = v0)
        (Part003.relabel k (Anno.labelOf a) name cond).
Proof.
  intros Hkey s [Hcache Hr].
  split; [exact (relabel_conditionOnly k (Anno.labelOf a) name cond s Hcache)|].
  rewrite relabel_run. unfold Part003.relabelled.
  destruct (condLabels_003_conditionOnly cond) as [Hfwd Hrev].
  destruct (Hcache k name) as [Hold HoldRev].
  destruct (Part003.makeAnnotationCondLabels cond) as [fwd rev].
  cbn [fst snd registry] in *.
  assert (forall extra : Labels, conditionOnly extra ->
            (Anno.gaugeOf k, mergeLabels (Anno.labelOf a) extra) <> key) as Hne.
  { intros extra Hextra <-. apply Hkey. cbn [snd].
    apply namesHpa_merge; [apply namesHpa_labelOf_anno | exact Hextra]. }
  rewrite !lookup_insert_ne, !lookup_delete_ne by (apply Hne; assumption).
  exact Hr.
Qed.

Lemma keeps_cache_base_anno {K : Type} (Q : K -> Prop) (label : Labels)
    (a : as_v1.HorizontalPodAutoscaler) (cpuVal : Z) :
  keeps (fun _ c => Q c) (Anno.publishBase label a cpuVal).
Proof.
  unfold Anno.publishBase. keeps_peel.
  all: apply keeps_WithSet; intros r c Hc; exact Hc.
Qed.

Lemma keeps_conditionOnly_003 (json : Anno.Json) (a : as_v1.HorizontalPodAutoscaler) :
  keeps (fun _ c => cachesConditionOnly c) (Part003.publishHpa json a).
Proof.
  unfold Part003.publishHpa. keeps_peel.
  - apply (keeps_cache_base_anno cachesConditionOnly).
  - unfold Part003.publishCondition. keeps_peel. apply relabel_conditionOnly.
Qed.

Lemma untouched_003 (json : Anno.Json) (a : as_v1.HorizontalPodAutoscaler)
    (key : Anno.Collector * Labels) (v0 : option float) :
  ~ namesHpa (as_v1.ObjectMeta a) key.2 ->
  keeps (fun r c => cachesConditionOnly c /\ r !! key = v0)
        (Part003.publishHpa json a).
Proof.
  intros Hkey. unfold Part003.publishHpa. keeps_peel.
  - apply keeps_and;
      [apply (keeps_cache_base_anno cachesConditionOnly)
      | apply untouched_base_anno; exact Hkey].
  - unfold Part003.publishCondition. keeps_peel.
    apply relabel_untouched. exact Hkey.
Qed.

(** A tick whose List call hands back a list object: what runs after the
    call. *)
Lemma main_tick_listed (interval : Z) (hpa : list as_v1.HorizontalPodAutoscaler)
    (e : option Go.error) :
  Main.metricsIteration interval {| out := Some hpa; err := e |}
  = (emit ListCall;;
     match e with
     | Some e' => emit (LogError e')
     | None => Go.range hpa Main.publishHpa;; emit (Sleep interval)
     end).
Proof. reflexivity. Qed.

Lemma part002_tick_listed (json : Anno.Json) (interval : Z)
    (hpa : list as_v1.HorizontalPodAutoscaler) (e : option Go.error) :
  Part002.metricsIteration json interval {| out := Some hpa; err := e |}
  = (emit ListCall;;
     match e with
     | Some e' => emit (LogError e')
     | None => Go.range hpa (Part002.publishHpa json);; emit (Sleep interval)
     end).
Proof. reflexivity. Qed.

Lemma part003_tick_listed (json : Anno.Json) (interval : Z)
    (hpa : list as_v1.HorizontalPodAutoscaler) (e : option Go.error) :
  Part003.metricsIteration json interval {| out := Some hpa; err := e |}
  = (emit ListCall;;
     match e with
     | Some e' => emit (LogError e')
     | None => Go.range hpa (Part003.publishHpa json);; emit (Sleep interval)
     end).
Proof. reflexivity. Qed.

Lemma part004_tick_listed (interval : Z)
    (hpa : list as_v2.HorizontalPodAutoscaler) (e : option Go.error) :
  Part004.metricsIteration interval {| out := Some hpa; err := e |}
  = (emit ListCall;;
     match e with
     | Some e' => emit (LogError e')
     | None =>
         Part004.resetAllMetric;; Go.range hpa Part004.publishHpa;;
         emit (Sleep interval)
     end).
Proof. reflexivity. Qed.

(** X2.  A tick of main.go, part_002 or part_003 whose fetch succeeded
    touches no series but those that carry the name and the namespace of an
    autoscaler of the snapshot: whatever was published for an autoscaler
    that is no longer listed stays in the registry with the value it had.
    For part_003 this includes the deletions, from any state the goroutine
    reaches. *)
Theorem unlisted_autoscalers_keep_their_series :
  forall (json : Anno.Json) (interval : Z)
         (hpa : list as_v1.HorizontalPodAutoscaler) (l : Labels),
    Forall (fun a => ~ namesHpa (as_v1.ObjectMeta a) l) hpa ->
    (forall (c : Main.Collector) (s : Main.St),
        registry (Main.metricsIteration interval {| out := Some hpa; err := None |} s).2
        !! (c, l) = registry s !! (c, l)) /\
    (forall (c : Anno.Collector) (s : Part002.St),
        registry (Part002.metricsIteration json interval
                    {| out := Some hpa; err := None |} s).2
        !! (c, l) = registry s !! (c, l)) /\
    (forall (c : Anno.Collector)
            (history : list (ListResponse as_v1.HorizontalPodAutoscaler)),
        let before := (Part003.metricsLoop json interval history Part003.initial).2 in
        registry (Part003.metricsIteration json interval
                    {| out := Some hpa; err := None |} before).2
        !! (c, l) = registry before !! (c, l)).
Proof.
  intros json interval hpa l Hl. rewrite Forall_forall in Hl. split_ands.
  - intros c s.
    refine (keeps_run (fun r _ => r !! (c, l) = registry s !! (c, l))
              (Main.metricsIteration interval _) s _ eq_refl).
    rewrite main_tick_listed. keeps_peel.
    apply untouched_main. apply Hl. assumption.
  - intros c s.
    refine (keeps_run (fun r _ => r !! (c, l) = registry s !! (c, l))
              (Part002.metricsIteration json interval _) s _ eq_refl).
    rewrite part002_tick_listed. keeps_peel.
    apply untouched_002. apply Hl. assumption.
  - intros c history. cbv zeta.
    set (before := (Part003.metricsLoop json interval history Part003.initial).2).
    assert (cachesConditionOnly (cache before)) as Hbefore.
    { refine (keeps_run (fun _ c => cachesConditionOnly c)
                (Part003.metricsLoop json interval history) Part003.initial _
                noLabels_conditionOnly).
      unfold Part003.metricsLoop. keeps_peel.
      unfold Part003.metricsIteration. keeps_peel. apply keeps_conditionOnly_003. }
    refine (proj2 (keeps_run
              (fun r c0 => cachesConditionOnly c0 /\ r !! (c, l) = registry before !! (c, l))
              (Part003.metricsIteration json interval _) before _
              (conj Hbefore eq_refl))).
    rewrite part003_tick_listed. keeps_peel.
    apply untouched_003. apply Hl. assumption.
Qed.

(** ** The set-based variants never drop a series *)

Lemma keeps_present_WithSet {C K : Type} `{Countable C} (c : C) (l : Labels)
    (v : float) (key : C * Labels) :
  keeps (fun r (_ : K) => is_Some (r !! key)) (WithSet c l v).
Proof.
  apply keeps_WithSet. intros r _ Hr. apply lookup_insert_is_Some'. right. exact Hr.
Qed.

#[export] Hint Resolve keeps_present_WithSet : go_keeps.

Lemma keeps_present_main (a : as_v1.HorizontalPodAutoscaler)
    (key : Main.Collector * Labels) :
  keeps (fun r _ => is_Some (r !! key)) (Main.publishHpa a).
Proof. unfold Main.publishHpa. keeps_peel. Qed.

Lemma keeps_present_base_anno {K : Type} (label : Labels)
    (a : as_v1.HorizontalPodAutoscaler) (cpuVal : Z) (key : Anno.Collector * Labels) :
  keeps (fun r (_ : K) => is_Some (r !! key)) (Anno.publishBase label a cpuVal).
Proof. unfold Anno.publishBase. keeps_peel. Qed.

Lemma keeps_present_002 (json : Anno.Json) (a : as_v1.HorizontalPodAutoscaler)
    (key : Anno.Collector * Labels) :
  keeps (fun r _ => is_Some (r !! key)) (Part002.publishHpa json a).
Proof.
  unfold Part002.publishHpa. keeps_peel.
  - apply keeps_present_base_anno.
  - unfold Part002.publishCondition. keeps_peel.
Qed.

Lemma keeps_present_relabel (k : Anno.CondKind) (label : Labels) (name : string)
    (cond : Anno.condition) (key : Anno.Collector * Labels) :
  Anno.baseCollector key.1 = true ->
  keeps (fun r _ => is_Some (r !! key)) (Part003.relabel k label name cond).
Proof.
  intros Hbase s Hs. rewrite relabel_run. unfold Part003.relabelled.
  destruct (Part003.makeAnnotationCondLabels cond) as [fwd rev]. cbn [snd registry].
  assert (forall l : Labels, (Anno.gaugeOf k, l) <> key) as Hne.
  { intros l <-. destruct k; discriminate Hbase. }
  rewrite !lookup_insert_ne, !lookup_delete_ne by apply Hne. exact Hs.
Qed.

Lemma keeps_present_003 (json : Anno.Json) (a : as_v1.HorizontalPodAutoscaler)
    (key : Anno.Collector * Labels) :
  Anno.baseCollector key.1 = true ->
  keeps (fun r _ => is_Some (r !! key)) (Part003.publishHpa json a).
Proof.
  intros Hbase. unfold Part003.publishHpa. keeps_peel.
  - apply keeps_present_base_anno.
  - unfold Part003.publishCondition. keeps_peel.
    apply keeps_present_relabel. exact Hbase.
Qed.

(** X3.  main.go and part_002 only ever set series: whatever the API server
    answers, every series that is in the registry before the goroutine's
    loop runs is still there afterwards, an autoscaler that was deleted from
    the cluster included.  In part_003 the same holds for the eight base
    vectors, which its deletions never touch. *)
Theorem set_based_variants_never_drop_a_series :
  forall (json : Anno.Json) (interval : Z)
         (answers : list (ListResponse as_v1.HorizontalPodAutoscaler)),
    (forall s : Main.St,
        dom (registry s) ⊆ dom (registry (Main.metricsLoop interval answers s).2)) /\
    (forall s : Part002.St,
        dom (registry s)
        ⊆ dom (registry (Part002.metricsLoop json interval answers s).2)) /\
    (forall s : Part003.St,
        filter (fun key => Anno.baseCollector key.1 = true) (dom (registry s))
        ⊆ dom (registry (Part003.metricsLoop json interval answers s).2)).
Proof.
  intros json interval answers. split_ands.
  - intros s key Hkey. apply elem_of_dom. apply elem_of_dom in Hkey.
    refine (keeps_run (fun r _ => is_Some (r !! key))
              (Main.metricsLoop interval answers) s _ Hkey).
    unfold Main.metricsLoop. keeps_peel. unfold Main.metricsIteration. keeps_peel.
    apply keeps_present_main.
  - intros s key Hkey. apply elem_of_dom. apply elem_of_dom in Hkey.
    refine (keeps_run (fun r _ => is_Some (r !! key))
              (Part002.metricsLoop json interval answers) s _ Hkey).
    unfold Part002.metricsLoop. keeps_peel. unfold Part002.metricsIteration. keeps_peel.
    apply keeps_present_002.
  - intros s key Hkey. apply elem_of_filter in Hkey as [Hbase Hkey].
    apply elem_of_dom. apply elem_of_dom in Hkey.
    refine (keeps_run (fun r _ => is_Some (r !! key))
              (Part003.metricsLoop json interval answers) s _ Hkey).
    unfold Part003.metricsLoop. keeps_peel. unfold Part003.metricsIteration. keeps_peel.
    apply keeps_present_003. exact Hbase.
Qed.

(** ** After a tick of part_004 only listed autoscalers have series *)

Section ListedOnly.
Context (hpa : list as_v2.HorizontalPodAutoscaler).

Lemma listedOnly_WithSet (a : as_v2.HorizontalPodAutoscaler)
    (c : Part004.Collector) (l : Labels) (v : float) :
  a ∈ hpa -> namesHpa (as_v2.ObjectMeta a) l ->
  keeps (fun r _ => listedOnly hpa r) (WithSet c l v : Go.M Part004.St unit).
Proof.
  intros Ha Hl. apply keeps_WithSet. intros r _ Hr c' l' Hsome.
  destruct (decide ((c, l) = (c', l'))) as [[= <- <-]|Hne].
  - apply Exists_exists. exists a. split; [exact Ha | exact Hl].
  - rewrite lookup_insert_ne in Hsome by exact Hne. exact (Hr c' l' Hsome).
Qed.

Lemma listedOnly_metric (a : as_v2.HorizontalPodAutoscaler)
    (c : Part004.Collector) (parsed : Go.res Part004.commonMetrics) :
  a ∈ hpa ->
  keeps (fun r _ => listedOnly hpa r)
        (Part004.publishMetric c (Part004.baseLabelOf a) parsed).
Proof.
  intros Ha. unfold Part004.publishMetric.
  apply keeps_bind; [apply keeps_lift|]. intros m.
  pose proof (metricLabels_conditionOnly _ (dom_metricLabels m)) as Hm.
  destruct (Part004.parseCommonMetrics m) as [v l]. cbn [snd] in Hm.
  apply (listedOnly_WithSet a); [exact Ha|].
  apply namesHpa_merge; [apply namesHpa_baseLabelOf | exact Hm].
Qed.

Lemma listedOnly_publishHpa (a : as_v2.HorizontalPodAutoscaler) :
  a ∈ hpa -> keeps (fun r _ => listedOnly hpa r) (Part004.publishHpa a).
Proof.
  intros Ha. unfold Part004.publishHpa. keeps_peel.
  - unfold Part004.publishBase. keeps_peel.
    all: apply (listedOnly_WithSet a); [exact Ha | apply namesHpa_baseLabelOf].
  - unfold Part004.targetMetric. keeps_peel.
    all: apply listedOnly_metric; exact Ha.
  - unfold Part004.currentMetric. keeps_peel.
    all: apply listedOnly_metric; exact Ha.
  - unfold Part004.publishCondition.
    match goal with
    | x : as_v2.Condition.t |- _ =>
        destruct (condLabels_004_conditionOnly x) as [Hfwd Hrev];
        destruct (Part004.makeAnnotationCondLabels x) as [fwd rev]
    end.
    cbn [fst snd] in *. keeps_peel.
    all: apply (listedOnly_WithSet a); [exact Ha|].
    all: apply namesHpa_merge; [apply namesHpa_baseLabelOf | assumption].
Qed.

Lemma listedOnly_tick (interval : Z) (s : Part004.St) :
  listedOnly hpa
    (registry (Part004.metricsIteration interval {| out := Some hpa; err := None |} s).2).
Proof.
  rewrite part004_tick_listed. rewrite !bind_run. cbn [emit Go.modify].
  rewrite !bind_run, resetAllMetric_run.
  match goal with
  | |- listedOnly _ (registry (?m ?s0).2) =>
      refine (keeps_run (fun r _ => listedOnly hpa r) m s0 _ _)
  end.
  - keeps_peel. apply listedOnly_publishHpa. assumption.
  - intros c l [v Hv]. cbn in Hv. rewrite lookup_empty in Hv. discriminate Hv.
Qed.

End ListedOnly.

(** X4.  After a tick of part_004 whose fetch succeeded every series of the
    registry carries the name and the namespace of an autoscaler of the
    snapshot: the reset leaves nothing behind of an autoscaler that is no
    longer listed, whatever the registry held before. *)
Theorem reset_tick_leaves_listed_autoscalers_only :
  forall (interval : Z) (hpa : list as_v2.HorizontalPodAutoscaler)
         (s : Part004.St) (c : Part004.Collector) (l : Labels),
    is_Some (registry (Part004.metricsIteration interval
                         {| out := Some hpa; err := None |} s).2 !! (c, l)) ->
    Exists (fun a => namesHpa (as_v2.ObjectMeta a) l) hpa.
Proof. intros interval hpa s c l. apply (listedOnly_tick hpa). Qed.

(** ** part_002 never turns an active condition series off *)

Section StaysActive.
Context (k : Anno.CondKind) (l : Labels).
Hypothesis l_explained :
  l !! "cond_reason" <> Some "" \/ l !! "cond_message" <> Some "".

Lemma active_set_one {K : Type} (c : Anno.Collector) (l' : Labels) :
  keeps (fun r (_ : K) => activeAt k l r) (WithSet c l' (Go.float64 1)).
Proof.
  apply keeps_WithSet. intros r _ Hr. unfold activeAt.
  destruct (decide ((c, l') = (Anno.gaugeOf k, l))) as [->|Hne].
  - apply lookup_insert_eq.
  - rewrite lookup_insert_ne by exact Hne. exact Hr.
Qed.

Lemma active_set_inactive {K : Type} (c : Anno.Collector) (label : Labels)
    (status : string) (v : float) :
  keeps (fun r (_ : K) => activeAt k l r)
        (WithSet c (mergeLabels label
                      {[ "cond_status" := status; "cond_reason" := "";
                         "cond_message" := "" ]}) v).
Proof.
  apply keeps_WithSet. intros r _ Hr. unfold activeAt.
  rewrite lookup_insert_ne; [exact Hr|].
  intros [= _ <-]. unfold mergeLabels in l_explained.
  destruct l_explained as [Hreason | Hmessage].
  - apply Hreason. apply lookup_union_Some_l. reflexivity.
  - apply Hmessage. apply lookup_union_Some_l. reflexivity.
Qed.

Lemma active_set_base {K : Type} (c : Anno.Collector) (label : Labels) (v : float) :
  Anno.baseCollector c = true ->
  keeps (fun r (_ : K) => activeAt k l r) (WithSet c label v).
Proof.
  intros Hc. apply keeps_WithSet. intros r _ Hr. unfold activeAt.
  rewrite lookup_insert_ne; [exact Hr|].
  intros [= -> _]. destruct k; discriminate Hc.
Qed.

Lemma active_publishHpa (json : Anno.Json) (a : as_v1.HorizontalPodAutoscaler) :
  keeps (fun r _ => activeAt k l r) (Part002.publishHpa json a).
Proof.
  unfold Part002.publishHpa. keeps_peel.
  - unfold Anno.publishBase. keeps_peel.
    all: apply active_set_base; reflexivity.
  - unfold Part002.publishCondition. keeps_peel.
    + apply active_set_one.
    + apply active_set_inactive.
Qed.

Lemma active_loop (json : Anno.Json) (interval : Z)
    (answers : list (ListResponse as_v1.HorizontalPodAutoscaler)) :
  keeps (fun r _ => activeAt k l r) (Part002.metricsLoop json interval answers).
Proof.
  unfold Part002.metricsLoop. keeps_peel.
  unfold Part002.metricsIteration. keeps_peel. apply active_publishHpa.
Qed.

End StaysActive.

(** X5.  In part_002 a condition series that stands at 1 under a non-empty
    reason or message stays at 1 whatever the API server answers from then
    on: the loop only ever writes 0 under an empty reason and message, and
    it deletes nothing.  A condition whose reason changes therefore leaves
    its former series active beside the new one. *)
Theorem set_only_conditions_stay_active :
  forall (json : Anno.Json) (interval : Z)
         (answers : list (ListResponse as_v1.HorizontalPodAutoscaler))
         (s : Part002.St) (k : Anno.CondKind) (l : Labels),
    registry s !! (Anno.gaugeOf k, l) = Some (Go.float64 1) ->
    l !! "cond_reason" <> Some "" \/ l !! "cond_message" <> Some "" ->
    registry (Part002.metricsLoop json interval answers s).2 !! (Anno.gaugeOf k, l)
    = Some (Go.float64 1).
Proof.
  intros json interval answers s k l Hactive Hl.
  exact (active_loop k l Hl json interval answers s Hactive).
Qed.

(** The autoscaler [prod/web] reports [ReadyForNewScale], then
    [SucceededRescale]: the series of the first reason is still at 1. *)
Lemma set_only_conditions_stay_active_witness :
  let first := (Part002.metricsIteration Sample.json 30
                  (Sample.listed [Sample.web "prod" "web" [Sample.ready]])
                  Part002.initial).2 in
  let answers := [Sample.listed [Sample.web "prod" "web" [Sample.rescaled]]] in
  let l := mergeLabels (Sample.webLabel "prod" "web")
             (Sample.condLabel "True" "ReadyForNewScale" "") in
  registry (Part002.metricsLoop Sample.json 30 answers first).2
  !! (Anno.hpaAbleToScale, l) = Some (Go.float64 1).
Proof.
  cbv zeta.
  refine (set_only_conditions_stay_active Sample.json 30 _ _ Anno.AbleToScale _ _ _).
  - vm_compute. reflexivity.
  - left. intros Hreason. vm_compute in Hreason. discriminate Hreason.
Defined.

(** ** When the metrics goroutine panics *)

Section PanicsIff.
Context {S : Type}.

Lemma panicsIff_iff {A : Type} (m : Go.M S A) (P Q : Prop) :
  (P <-> Q) -> panicsIff m P -> panicsIff m Q.
Proof. intros HPQ Hm s. rewrite (Hm s). exact HPQ. Qed.

Lemma panicsIff_ret {A : Type} (a : A) : panicsIff (mret a : Go.M S A) False.
Proof. intros s. split; [discriminate | contradiction]. Qed.

Lemma panicsIff_modify (f : S -> S) : panicsIff (Go.modify f) False.
Proof. intros s. split; [discriminate | contradiction]. Qed.

Lemma panicsIff_deref {A : Type} (p : option A) :
  panicsIff (Go.deref p : Go.M S A) (p = None).
Proof. intros s. destruct p; split; first [discriminate | reflexivity]. Qed.

Lemma panicsIff_lift {A : Type} (r : Go.res A) :
  panicsIff (lift r : Go.M S A) (r = Go.Panicked).
Proof. intros s. reflexivity. Qed.

Lemma panicsIff_bind {A B : Type} (m : Go.M S A) (f : A -> Go.M S B) (P Q : Prop) :
  panicsIff m P -> (forall a, panicsIff (f a) Q) -> panicsIff (m ≫= f) (P \/ Q).
Proof.
  intros Hm Hf s. rewrite bind_run. specialize (Hm s).
  destruct (m s) as [[a|] s']; cbn [fst] in *.
  - rewrite (Hf a s'). split; [intros HQ; right; exact HQ|].
    intros [HP|HQ]; [|exact HQ]. apply Hm in HP. discriminate HP.
  - split; [intros _; left; apply Hm; reflexivity | reflexivity].
Qed.

Lemma panicsIff_range {A : Type} (xs : list A) (body : A -> Go.M S unit)
    (bad : A -> Prop) :
  (forall x, panicsIff (body x) (bad x)) -> panicsIff (Go.range xs body) (Exists bad xs).
Proof.
  intros Hbody. induction xs as [|x xs IH].
  - intros s. rewrite Exists_nil. split; [discriminate | contradiction].
  - apply (panicsIff_iff _ (bad x \/ Exists bad xs)); [symmetry; apply Exists_cons|].
    apply (panicsIff_bind (body x)); [apply Hbody | intros _; exact IH].
Qed.

(** Code that never panics can be left out of the account. *)
Lemma panicsIff_then {A B : Type} (m : Go.M S A) (k : Go.M S B) (Q : Prop) :
  panicsIff m False -> panicsIff k Q -> panicsIff (m;; k) Q.
Proof.
  intros Hm Hk. apply (panicsIff_iff _ (False \/ Q)); [tauto|].
  apply panicsIff_bind; [exact Hm | intros _; exact Hk].
Qed.

Lemma panicsIff_first {A B : Type} (m : Go.M S A) (f : A -> Go.M S B) (P : Prop) :
  panicsIff m P -> (forall a, panicsIff (f a) False) -> panicsIff (m ≫= f) P.
Proof.
  intros Hm Hf. apply (panicsIff_iff _ (P \/ False)); [tauto|].
  apply panicsIff_bind; assumption.
Qed.

Lemma panicsIff_safe_range {A : Type} (xs : list A) (body : A -> Go.M S unit) :
  (forall x, panicsIff (body x) False) -> panicsIff (Go.range xs body) False.
Proof.
  intros Hbody. apply (panicsIff_iff _ (Exists (fun _ => False) xs)).
  - rewrite Exists_exists. split; [intros (x & _ & []) | contradiction].
  - apply panicsIff_range. exact Hbody.
Qed.

End PanicsIff.

Section PanicsGauges.
Context {C : Type} `{Countable C} {K : Type}.
Abbreviation St := (State (gmap (C * Labels) float) K).

Lemma panicsIff_WithSet (c : C) (l : Labels) (v : float) :
  panicsIff (WithSet c l v : Go.M St unit) False.
Proof. apply panicsIff_modify. Qed.

Lemma panicsIff_Delete (c : C) (l : Labels) :
  panicsIff (Delete c l : Go.M St unit) False.
Proof. apply panicsIff_modify. Qed.

Lemma panicsIff_ResetVec (c : C) : panicsIff (ResetVec c : Go.M St unit) False.
Proof. apply panicsIff_modify. Qed.

Lemma panicsIff_emit (e : Event) : panicsIff (emit e : Go.M St unit) False.
Proof. apply panicsIff_modify. Qed.

Lemma panicsIff_readCache : panicsIff (readCache : Go.M St K) False.
Proof. intros s. split; [discriminate | contradiction]. Qed.

Lemma panicsIff_writeCache (f : K -> K) :
  panicsIff (writeCache f : Go.M St unit) False.
Proof. apply panicsIff_modify. Qed.

Lemma panicsIff_getHpaList {X : Type} (resp : ListResponse X) :
  panicsIff (getHpaList resp : Go.M St (list X * option Go.error)) (out resp = None).
Proof. intros s. destruct resp as [[items|] e]; split; first [discriminate | reflexivity]. Qed.

End PanicsGauges.

Create HintDb go_panics discriminated.
#[export] Hint Resolve panicsIff_ret panicsIff_WithSet panicsIff_Delete
  panicsIff_ResetVec panicsIff_emit panicsIff_readCache panicsIff_writeCache
  : go_panics.

(** Settles that a piece of gauge code never panics. *)
Ltac never_panics :=
  repeat first
    [ match goal with |- forall _, _ => intro end
    | progress cbn beta zeta
    | solve [auto with go_panics]
    | match goal with
      | |- panicsIff (_ ≫= _) False => apply panicsIff_first
      | |- panicsIff (Go.range _ _) False => apply panicsIff_safe_range
      | |- panicsIff (match ?x with _ => _ end) False => destruct x
      | |- panicsIff (if ?b then _ else _) False => destruct b
      | |- panicsIff (let '(_, _) := ?x in _) False => destruct x
      end ].

(** *** main.go *)

Lemma publishHpa_main_panicsIff (a : as_v1.HorizontalPodAutoscaler) :
  panicsIff (Main.publishHpa a) (guardedUnscaled a).
Proof.
  unfold Main.publishHpa, guardedUnscaled.
  destruct (as_v1.MinReplicas (as_v1.Spec a)) as [minReplicas|];
    [|apply (panicsIff_iff _ False);
       [split; [contradiction | intros ([? [=]] & _)] | apply panicsIff_ret]].
  destruct (as_v1.CurrentCPUUtilizationPercentage (as_v1.Status a)) as [currentCPU|];
    [|apply (panicsIff_iff _ False);
       [split; [contradiction | intros (_ & [? [=]] & _)] | apply panicsIff_ret]].
  destruct (as_v1.TargetCPUUtilizationPercentage (as_v1.Spec a)) as [targetCPU|];
    [|apply (panicsIff_iff _ False);
       [split; [contradiction | intros (_ & _ & [? [=]] & _)] | apply panicsIff_ret]].
  cbn zeta.
  apply (panicsIff_iff _ (as_v1.LastScaleTime (as_v1.Status a) = None)).
  { split; [intros Hnone; split_ands; solve [eexists; reflexivity | exact Hnone]
           | intros (_ & _ & _ & Hnone); exact Hnone]. }
  repeat (apply panicsIff_then; [apply panicsIff_WithSet|]).
  apply panicsIff_first; [apply panicsIff_deref | intros t; apply panicsIff_WithSet].
Qed.

(** X6.  A tick of main.go that got a list object panics exactly when the
    fetch succeeded and the snapshot holds an autoscaler that has its
    min-replicas, current and target utilization set and no last-scale
    time: the loop body dereferences [a.Status.LastScaleTime] unguarded. *)
Theorem main_tick_panics_exactly_on_unscaled :
  forall (interval : Z) (hpa : list as_v1.HorizontalPodAutoscaler)
         (e : option Go.error) (s : Main.St),
    (Main.metricsIteration interval {| out := Some hpa; err := e |} s).1 = Go.Panicked
    <-> e = None /\ Exists guardedUnscaled hpa.
Proof.
  intros interval hpa e s. rewrite main_tick_listed. revert s.
  change (panicsIff (emit ListCall;;
                     match e with
                     | Some e' => emit (LogError e')
                     | None => Go.range hpa Main.publishHpa;; emit (Sleep interval)
                     end : Go.M Main.St unit)
            (e = None /\ Exists guardedUnscaled hpa)).
  apply panicsIff_then; [apply panicsIff_emit|].
  destruct e as [e'|].
  - apply (panicsIff_iff _ False); [split; [contradiction | intros [[=] _]]|].
    apply panicsIff_emit.
  - apply (panicsIff_iff _ (Exists guardedUnscaled hpa)); [tauto|].
    apply panicsIff_first; [|intros _; apply panicsIff_emit].
    apply panicsIff_range. apply publishHpa_main_panicsIff.
Qed.

(** *** part_002 and part_003 *)

Lemma publishBase_anno_never_panics {K : Type} (label : Labels)
    (a : as_v1.HorizontalPodAutoscaler) (cpuVal : Z) :
  panicsIff (Anno.publishBase (K := K) label a cpuVal) False.
Proof. unfold Anno.publishBase. never_panics. Qed.

Lemma cpuValOf_never_panics {K : Type} (metrics : list Anno.currentMetrics) :
  panicsIff (Anno.cpuValOf (K := K) metrics) False.
Proof. unfold Anno.cpuValOf, Anno.currentAverageCpuValue. never_panics. Qed.

#[export] Hint Resolve publishBase_anno_never_panics cpuValOf_never_panics : go_panics.

Lemma publishHpa_002_never_panics (json : Anno.Json)
    (a : as_v1.HorizontalPodAutoscaler) :
  panicsIff (Part002.publishHpa json a) False.
Proof.
  unfold Part002.publishHpa. never_panics.
  unfold Part002.publishCondition. never_panics.
Qed.

Lemma publishHpa_003_never_panics (json : Anno.Json)
    (a : as_v1.HorizontalPodAutoscaler) :
  panicsIff (Part003.publishHpa json a) False.
Proof.
  unfold Part003.publishHpa. never_panics.
  unfold Part003.publishCondition. never_panics.
  unfold Part003.relabel. never_panics.
Qed.

(** X7.  The loop bodies of part_002 and part_003 guard every optional
    field they read: a tick of either variant panics exactly when the List
    call hands back a nil list object, whatever the autoscalers, their
    annotations and the decoder are. *)
Theorem annotation_ticks_panic_only_on_nil_list :
  forall (json : Anno.Json) (interval : Z)
         (resp : ListResponse as_v1.HorizontalPodAutoscaler),
    (forall s : Part002.St,
        (Part002.metricsIteration json interval resp s).1 = Go.Panicked
        <-> out resp = None) /\
    (forall s : Part003.St,
        (Part003.metricsIteration json interval resp s).1 = Go.Panicked
        <-> out resp = None).
Proof.
  intros json interval resp. split.
  - change (panicsIff (Part002.metricsIteration json interval resp) (out resp = None)).
    unfold Part002.metricsIteration.
    apply panicsIff_first; [apply panicsIff_getHpaList|].
    intros [hpa [e|]]; never_panics. apply publishHpa_002_never_panics.
  - change (panicsIff (Part003.metricsIteration json interval resp) (out resp = None)).
    unfold Part003.metricsIteration.
    apply panicsIff_first; [apply panicsIff_getHpaList|].
    intros [hpa [e|]]; never_panics. apply publishHpa_003_never_panics.
Qed.

(** *** part_004 *)

Lemma publishMetric_panicsIff (c : Part004.Collector) (baseLabel : Labels)
    (parsed : Go.res Part004.commonMetrics) :
  panicsIff (Part004.publishMetric c baseLabel parsed) (parsed = Go.Panicked).
Proof.
  unfold Part004.publishMetric.
  apply panicsIff_first; [apply panicsIff_lift|].
  intros m. destruct (Part004.parseCommonMetrics m). apply panicsIff_WithSet.
Qed.

Lemma parseObjectSpec_panics (m : option as_v2.ObjectMetricSource.t) :
  Part004.parseObjectSpec m = Go.Panicked <-> m = None.
Proof. destruct m; split; first [discriminate | reflexivity]. Qed.

Lemma parsePodsSpec_panics (m : option as_v2.PodsMetricSource.t) :
  Part004.parsePodsSpec m = Go.Panicked <-> m = None.
Proof. destruct m; split; first [discriminate | reflexivity]. Qed.

Lemma parseResourceSpec_panics (m : option as_v2.ResourceMetricSource.t) :
  Part004.parseResourceSpec m = Go.Panicked <->
  match m with
  | None => True
  | Some r =>
      as_v2.ResourceMetricSource.TargetAverageUtilization r = None /\
      as_v2.ResourceMetricSource.TargetAverageValue r = None
  end.
Proof.
  destruct m as [[name [u|] [q|]]|]; cbn; split; intros Hm;
    first [ discriminate Hm | exact I | reflexivity | split; reflexivity
          | destruct Hm as [Hm1 Hm2]; first [discriminate Hm1 | discriminate Hm2] ].
Qed.

Lemma parseExternalSpec_panics (m : option as_v2.ExternalMetricSource.t) :
  Part004.parseExternalSpec m = Go.Panicked <->
  match m with
  | None => True
  | Some x =>
      as_v2.ExternalMetricSource.TargetAverageValue x = None /\
      as_v2.ExternalMetricSource.TargetValue x = None
  end.
Proof.
  destruct m as [[name [q|] [q'|]]|]; cbn; split; intros Hm;
    first [ discriminate Hm | exact I | reflexivity | split; reflexivity
          | destruct Hm as [Hm1 Hm2]; first [discriminate Hm1 | discriminate Hm2] ].
Qed.

Lemma parseObjectStatus_panics (m : option as_v2.ObjectMetricStatus.t) :
  Part004.parseObjectStatus m = Go.Panicked <-> m = None.
Proof. destruct m; split; first [discriminate | reflexivity]. Qed.

Lemma parsePodsStatus_panics (m : option as_v2.PodsMetricStatus.t) :
  Part004.parsePodsStatus m = Go.Panicked <-> m = None.
Proof. destruct m; split; first [discriminate | reflexivity]. Qed.

Lemma parseResourceStatus_panics (m : option as_v2.ResourceMetricStatus.t) :
  Part004.parseResourceStatus m = Go.Panicked <-> m = None.
Proof. destruct m; split; first [discriminate | reflexivity]. Qed.

Lemma parseExternalStatus_panics (m : option as_v2.ExternalMetricStatus.t) :
  Part004.parseExternalStatus m = Go.Panicked <-> m = None.
Proof. destruct m; split; first [discriminate | reflexivity]. Qed.

(** Among the disjuncts of [danglingTarget] and [danglingCurrent] only the
    one of the descriptor's own type can hold. *)
Ltac pick_type Hty Hbad :=
  first [ split; [exact Hty | exact Hbad]
        | left; split; [exact Hty | exact Hbad]
        | right; pick_type Hty Hbad ].

Ltac one_type Hty :=
  split;
  [ intros Hbad; pick_type Hty Hbad
  | intros Hbad;
    repeat match type of Hbad with
           | _ \/ _ => destruct Hbad as [Hbad|Hbad]
           end;
    destruct Hbad as [Hty' Hbad];
    first [exact Hbad | rewrite Hty in Hty'; discriminate Hty'] ].

Lemma targetMetric_panicsIff (baseLabel : Labels) (m : as_v2.MetricSpec.t) :
  panicsIff (Part004.targetMetric baseLabel m) (danglingTarget m).
Proof.
  unfold Part004.targetMetric, danglingTarget. cbn zeta.
  repeat match goal with
         | |- panicsIff (if decide ?P then _ else _) _ => destruct (decide P) as [Hty|?]
         end.
  - eapply panicsIff_iff; [|apply publishMetric_panicsIff].
    rewrite parseObjectSpec_panics. one_type Hty.
  - eapply panicsIff_iff; [|apply publishMetric_panicsIff].
    rewrite parsePodsSpec_panics. one_type Hty.
  - eapply panicsIff_iff; [|apply publishMetric_panicsIff].
    rewrite parseResourceSpec_panics. one_type Hty.
  - eapply panicsIff_iff; [|apply publishMetric_panicsIff].
    rewrite parseExternalSpec_panics. one_type Hty.
  - apply (panicsIff_iff _ False); [|apply panicsIff_ret].
    split; [contradiction|]. intros [[? _]|[[? _]|[[? _]|[? _]]]]; contradiction.
Qed.

Lemma currentMetric_panicsIff (baseLabel : Labels) (m : as_v2.MetricStatus.t) :
  panicsIff (Part004.currentMetric baseLabel m) (danglingCurrent m).
Proof.
  unfold Part004.currentMetric, danglingCurrent. cbn zeta.
  repeat match goal with
         | |- panicsIff (if decide ?P then _ else _) _ => destruct (decide P) as [Hty|?]
         end.
  - eapply panicsIff_iff; [|apply publishMetric_panicsIff].
    rewrite parseObjectStatus_panics. one_type Hty.
  - eapply panicsIff_iff; [|apply publishMetric_panicsIff].
    rewrite parsePodsStatus_panics. one_type Hty.
  - eapply panicsIff_iff; [|apply publishMetric_panicsIff].
    rewrite parseResourceStatus_panics. one_type Hty.
  - eapply panicsIff_iff; [|apply publishMetric_panicsIff].
    rewrite parseExternalStatus_panics. one_type Hty.
  - apply (panicsIff_iff _ False); [|apply panicsIff_ret].
    split; [contradiction|]. intros [[? _]|[[? _]|[[? _]|[? _]]]]; contradiction.
Qed.

Lemma publishHpa_004_panicsIff (a : as_v2.HorizontalPodAutoscaler) :
  panicsIff (Part004.publishHpa a) (dangling a).
Proof.
  unfold Part004.publishHpa, dangling. cbn zeta.
  apply panicsIff_then; [unfold Part004.publishBase; never_panics|].
  apply panicsIff_bind; [apply panicsIff_range; apply targetMetric_panicsIff|].
  intros _. apply panicsIff_first; [apply panicsIff_range; apply currentMetric_panicsIff|].
  intros _. apply panicsIff_safe_range. intros cond.
  unfold Part004.publishCondition. never_panics.
Qed.

(** X8.  A tick of part_004 that got a list object panics exactly when the
    fetch succeeded and some autoscaler of the snapshot holds a target or
    current metric descriptor whose type is Object, Pods, Resource or
    External while the payload of that kind is a nil pointer, or, for a
    target, a Resource payload with neither utilization nor average value,
    or an External payload with neither average value nor value. *)
Theorem reset_tick_panics_exactly_on_dangling_metric :
  forall (interval : Z) (hpa : list as_v2.HorizontalPodAutoscaler)
         (e : option Go.error) (s : Part004.St),
    (Part004.metricsIteration interval {| out := Some hpa; err := e |} s).1 = Go.Panicked
    <-> e = None /\ Exists dangling hpa.
Proof.
  intros interval hpa e s. rewrite part004_tick_listed. revert s.
  change (panicsIff (emit ListCall;;
                     match e with
                     | Some e' => emit (LogError e')
                     | None =>
                         Part004.resetAllMetric;; Go.range hpa Part004.publishHpa;;
                         emit (Sleep interval)
                     end : Go.M Part004.St unit)
            (e = None /\ Exists dangling hpa)).
  apply panicsIff_then; [apply panicsIff_emit|].
  destruct e as [e'|].
  - apply (panicsIff_iff _ False); [split; [contradiction | intros [[=] _]]|].
    apply panicsIff_emit.
  - apply (panicsIff_iff _ (Exists dangling hpa)); [tauto|].
    apply panicsIff_then; [unfold Part004.resetAllMetric; never_panics|].
    apply panicsIff_first; [|intros _; apply panicsIff_emit].
    apply panicsIff_range. apply publishHpa_004_panicsIff.
Qed.

(** ** The CPU value read from the current-metrics annotation *)

Lemma digit_cases (d : Z) :
  0 <= d <= 9 ->
  d = 0 \/ d = 1 \/ d = 2 \/ d = 3 \/ d = 4 \/ d = 5 \/ d = 6 \/ d = 7 \/ d = 8 \/ d = 9.
Proof. lia. Qed.

Ltac each_digit H :=
  apply digit_cases in H;
  repeat match type of H with _ \/ _ => destruct H as [H|H] end; subst.

Lemma digitOf_digitChar (d : Z) : 0 <= d <= 9 -> Anno.digitOf (digitChar d) = Some d.
Proof. intros Hd. each_digit Hd; reflexivity. Qed.

Lemma digitChar_plain (d : Z) :
  0 <= d <= 9 ->
  Ascii.eqb (digitChar d) "m" = false /\
  Ascii.eqb (digitChar d) "+" = false /\
  Ascii.eqb (digitChar d) "-" = false.
Proof. intros Hd. each_digit Hd; split_ands; reflexivity. Qed.

Lemma parseDigits_numeral (ds : list Z) (acc : Z) :
  Forall (fun d => 0 <= d <= 9) ds ->
  Anno.parseDigits (numeral ds) acc = Some (fold_left (fun a d => a * 10 + d) ds acc).
Proof.
  intros Hds. revert acc. induction Hds as [|d ds Hd Hds IH]; intros acc.
  - reflexivity.
  - cbn [numeral fold_right Anno.parseDigits fold_left].
    rewrite (digitOf_digitChar d Hd). apply IH.
Qed.

Lemma trimRightByte_numeral (ds : list Z) :
  Forall (fun d => 0 <= d <= 9) ds ->
  Anno.trimRightByte (numeral ds) "m" = numeral ds /\
  Anno.trimRightByte (numeral ds +:+ "m") "m" = numeral ds.
Proof.
  intros Hds. induction Hds as [|d ds Hd Hds [IH1 IH2]].
  - split; reflexivity.
  - destruct (digitChar_plain d Hd) as (Hm & _ & _).
    change (numeral (d :: ds)) with (String (digitChar d) (numeral ds)).
    change (String (digitChar d) (numeral ds) +:+ "m")
      with (String (digitChar d) (numeral ds +:+ "m")).
    cbn [Anno.trimRightByte]. rewrite IH1, IH2, Hm.
    destruct (numeral ds); split; reflexivity.
Qed.

Lemma trimLeftByte_numeral (ds : list Z) :
  Forall (fun d => 0 <= d <= 9) ds ->
  Anno.trimLeftByte (numeral ds) "m" = numeral ds.
Proof.
  intros Hds. destruct Hds as [|d ds Hd Hds]; [reflexivity|].
  destruct (digitChar_plain d Hd) as (Hm & _ & _).
  cbn [numeral fold_right Anno.trimLeftByte]. rewrite Hm. reflexivity.
Qed.

Lemma ParseInt_numeral (ds : list Z) :
  ds <> [] -> Forall (fun d => 0 <= d <= 9) ds -> valueOf ds < 2 ^ 63 ->
  Anno.ParseInt (numeral ds) = inr (valueOf ds).
Proof.
  intros Hne Hds Hfit.
  pose proof (parseDigits_numeral ds 0 Hds) as Hparse. fold (valueOf ds) in Hparse.
  destruct Hds as [|d ds Hd Hds]; [contradiction|].
  destruct (digitChar_plain d Hd) as (_ & Hplus & Hminus).
  unfold Anno.ParseInt. cbn [numeral fold_right] in *. fold (numeral ds) in *.
  rewrite Hplus, Hminus, Hparse.
  destruct (Z.ltb_spec (valueOf (d :: ds)) (2 ^ 63)) as [_|Hge]; [reflexivity | lia].
Qed.

(** X9.  [currentAverageCpuValue] drops the unit: for a value written as a
    decimal numeral below 2^63, with or without the suffix [m], it returns
    the number the numeral denotes and logs nothing.  A current average of
    two whole cores, which the API writes as [2], is thus published as 2,
    the same as two millicores, [2m]. *)
Theorem cpu_value_ignores_the_milli_suffix :
  forall (K : Type) (ds : list Z) (metrics : Anno.currentMetrics)
         (s : State Anno.Registry K),
    ds <> [] -> Forall (fun d => 0 <= d <= 9) ds -> valueOf ds < 2 ^ 63 ->
    Anno.CurrentAverageValue (Anno.Resource metrics) = numeral ds \/
    Anno.CurrentAverageValue (Anno.Resource metrics) = numeral ds +:+ "m" ->
    Anno.currentAverageCpuValue metrics s = (Go.Val (valueOf ds), s).
Proof.
  intros K ds metrics s Hne Hds Hfit Htext.
  destruct (trimRightByte_numeral ds Hds) as [Hplain Hmilli].
  assert (Anno.Trim (Anno.CurrentAverageValue (Anno.Resource metrics)) "m" = numeral ds)
    as Htrim.
  { unfold Anno.Trim. destruct Htext as [-> | ->].
    - rewrite Hplain. apply trimLeftByte_numeral. exact Hds.
    - rewrite Hmilli. apply trimLeftByte_numeral. exact Hds. }
  unfold Anno.currentAverageCpuValue. rewrite Htrim, (ParseInt_numeral ds Hne Hds Hfit).
  reflexivity.
Qed.

(** [1500m] and [1500] both give 1500. *)
Lemma cpu_value_ignores_the_milli_suffix_witness :
  let milli := {| Anno.mType := "Resource";
                  Anno.Resource := {| Anno.rName := "cpu";
                                      Anno.CurrentAverageUtilization := 75;
                                      Anno.CurrentAverageValue := "1500m" |} |} in
  Anno.currentAverageCpuValue milli Part002.initial = (Go.Val 1500, Part002.initial).
Proof.
  cbv zeta.
  refine (cpu_value_ignores_the_milli_suffix unit [1; 5; 0; 0] _ Part002.initial _ _ _ _).
  - discriminate.
  - repeat constructor; lia.
  - vm_compute. reflexivity.
  - right. reflexivity.
Defined.

(** ** The condition-logging goroutine *)

(** The line [log.Infof] writes for an autoscaler is the text part_003 sends
    to CloudWatch for it. *)
Lemma logConditions_run (a : as_v1.HorizontalPodAutoscaler) (s : Part002Log.St) :
  Part002Log.logConditions a s
  = (Go.Val tt,
     {| registry := registry s;
        cache := cache s ++ [LogInfo (Part003Log.hpaConditionJsonString a)];
        events := events s |}).
Proof. reflexivity. Qed.

Lemma range_logConditions (hpa : list as_v1.HorizontalPodAutoscaler)
    (s : Part002Log.St) :
  Go.range hpa Part002Log.logConditions s
  = (Go.Val tt,
     {| registry := registry s;
        cache := cache s
                 ++ map (fun a => LogInfo (Part003Log.hpaConditionJsonString a)) hpa;
        events := events s |}).
Proof.
  revert s. induction hpa as [|a hpa IH]; intros s.
  - cbn [map]. rewrite app_nil_r. destruct s; reflexivity.
  - rewrite range_cons_run, logConditions_run, IH. cbn [registry cache events map].
    rewrite <- app_assoc. reflexivity.
Qed.

Lemma part002_logging_listed (flags : Flags)
    (hpa : list as_v1.HorizontalPodAutoscaler) (e : option Go.error) :
  Part002Log.loggingIteration flags {| out := Some hpa; err := e |}
  = (emit ListCall;;
     match e with
     | Some e' => emit (LogError e')
     | None => Go.range hpa Part002Log.logConditions;;
               emit (Sleep (loggingInterval flags))
     end).
Proof. reflexivity. Qed.

Lemma part003_logging_listed (flags : Flags)
    (cwSession : cloudwatchlogs.CloudWatchLogs) (now : Z)
    (hpa : list as_v1.HorizontalPodAutoscaler) (e : option Go.error) :
  Part003Log.loggingIteration flags cwSession now {| out := Some hpa; err := e |}
  = (emit ListCall;;
     match e with
     | Some e' => emit (LogError e')
     | None =>
         (if decide (loggingTo flags = "cwlogs") then
            _ ← CWLog.putHPAConditionToCWLog flags cwSession
                  (fun a => mret (Part003Log.hpaConditionJsonString a)) now hpa;
            mret tt
          else Go.range hpa Part002Log.logConditions);;
         emit (Sleep (loggingInterval flags))
     end).
Proof. reflexivity. Qed.

(** X10.  With output to stdout, a tick of the logging goroutine of part_002
    and of part_003 whose fetch succeeded writes one line per autoscaler of
    the snapshot, in the order of the snapshot, each the text
    [hpaConditionJsonString] builds (the name and the conditions annotation
    as it stands, not re-encoded); it then sleeps the logging interval.  It
    writes nothing else and leaves the registry alone. *)
Theorem stdout_logging_writes_one_line_per_autoscaler :
  forall (flags : Flags) (cwSession : cloudwatchlogs.CloudWatchLogs) (now : Z)
         (hpa : list as_v1.HorizontalPodAutoscaler) (s : Part002Log.St),
    loggingTo flags <> "cwlogs" ->
    let after :=
      {| registry := registry s;
         cache := cache s
                  ++ map (fun a => LogInfo (Part003Log.hpaConditionJsonString a)) hpa;
         events := events s ++ [ListCall; Sleep (loggingInterval flags)] |} in
    Part002Log.loggingIteration flags {| out := Some hpa; err := None |} s
    = (Go.Val tt, after) /\
    Part003Log.loggingIteration flags cwSession now {| out := Some hpa; err := None |} s
    = (Go.Val tt, after).
Proof.
  intros flags cwSession now hpa s Hstdout. cbv zeta.
  rewrite part002_logging_listed, part003_logging_listed.
  rewrite decide_False by exact Hstdout.
  rewrite !bind_run. cbn [emit Go.modify]. rewrite !bind_run, range_logConditions.
  cbn [registry cache events]. unfold emit, Go.modify. cbn [registry cache events].
  rewrite <- app_assoc. split; reflexivity.
Qed.

(** *** Output to CloudWatch Logs *)

Section CloudWatch.
Import cloudwatchlogs.
Context {C : Type} `{Countable C}.
Context (flags : Flags) (cwSession : CloudWatchLogs).
Abbreviation St := (State (gmap (C * Labels) float) (list Call)).

Lemma logged_nil (s : St) : logged s [] = s.
Proof. unfold logged. rewrite app_nil_r. destruct s; reflexivity. Qed.

Lemma logged_logged (s : St) (calls calls' : list Call) :
  logged (logged s calls) calls' = logged s (calls ++ calls').
Proof. unfold logged. cbn [registry cache events]. rewrite app_assoc. reflexivity. Qed.

(** The loop that builds the batch, for a text whose computation does no
    more than make calls. *)
Lemma batch_run {X : Type} (text : X -> Go.M St string) (result : X -> string)
    (said : X -> list Call) (timestamp : Z) (hpa : list X)
    (acc : list InputLogEvent.t) (s : St) :
  (forall a s', text a s' = (Go.Val (result a), logged s' (said a))) ->
  rangeFold hpa acc
    (fun cwevent a =>
       s ← text a;
       mret (cwevent ++ [ {| InputLogEvent.Message := s;
                             InputLogEvent.Timestamp := timestamp |} ])) s
  = (Go.Val (acc ++ map (fun a => {| InputLogEvent.Message := result a;
                                     InputLogEvent.Timestamp := timestamp |}) hpa),
     logged s (flat_map said hpa)).
Proof.
  intros Htext.
  match goal with |- rangeFold _ _ ?f _ = _ => set (step := f) end.
  revert acc s. induction hpa as [|a hpa IH]; intros acc s.
  - cbn [map flat_map]. rewrite app_nil_r, logged_nil. reflexivity.
  - transitivity
      (rangeFold hpa (acc ++ [ {| InputLogEvent.Message := result a;
                                  InputLogEvent.Timestamp := timestamp |} ]) step
         (logged s (said a))).
    { cbn [rangeFold]. rewrite bind_run. unfold step at 1. rewrite bind_run, Htext.
      reflexivity. }
    rewrite IH, logged_logged. cbn [map flat_map]. rewrite <- app_assoc. reflexivity.
Qed.

Lemma token_run (s : St) :
  CWLog.token flags cwSession s
  = match DescribeLogStreams cwSession (CWLog.describeStreams flags) with
    | (_, Some e) =>
        (Go.Val (None, Some e), logged s [CallDescribeLogStreams (CWLog.describeStreams flags)])
    | (None, None) =>
        (Go.Panicked, logged s [CallDescribeLogStreams (CWLog.describeStreams flags)])
    | (Some x, None) =>
        match DescribeLogStreamsOutput.LogStreams x with
        | [] =>
            (Go.Val (None, CreateLogStream cwSession (CWLog.createTheStream flags)),
             logged s [CallDescribeLogStreams (CWLog.describeStreams flags);
                       CallCreateLogStream (CWLog.createTheStream flags)])
        | None :: _ =>
            (Go.Panicked, logged s [CallDescribeLogStreams (CWLog.describeStreams flags)])
        | Some first :: _ =>
            (Go.Val (LogStream.UploadSequenceToken first, None),
             logged s [CallDescribeLogStreams (CWLog.describeStreams flags)])
        end
    end.
Proof.
  unfold CWLog.token, CWLog.createStream, logged. cbn zeta.
  fold (CWLog.describeStreams flags) (CWLog.createTheStream flags).
  destruct (DescribeLogStreams cwSession (CWLog.describeStreams flags)) as [[x|] [e|]];
    try reflexivity.
  destruct x as [[|[first|] rest]]; [|reflexivity..].
  unfold call. run_go. cbn [DescribeLogStreamsOutput.LogStreams].
  rewrite <- app_assoc. reflexivity.
Qed.

(** What [putHPAConditionToCWLog] does when the stream description
    succeeds and the stream exists or can be created: one request, holding
    one event per element. *)
Lemma put_run {X : Type} (text : X -> Go.M St string) (result : X -> string)
    (said : X -> list Call) (now : Z) (hpa : list X)
    (streams : list (option LogStream.t)) (s : St) :
  (forall a s', text a s' = (Go.Val (result a), logged s' (said a))) ->
  DescribeLogStreams cwSession (CWLog.describeStreams flags)
  = (Some {| DescribeLogStreamsOutput.LogStreams := streams |}, None) ->
  (streams = [] -> CreateLogStream cwSession (CWLog.createTheStream flags) = None) ->
  head streams <> Some None ->
  let putEvent :=
    {| PutLogEventsInput.LogEvents :=
         map (fun a => {| InputLogEvent.Message := result a;
                          InputLogEvent.Timestamp := wrap64 (now * 1000) |}) hpa;
       PutLogEventsInput.LogGroupName := cwLogGroup flags;
       PutLogEventsInput.LogStreamName := cwLogStream flags;
       PutLogEventsInput.SequenceToken :=
         match streams with
         | Some first :: _ => LogStream.UploadSequenceToken first
         | _ => None
         end |} in
  CWLog.putHPAConditionToCWLog flags cwSession text now hpa s
  = (Go.Val (PutLogEvents cwSession putEvent),
     logged s (CallDescribeLogStreams (CWLog.describeStreams flags)
               :: match streams with
                  | [] => [CallCreateLogStream (CWLog.createTheStream flags)]
                  | _ :: _ => []
                  end
               ++ flat_map said hpa ++ [CallPutLogEvents putEvent])).
Proof.
  intros Htext Hdescribe Hcreate Hfirst. cbv zeta. unfold CWLog.putHPAConditionToCWLog.
  rewrite bind_run, token_run, Hdescribe.
  cbn [DescribeLogStreamsOutput.LogStreams].
  destruct streams as [|[first|] rest]; [| |destruct Hfirst; reflexivity].
  - rewrite (Hcreate eq_refl). cbv zeta.
    rewrite bind_run, (batch_run text result said _ hpa [] _ Htext).
    rewrite logged_logged. unfold call, logged. run_go. cbn [app].
    rewrite <- !app_assoc. reflexivity.
  - cbv zeta. rewrite bind_run, (batch_run text result said _ hpa [] _ Htext).
    rewrite logged_logged. unfold call, logged. run_go. cbn [app].
    rewrite <- !app_assoc. reflexivity.
Qed.

(** What it does when the stream cannot be described or created: it gives
    up with the error of the failed operation and sends nothing. *)
Lemma put_gives_up {X : Type} (text : X -> Go.M St string) (now : Z) (hpa : list X)
    (s : St) :
  (forall (x : option DescribeLogStreamsOutput.t) (e : Go.error),
      DescribeLogStreams cwSession (CWLog.describeStreams flags) = (x, Some e) ->
      CWLog.putHPAConditionToCWLog flags cwSession text now hpa s
      = (Go.Val (Some e), logged s [CallDescribeLogStreams (CWLog.describeStreams flags)])) /\
  (forall e : Go.error,
      DescribeLogStreams cwSession (CWLog.describeStreams flags)
      = (Some {| DescribeLogStreamsOutput.LogStreams := [] |}, None) ->
      CreateLogStream cwSession (CWLog.createTheStream flags) = Some e ->
      CWLog.putHPAConditionToCWLog flags cwSession text now hpa s
      = (Go.Val (Some e),
         logged s [CallDescribeLogStreams (CWLog.describeStreams flags);
                   CallCreateLogStream (CWLog.createTheStream flags)])).
Proof.
  split.
  - intros x e Hdescribe. unfold CWLog.putHPAConditionToCWLog.
    rewrite bind_run, token_run, Hdescribe. destruct x; reflexivity.
  - intros e Hdescribe Hcreate. unfold CWLog.putHPAConditionToCWLog.
    rewrite bind_run, token_run, Hdescribe.
    cbn [DescribeLogStreamsOutput.LogStreams]. rewrite Hcreate. reflexivity.
Qed.

End CloudWatch.

Lemma hpaConditionJsonString_004_run (Marshal : Part004Log.Marshaler)
    (a : as_v2.HorizontalPodAutoscaler) (s : Part004Log.St) :
  Part004Log.hpaConditionJsonString Marshal a s
  = (Go.Val (Part004Log.marshalled Marshal a),
     logged s (Part004Log.complaints Marshal a)).
Proof.
  unfold Part004Log.hpaConditionJsonString, Part004Log.marshalled,
    Part004Log.complaints. cbv zeta.
  destruct (Marshal _) as [e|text]; [reflexivity|].
  rewrite logged_nil. reflexivity.
Qed.

Lemma part004_logging_listed (flags : Flags)
    (cwSession : cloudwatchlogs.CloudWatchLogs) (Marshal : Part004Log.Marshaler)
    (now : Z) (hpa : list as_v2.HorizontalPodAutoscaler) (e : option Go.error) :
  Part004Log.loggingIteration flags cwSession Marshal now {| out := Some hpa; err := e |}
  = (emit ListCall;;
     match e with
     | Some e' => emit (LogError e')
     | None =>
         (if decide (loggingTo flags = "cwlogs") then
            _ ← CWLog.putHPAConditionToCWLog flags cwSession
                  (Part004Log.hpaConditionJsonString Marshal) now hpa;
            mret tt
          else
            Go.range hpa (fun a =>
              s ← Part004Log.hpaConditionJsonString Marshal a;
              call (LogInfo s)));;
         emit (Sleep (loggingInterval flags))
     end).
Proof. reflexivity. Qed.

Lemma range_logMarshalled (Marshal : Part004Log.Marshaler)
    (hpa : list as_v2.HorizontalPodAutoscaler) (s : Part004Log.St) :
  Go.range hpa (fun a => s ← Part004Log.hpaConditionJsonString Marshal a;
                         call (LogInfo s)) s
  = (Go.Val tt,
     logged s (flat_map (fun a => Part004Log.complaints Marshal a
                                  ++ [LogInfo (Part004Log.marshalled Marshal a)]) hpa)).
Proof.
  revert s. induction hpa as [|a hpa IH]; intros s.
  - cbn [flat_map]. rewrite logged_nil. reflexivity.
  - rewrite range_cons_run, bind_run, hpaConditionJsonString_004_run.
    unfold call at 1, writeCache, Go.modify. cbv iota beta.
    rewrite IH. unfold logged. cbn [registry cache events flat_map].
    rewrite <- !app_assoc. reflexivity.
Qed.

(** X11.  The same for part_004, which logs what [json.Marshal] makes of the
    name and the conditions of the status: one line per autoscaler of the
    snapshot, in order; where the marshaler fails, the line is [{}] and a
    complaint is printed before it. *)
Theorem stdout_logging_of_marshalled_conditions :
  forall (flags : Flags) (cwSession : cloudwatchlogs.CloudWatchLogs)
         (Marshal : Part004Log.Marshaler) (now : Z)
         (hpa : list as_v2.HorizontalPodAutoscaler) (s : Part004Log.St),
    loggingTo flags <> "cwlogs" ->
    Part004Log.loggingIteration flags cwSession Marshal now
      {| out := Some hpa; err := None |} s
    = (Go.Val tt,
       {| registry := registry s;
          cache := cache s
                   ++ flat_map (fun a => Part004Log.complaints Marshal a
                                         ++ [LogInfo (Part004Log.marshalled Marshal a)])
                        hpa;
          events := events s ++ [ListCall; Sleep (loggingInterval flags)] |}).
Proof.
  intros flags cwSession Marshal now hpa s Hstdout.
  rewrite part004_logging_listed, decide_False by exact Hstdout.
  rewrite bind_run. unfold emit at 1, Go.modify at 1. rewrite !bind_run.
  rewrite range_logMarshalled.
  unfold logged, emit, Go.modify. cbn [registry cache events].
  rewrite <- app_assoc. reflexivity.
Qed.

(** X12.  With output to CloudWatch Logs, a tick of the logging goroutine of
    part_003 and of part_004 whose fetch succeeded, and which finds the log
    stream or can create it, sends exactly one PutLogEvents request.  The
    request names the group and the stream of the flags, carries the upload
    token of the first stream found (none for a stream just created), and
    holds one event per autoscaler of the snapshot, in the order of the
    snapshot, with the text of [hpaConditionJsonString] and the one
    timestamp [time.Now().Unix() * 1000].  What PutLogEvents answers is not
    looked at: the tick ends with the sleep, without a log line.  (The
    first stream of the description must not be a nil pointer.) *)
Theorem cloudwatch_batch_holds_one_event_per_autoscaler :
  forall (flags : Flags) (cwSession : cloudwatchlogs.CloudWatchLogs)
         (Marshal : Part004Log.Marshaler) (now : Z)
         (streams : list (option cloudwatchlogs.LogStream.t))
         (hpa : list as_v1.HorizontalPodAutoscaler) (s : Part003Log.St)
         (hpaV2 : list as_v2.HorizontalPodAutoscaler) (sV2 : Part004Log.St),
    loggingTo flags = "cwlogs" ->
    cloudwatchlogs.DescribeLogStreams cwSession (CWLog.describeStreams flags)
    = (Some {| cloudwatchlogs.DescribeLogStreamsOutput.LogStreams := streams |}, None) ->
    (streams = [] ->
     cloudwatchlogs.CreateLogStream cwSession (CWLog.createTheStream flags) = None) ->
    head streams <> Some None ->
    let request (texts : list string) :=
      CallPutLogEvents
        {| cloudwatchlogs.PutLogEventsInput.LogEvents :=
             map (fun text =>
                    {| cloudwatchlogs.InputLogEvent.Message := text;
                       cloudwatchlogs.InputLogEvent.Timestamp := wrap64 (now * 1000) |})
                 texts;
           cloudwatchlogs.PutLogEventsInput.LogGroupName := cwLogGroup flags;
           cloudwatchlogs.PutLogEventsInput.LogStreamName := cwLogStream flags;
           cloudwatchlogs.PutLogEventsInput.SequenceToken :=
             match streams with
             | Some first :: _ => cloudwatchlogs.LogStream.UploadSequenceToken first
             | _ => None
             end |} in
    let opening :=
      CallDescribeLogStreams (CWLog.describeStreams flags)
      :: match streams with
         | [] => [CallCreateLogStream (CWLog.createTheStream flags)]
         | _ :: _ => []
         end in
    Part003Log.loggingIteration flags cwSession now {| out := Some hpa; err := None |} s
    = (Go.Val tt,
       {| registry := registry s;
          cache := cache s ++ opening
                   ++ [request (map Part003Log.hpaConditionJsonString hpa)];
          events := events s ++ [ListCall; Sleep (loggingInterval flags)] |}) /\
    Part004Log.loggingIteration flags cwSession Marshal now
      {| out := Some hpaV2; err := None |} sV2
    = (Go.Val tt,
       {| registry := registry sV2;
          cache := cache sV2 ++ opening
                   ++ flat_map (Part004Log.complaints Marshal) hpaV2
                   ++ [request (map (Part004Log.marshalled Marshal) hpaV2)];
          events := events sV2 ++ [ListCall; Sleep (loggingInterval flags)] |}).
Proof.
  intros flags cwSession Marshal now streams hpa s hpaV2 sV2 Hcw Hdescribe Hcreate Hfirst.
  cbv zeta. split.
  - rewrite part003_logging_listed, decide_True by exact Hcw.
    rewrite bind_run. unfold emit at 1, Go.modify at 1. rewrite !bind_run.
    rewrite (put_run flags cwSession
               (fun a => mret (Part003Log.hpaConditionJsonString a))
               Part003Log.hpaConditionJsonString (fun _ => []) now hpa streams _
               (fun a s' => eq_sym (f_equal (pair _) (logged_nil s')))
               Hdescribe Hcreate Hfirst).
    cbv zeta. unfold logged, emit, Go.modify.
    cbn [mret go_ret Go.ret registry cache events].
    rewrite map_map, <- (app_assoc (events s)).
    replace (flat_map (fun _ : as_v1.HorizontalPodAutoscaler => @nil Call) hpa)
      with (@nil Call) by (induction hpa; [reflexivity | assumption]).
    destruct streams; reflexivity.
  - rewrite part004_logging_listed, decide_True by exact Hcw.
    rewrite bind_run. unfold emit at 1, Go.modify at 1. rewrite !bind_run.
    rewrite (put_run flags cwSession (Part004Log.hpaConditionJsonString Marshal)
               (Part004Log.marshalled Marshal) (Part004Log.complaints Marshal)
               now hpaV2 streams _ (hpaConditionJsonString_004_run Marshal)
               Hdescribe Hcreate Hfirst).
    cbv zeta. unfold logged, emit, Go.modify.
    cbn [mret go_ret Go.ret registry cache events].
    rewrite map_map, <- (app_assoc (events sV2)). destruct streams; reflexivity.
Qed.

(** X13.  With output to CloudWatch Logs, when the log stream cannot be
    described, or is missing and cannot be created, the tick of part_003 and
    of part_004 sends no PutLogEvents request and the snapshot's conditions
    are lost; the error [putHPAConditionToCWLog] returns is dropped by the
    loop, which writes no log line, does not panic, and sleeps the logging
    interval as after a successful tick. *)
Theorem cloudwatch_failures_lose_the_batch_silently :
  forall (flags : Flags) (cwSession : cloudwatchlogs.CloudWatchLogs)
         (Marshal : Part004Log.Marshaler) (now : Z)
         (hpa : list as_v1.HorizontalPodAutoscaler) (s : Part003Log.St)
         (hpaV2 : list as_v2.HorizontalPodAutoscaler) (sV2 : Part004Log.St),
    loggingTo flags = "cwlogs" ->
    let describe := CallDescribeLogStreams (CWLog.describeStreams flags) in
    let create := CallCreateLogStream (CWLog.createTheStream flags) in
    let tick := Part003Log.loggingIteration flags cwSession now
                  {| out := Some hpa; err := None |} s in
    let tickV2 := Part004Log.loggingIteration flags cwSession Marshal now
                    {| out := Some hpaV2; err := None |} sV2 in
    let slept := [ListCall; Sleep (loggingInterval flags)] in
    (forall (x : option cloudwatchlogs.DescribeLogStreamsOutput.t) (e : Go.error),
        cloudwatchlogs.DescribeLogStreams cwSession (CWLog.describeStreams flags)
        = (x, Some e) ->
        tick = (Go.Val tt, {| registry := registry s; cache := cache s ++ [describe];
                              events := events s ++ slept |}) /\
        tickV2 = (Go.Val tt, {| registry := registry sV2; cache := cache sV2 ++ [describe];
                                events := events sV2 ++ slept |})) /\
    (forall e : Go.error,
        cloudwatchlogs.DescribeLogStreams cwSession (CWLog.describeStreams flags)
        = (Some {| cloudwatchlogs.DescribeLogStreamsOutput.LogStreams := [] |}, None) ->
        cloudwatchlogs.CreateLogStream cwSession (CWLog.createTheStream flags) = Some e ->
        tick = (Go.Val tt, {| registry := registry s;
                              cache := cache s ++ [describe; create];
                              events := events s ++ slept |}) /\
        tickV2 = (Go.Val tt, {| registry := registry sV2;
                                cache := cache sV2 ++ [describe; create];
                                events := events sV2 ++ slept |})).
Proof.
  intros flags cwSession Marshal now hpa s hpaV2 sV2 Hcw. cbv zeta.
  rewrite part003_logging_listed, part004_logging_listed, !decide_True by exact Hcw.
  split.
  - intros x e Hdescribe. split.
    + rewrite bind_run. unfold emit at 1, Go.modify at 1. rewrite !bind_run.
      rewrite (proj1 (put_gives_up flags cwSession _ now hpa _) x e Hdescribe).
      unfold logged, emit, Go.modify. cbn [mret go_ret Go.ret registry cache events].
      rewrite <- !app_assoc. reflexivity.
    + rewrite bind_run. unfold emit at 1, Go.modify at 1. rewrite !bind_run.
      rewrite (proj1 (put_gives_up flags cwSession _ now hpaV2 _) x e Hdescribe).
      unfold logged, emit, Go.modify. cbn [mret go_ret Go.ret registry cache events].
      rewrite <- !app_assoc. reflexivity.
  - intros e Hdescribe Hcreate. split.
    + rewrite bind_run. unfold emit at 1, Go.modify at 1. rewrite !bind_run.
      rewrite (proj2 (put_gives_up flags cwSession _ now hpa _) e Hdescribe Hcreate).
      unfold logged, emit, Go.modify. cbn [mret go_ret Go.ret registry cache events].
      rewrite <- !app_assoc. reflexivity.
    + rewrite bind_run. unfold emit at 1, Go.modify at 1. rewrite !bind_run.
      rewrite (proj2 (put_gives_up flags cwSession _ now hpaV2 _) e Hdescribe Hcreate).
      unfold logged, emit, Go.modify. cbn [mret go_ret Go.ret registry cache events].
      rewrite <- !app_assoc. reflexivity.
Qed.

(** ** Start-up *)

Lemma validateFlags_spec (flags : Flags) :
  (loggingTo flags = "stdout" \/ loggingTo flags = "cwlogs" ->
   CWLog.validateFlags flags = None) /\
  (loggingTo flags <> "stdout" -> loggingTo flags <> "cwlogs" ->
   is_Some (CWLog.validateFlags flags)).
Proof.
  unfold CWLog.validateFlags. split.
  - intros [Hto|Hto]; rewrite Hto; reflexivity.
  - intros Hstdout Hcwlogs.
    rewrite !bool_decide_eq_false_2 by assumption. cbn. eexists. reflexivity.
Qed.

Section CheckLogGroup.
Import cloudwatchlogs.
Context {C : Type} `{Countable C}.
Context (flags : Flags) (cwSession : CloudWatchLogs).
Abbreviation St := (State (gmap (C * Labels) float) (list Call)).

Lemma checkLogGroup_run (s : St) :
  CWLog.checkLogGroup flags cwSession s
  = match DescribeLogGroups cwSession (CWLog.describeGroups flags) with
    | (_, Some e) =>
        (Go.Val (Some e), logged s [CallDescribeLogGroups (CWLog.describeGroups flags)])
    | (None, None) =>
        (Go.Panicked, logged s [CallDescribeLogGroups (CWLog.describeGroups flags)])
    | (Some r, None) =>
        match DescribeLogGroupsOutput.LogGroups r with
        | [] =>
            (Go.Val (CreateLogGroup cwSession (CWLog.createTheGroup flags)),
             logged s [CallDescribeLogGroups (CWLog.describeGroups flags);
                       CallCreateLogGroup (CWLog.createTheGroup flags)])
        | _ :: _ =>
            (Go.Val None, logged s [CallDescribeLogGroups (CWLog.describeGroups flags)])
        end
    end.
Proof.
  unfold CWLog.checkLogGroup, CWLog.createLogGroup, logged. cbn zeta.
  fold (CWLog.describeGroups flags) (CWLog.createTheGroup flags).
  destruct (DescribeLogGroups cwSession (CWLog.describeGroups flags)) as [[r|] [e|]];
    try reflexivity.
  destruct r as [[|first rest]]; [|reflexivity].
  unfold call. run_go. cbn [DescribeLogGroupsOutput.LogGroups].
  rewrite <- app_assoc.
  destruct (CreateLogGroup cwSession (CWLog.createTheGroup flags)); reflexivity.
Qed.

End CheckLogGroup.

(** X14.  Start-up of part_003 and part_004.  A [loggingTo] other than
    [stdout] and [cwlogs] panics both before anything is called.  With a
    valid [loggingTo], part_003 describes the log groups whether or not
    condition logging is switched on, and panics when that fails; any group
    the description lists, whatever its name, counts as the group being
    there, and nothing is created.  part_004 with condition logging off
    calls nothing of CloudWatch and starts the metrics goroutine alone. *)
Theorem startup_contacts_cloudwatch :
  forall (flags : Flags) (cwSession : cloudwatchlogs.CloudWatchLogs)
         (s : Part003Log.St) (sV2 : Part004Log.St),
    let describe := CallDescribeLogGroups (CWLog.describeGroups flags) in
    let started := if conditionLogging flags then [ConditionLogging; Metrics]
                   else [Metrics] in
    (loggingTo flags <> "stdout" -> loggingTo flags <> "cwlogs" ->
     Part003Log.main flags cwSession s = (Go.Panicked, s) /\
     Part004Log.main flags cwSession sV2 = (Go.Panicked, sV2)) /\
    (loggingTo flags = "stdout" \/ loggingTo flags = "cwlogs" ->
     (forall (x : option cloudwatchlogs.DescribeLogGroupsOutput.t) (e : Go.error),
         cloudwatchlogs.DescribeLogGroups cwSession (CWLog.describeGroups flags)
         = (x, Some e) ->
         Part003Log.main flags cwSession s = (Go.Panicked, logged s [describe])) /\
     (forall (group : option cloudwatchlogs.LogGroup.t)
             (groups : list (option cloudwatchlogs.LogGroup.t)),
         cloudwatchlogs.DescribeLogGroups cwSession (CWLog.describeGroups flags)
         = (Some {| cloudwatchlogs.DescribeLogGroupsOutput.LogGroups := group :: groups |},
            None) ->
         Part003Log.main flags cwSession s
         = (Go.Val started, logged s [describe; LogInfo "start HPA exporter"])) /\
     (conditionLogging flags = false ->
      Part004Log.main flags cwSession sV2
      = (Go.Val [Metrics], logged sV2 [LogInfo "start HPA exporter"]))).
Proof.
  intros flags cwSession s sV2. cbv zeta.
  destruct (validateFlags_spec flags) as [Hvalid Hinvalid].
  unfold Part003Log.main, Part004Log.main. split.
  - intros Hstdout Hcwlogs. destruct (Hinvalid Hstdout Hcwlogs) as [e ->].
    split; reflexivity.
  - intros Hto. rewrite (Hvalid Hto). split_ands.
    + intros x e Hdescribe. rewrite bind_run, checkLogGroup_run, Hdescribe.
      destruct x; reflexivity.
    + intros group groups Hdescribe. rewrite bind_run, checkLogGroup_run, Hdescribe.
      cbn [cloudwatchlogs.DescribeLogGroupsOutput.LogGroups].
      unfold call, logged. run_go. rewrite <- app_assoc. reflexivity.
    + intros ->. reflexivity.
Qed.

(** The autoscaler [staging/web] is listed, [prod/web] is not: the series of
    [prod/web] are what they were. *)
Lemma unlisted_autoscalers_keep_their_series_witness :
  let hpa := [Sample.web "staging" "web" [Sample.ready]] in
  let l := Sample.webLabel "prod" "web" in
  (forall (c : Main.Collector) (s : Main.St),
      registry (Main.metricsIteration 30 {| out := Some hpa; err := None |} s).2
      !! (c, l) = registry s !! (c, l)) /\
  (forall (c : Anno.Collector) (s : Part002.St),
      registry (Part002.metricsIteration Sample.json 30
                  {| out := Some hpa; err := None |} s).2
      !! (c, l) = registry s !! (c, l)) /\
  (forall (c : Anno.Collector)
          (history : list (ListResponse as_v1.HorizontalPodAutoscaler)),
      let before := (Part003.metricsLoop Sample.json 30 history Part003.initial).2 in
      registry (Part003.metricsIteration Sample.json 30
                  {| out := Some hpa; err := None |} before).2
      !! (c, l) = registry before !! (c, l)).
Proof.
  cbv zeta.
  apply (unlisted_autoscalers_keep_their_series Sample.json 30
           [Sample.web "staging" "web" [Sample.ready]] (Sample.webLabel "prod" "web")).
  constructor; [|constructor].
  intros [_ Hns]. vm_compute in Hns. discriminate Hns.
Defined.

(** One listed autoscaler with one resource metric: the target series is
    there after the tick, and it names that autoscaler. *)
Lemma reset_tick_leaves_listed_autoscalers_only_witness :
  let hpa := [Sample.webV2 [Sample.cpuTarget 80] [Sample.cpuCurrent 40] []] in
  let l := mergeLabels (Part004.baseLabelOf (Sample.webV2 [] [] []))
             {[ "metric_kind" := "Resource"; "metric_name" := "cpu";
                "metric_metricname" := "-" ]} in
  Exists (fun a => namesHpa (as_v2.ObjectMeta a) l) hpa.
Proof.
  cbv zeta.
  apply (reset_tick_leaves_listed_autoscalers_only 30 _ Part004.initial
           Part004.hpaTargetMetricsValue).
  exists (Go.float64 80). vm_compute. reflexivity.
Defined.

(** The defaults log to stdout. *)
Lemma stdout_logging_writes_one_line_per_autoscaler_witness :
  let hpa := [Sample.web "prod" "web" [Sample.ready]; Sample.fresh "prod"] in
  Part003Log.loggingIteration SampleLog.defaults SampleLog.unreachable 0
    {| out := Some hpa; err := None |} Part003Log.initial
  = (Go.Val tt,
     {| registry := ∅;
        cache := [LogInfo (Part003Log.hpaConditionJsonString
                             (Sample.web "prod" "web" [Sample.ready]));
                  LogInfo (Part003Log.hpaConditionJsonString (Sample.fresh "prod"))];
        events := [ListCall; Sleep 60] |}).
Proof.
  cbv zeta.
  refine (proj2 (stdout_logging_writes_one_line_per_autoscaler SampleLog.defaults
                   SampleLog.unreachable 0 _ Part003Log.initial _)).
  discriminate.
Defined.

(** The stream exists and has an upload token: one request with two events. *)
Lemma cloudwatch_batch_holds_one_event_per_autoscaler_witness :
  let hpa := [Sample.web "prod" "web" [Sample.ready]; Sample.fresh "prod"] in
  let cwSession := SampleLog.finds [] [SampleLog.conditionLog] in
  cache (Part003Log.loggingIteration SampleLog.toCloudWatch cwSession 1700000000
           {| out := Some hpa; err := None |} Part003Log.initial).2
  = [ CallDescribeLogStreams (CWLog.describeStreams SampleLog.toCloudWatch);
      CallPutLogEvents
        {| cloudwatchlogs.PutLogEventsInput.LogEvents :=
             [ {| cloudwatchlogs.InputLogEvent.Message :=
                    Part003Log.hpaConditionJsonString
                      (Sample.web "prod" "web" [Sample.ready]);
                  cloudwatchlogs.InputLogEvent.Timestamp := 1700000000000 |};
               {| cloudwatchlogs.InputLogEvent.Message :=
                    Part003Log.hpaConditionJsonString (Sample.fresh "prod");
                  cloudwatchlogs.InputLogEvent.Timestamp := 1700000000000 |} ];
           cloudwatchlogs.PutLogEventsInput.LogGroupName := "hpa-exporter";
           cloudwatchlogs.PutLogEventsInput.LogStreamName := "condition-log";
           cloudwatchlogs.PutLogEventsInput.SequenceToken := Some "49590302938407" |} ].
Proof.
  cbv zeta.
  rewrite (proj1 (cloudwatch_batch_holds_one_event_per_autoscaler
                    SampleLog.toCloudWatch
                    (SampleLog.finds [] [SampleLog.conditionLog]) SampleLog.nameOnly
                    1700000000 [Some SampleLog.conditionLog]
                    [Sample.web "prod" "web" [Sample.ready]; Sample.fresh "prod"]
                    Part003Log.initial [] Part004Log.initial
                    eq_refl eq_refl
                    (fun Hnone => ltac:(discriminate Hnone))
                    (fun Hnil => ltac:(discriminate Hnil)))).
  reflexivity.
Defined.

(** part_004 with the defaults, and a marshaler that writes the name only. *)
Lemma stdout_logging_of_marshalled_conditions_witness :
  Part004Log.loggingIteration SampleLog.defaults SampleLog.unreachable
    SampleLog.nameOnly 0 {| out := Some [Sample.webV2 [] [] []]; err := None |}
    Part004Log.initial
  = (Go.Val tt,
     {| registry := ∅;
        cache := [LogInfo (Part004Log.marshalled SampleLog.nameOnly
                             (Sample.webV2 [] [] []))];
        events := [ListCall; Sleep 60] |}).
Proof.
  refine (stdout_logging_of_marshalled_conditions SampleLog.defaults
            SampleLog.unreachable SampleLog.nameOnly 0 _ Part004Log.initial _).
  discriminate.
Defined.

(** CloudWatch cannot be reached: the tick describes the streams, sends
    nothing, logs nothing, and sleeps. *)
Lemma cloudwatch_failures_lose_the_batch_silently_witness :
  Part003Log.loggingIteration SampleLog.toCloudWatch SampleLog.unreachable 1700000000
    {| out := Some [Sample.web "prod" "web" [Sample.ready]]; err := None |}
    Part003Log.initial
  = (Go.Val tt,
     {| registry := ∅;
        cache := [CallDescribeLogStreams (CWLog.describeStreams SampleLog.toCloudWatch)];
        events := [ListCall; Sleep 60] |}).
Proof.
  refine (proj1 (proj1 (cloudwatch_failures_lose_the_batch_silently
                          SampleLog.toCloudWatch SampleLog.unreachable SampleLog.nameOnly
                          1700000000 _ Part003Log.initial [] Part004Log.initial eq_refl)
                   None "RequestError: send request failed" eq_refl)).
Defined.

(** ** part_003 publishes the base series of part_002 *)

Section Alike.
Context {S1 S2 : Type} (R : S1 -> S2 -> Prop).

Lemma alike_ret {A : Type} (a : A) : alike R (mret a) (mret a).
Proof. intros s1 s2 Hs. split; [reflexivity | exact Hs]. Qed.

Lemma alike_bind {A B : Type} (m1 : Go.M S1 A) (m2 : Go.M S2 A)
    (f1 : A -> Go.M S1 B) (f2 : A -> Go.M S2 B) :
  alike R m1 m2 -> (forall a, alike R (f1 a) (f2 a)) -> alike R (m1 ≫= f1) (m2 ≫= f2).
Proof.
  intros Hm Hf s1 s2 Hs. rewrite !bind_run.
  destruct (Hm s1 s2 Hs) as [Hres Hstate].
  destruct (m1 s1) as [[a1|] s1'], (m2 s2) as [[a2|] s2']; cbn [fst snd] in *;
    try discriminate Hres.
  - injection Hres as <-. exact (Hf a1 s1' s2' Hstate).
  - split; [reflexivity | exact Hstate].
Qed.

Lemma alike_range {A : Type} (xs : list A) (body1 : A -> Go.M S1 unit)
    (body2 : A -> Go.M S2 unit) :
  (forall x, alike R (body1 x) (body2 x)) ->
  alike R (Go.range xs body1) (Go.range xs body2).
Proof.
  intros Hbody. induction xs as [|x xs IH].
  - apply (alike_ret tt).
  - apply (alike_bind (body1 x) (body2 x)); [apply Hbody | intros _; exact IH].
Qed.

End Alike.

Lemma sameBase_emit (e : Event) : alike sameBase (emit e) (emit e).
Proof.
  intros s2 s3 [Hreg Hev]. split; [reflexivity|]. split; [exact Hreg|].
  cbn. rewrite Hev. reflexivity.
Qed.

Lemma sameBase_WithSet (c : Anno.Collector) (l : Labels) (v : float) :
  alike sameBase (WithSet c l v) (WithSet c l v).
Proof.
  intros s2 s3 [Hreg Hev]. split; [reflexivity|]. split; [|exact Hev].
  intros c' l' Hbase. cbn.
  destruct (decide ((c, l) = (c', l'))) as [->|Hne].
  - rewrite !lookup_insert_eq. reflexivity.
  - rewrite !lookup_insert_ne by exact Hne. apply Hreg. exact Hbase.
Qed.

Lemma sameBase_getHpaList {X : Type} (resp : ListResponse X) :
  alike sameBase (getHpaList resp) (getHpaList resp).
Proof.
  unfold getHpaList.
  apply alike_bind; [apply sameBase_emit|]. intros _.
  destruct (out resp) as [items|].
  - apply alike_bind; [apply alike_ret|]. intros a. apply alike_ret.
  - intros s2 s3 Hs. split; [reflexivity | exact Hs].
Qed.

Lemma sameBase_cpuValOf (metrics : list Anno.currentMetrics) :
  alike sameBase (Anno.cpuValOf metrics) (Anno.cpuValOf metrics).
Proof.
  unfold Anno.cpuValOf, Anno.currentAverageCpuValue.
  destruct metrics as [|m0 rest]; [apply alike_ret|].
  cbn zeta. destruct (Anno.ParseInt _) as [e|i]; [|apply alike_ret].
  apply alike_bind; [apply sameBase_emit | intros _; apply alike_ret].
Qed.

Lemma sameBase_publishBase (label : Labels) (a : as_v1.HorizontalPodAutoscaler)
    (cpuVal : Z) :
  alike sameBase (Anno.publishBase label a cpuVal) (Anno.publishBase label a cpuVal).
Proof.
  unfold Anno.publishBase.
  repeat first
    [ apply sameBase_WithSet
    | apply alike_ret
    | apply alike_bind; [|intros _]
    | match goal with
      | |- alike _ (match ?x with _ => _ end) _ => destruct x
      end ].
Qed.

(** The two loops over the conditions: each returns, writes the condition
    vectors only, and logs nothing. *)
Lemma conditions_002_quiet (label : Labels) (conditions : list Anno.condition)
    (s : Part002.St) :
  (Go.range conditions (Part002.publishCondition label) s).1 = Go.Val tt /\
  events (Go.range conditions (Part002.publishCondition label) s).2 = events s.
Proof.
  revert s. induction conditions as [|cond conditions IH]; intros s.
  - split; reflexivity.
  - rewrite range_cons_run.
    assert ((Part002.publishCondition label cond s).1 = Go.Val tt /\
            events (Part002.publishCondition label cond s).2 = events s) as [Hres Hev].
    { unfold Part002.publishCondition. cbv zeta.
      destruct (Anno.condKindOf (Anno.Type_ cond)); split; reflexivity. }
    destruct (Part002.publishCondition label cond s) as [res s'].
    cbn [fst snd] in *. subst res. rewrite <- Hev. apply IH.
Qed.

Lemma conditions_003_quiet (label : Labels) (name : string)
    (conditions : list Anno.condition) (s : Part003.St) :
  (Go.range conditions (Part003.publishCondition label name) s).1 = Go.Val tt /\
  events (Go.range conditions (Part003.publishCondition label name) s).2 = events s.
Proof.
  revert s. induction conditions as [|cond conditions IH]; intros s.
  - split; reflexivity.
  - rewrite range_cons_run.
    assert ((Part003.publishCondition label name cond s).1 = Go.Val tt /\
            events (Part003.publishCondition label name cond s).2 = events s)
      as [Hres Hev].
    { unfold Part003.publishCondition.
      destruct (Anno.condKindOf (Anno.Type_ cond)) as [k|]; [|split; reflexivity].
      rewrite relabel_run. unfold Part003.relabelled.
      destruct (Part003.makeAnnotationCondLabels cond). split; reflexivity. }
    destruct (Part003.publishCondition label name cond s) as [res s'].
    cbn [fst snd] in *. subst res. rewrite <- Hev. apply IH.
Qed.

Lemma sameBase_conditions (label : Labels) (name : string)
    (conditions : list Anno.condition) :
  alike sameBase (Go.range conditions (Part002.publishCondition label))
                 (Go.range conditions (Part003.publishCondition label name)).
Proof.
  intros s2 s3 [Hreg Hev].
  destruct (conditions_002_quiet label conditions s2) as [Hres2 Hev2].
  destruct (conditions_003_quiet label name conditions s3) as [Hres3 Hev3].
  split; [congruence|]. split; [|congruence].
  intros c l Hbase.
  rewrite (writesOnly_conditions_002 label conditions s2 (c, l))
    by (cbn [fst]; congruence).
  rewrite (writesOnly_conditions_003 label name conditions s3 (c, l))
    by (cbn [fst]; congruence).
  apply Hreg. exact Hbase.
Qed.

Lemma sameBase_publishHpa (json : Anno.Json) (a : as_v1.HorizontalPodAutoscaler) :
  alike sameBase (Part002.publishHpa json a) (Part003.publishHpa json a).
Proof.
  unfold Part002.publishHpa, Part003.publishHpa. cbv zeta.
  destruct (Anno.UnmarshalMetrics json _) as [e|metrics]; [apply sameBase_emit|].
  destruct (Anno.UnmarshalConditions json _) as [e|conditions]; [apply sameBase_emit|].
  apply alike_bind; [apply sameBase_cpuValOf|]. intros cpuVal.
  apply alike_bind; [apply sameBase_publishBase|]. intros _.
  apply sameBase_conditions.
Qed.

(** X15.  part_003 changed how the condition vectors are kept and nothing
    else: run from start-up against the same answers of the API server,
    part_002 and part_003 end alike (both return or both panic), with the
    same series and values in the eight base vectors and the same events
    (List calls, logged errors, sleeps). *)
Theorem cache_variant_publishes_the_same_base_series :
  forall (json : Anno.Json) (interval : Z)
         (answers : list (ListResponse as_v1.HorizontalPodAutoscaler)),
    let run2 := Part002.metricsLoop json interval answers Part002.initial in
    let run3 := Part003.metricsLoop json interval answers Part003.initial in
    run2.1 = run3.1 /\
    events run2.2 = events run3.2 /\
    forall (c : Anno.Collector) (l : Labels),
      Anno.baseCollector c = true ->
      registry run2.2 !! (c, l) = registry run3.2 !! (c, l).
Proof.
  intros json interval answers. cbv zeta.
  assert (alike sameBase (Part002.metricsLoop json interval answers)
                         (Part003.metricsLoop json interval answers)) as Hloop.
  { apply alike_range. intros resp.
    unfold Part002.metricsIteration, Part003.metricsIteration.
    apply alike_bind; [apply sameBase_getHpaList|]. intros [hpa [e|]].
    - apply sameBase_emit.
    - apply alike_bind; [|intros _; apply sameBase_emit].
      apply alike_range. apply sameBase_publishHpa. }
  destruct (Hloop Part002.initial Part003.initial) as (Hres & Hreg & Hev).
  { split; [intros c l _; reflexivity | reflexivity]. }
  split_ands; [exact Hres | exact Hev | exact Hreg].
Qed.

(** ** The condition vectors hold 0 and 1 only *)

Section Binary.
Context {C : Type} `{Countable C} {K : Type}.
Context (isCondition : C -> bool).
Abbreviation St := (State (gmap (C * Labels) float) K).

Lemma binary_empty : binary isCondition (∅ : gmap (C * Labels) float).
Proof. intros c l v _ Hv. rewrite lookup_empty in Hv. discriminate Hv. Qed.

Lemma binary_insert (c : C) (l : Labels) (v : float)
    (r : gmap (C * Labels) float) :
  (isCondition c = true -> v = Go.float64 1 \/ v = Go.float64 0) ->
  binary isCondition r -> binary isCondition (<[(c, l) := v]> r).
Proof.
  intros Hv Hr c' l' v' Hc' Hlookup.
  destruct (decide ((c, l) = (c', l'))) as [[= <- <-]|Hne].
  - rewrite lookup_insert_eq in Hlookup. injection Hlookup as <-. exact (Hv Hc').
  - rewrite lookup_insert_ne in Hlookup by exact Hne. exact (Hr c' l' v' Hc' Hlookup).
Qed.

Lemma binary_subseteq (r r' : gmap (C * Labels) float) :
  r' ⊆ r -> binary isCondition r -> binary isCondition r'.
Proof.
  intros Hsub Hr c l v Hc Hv. apply (Hr c l v Hc).
  exact (lookup_weaken _ _ _ _ Hv Hsub).
Qed.

Lemma keeps_binary_WithSet (c : C) (l : Labels) (v : float) :
  (isCondition c = true -> v = Go.float64 1 \/ v = Go.float64 0) ->
  keeps (fun r (_ : K) => binary isCondition r) (WithSet c l v).
Proof. intros Hv. apply keeps_WithSet. intros r _. apply binary_insert. exact Hv. Qed.

End Binary.

(** Settles the side condition of a write: the vector is no condition
    vector, or the value is one of the two. *)
Ltac binary_write :=
  apply keeps_binary_WithSet; intros Hcondition;
  first [ discriminate Hcondition | left; reflexivity | right; reflexivity ].

Lemma keeps_binary_002 (json : Anno.Json) (a : as_v1.HorizontalPodAutoscaler) :
  keeps (fun r _ => binary conditionVector r)
        (Part002.publishHpa json a).
Proof.
  unfold Part002.publishHpa. keeps_peel.
  - unfold Anno.publishBase. keeps_peel. all: binary_write.
  - unfold Part002.publishCondition. keeps_peel. all: binary_write.
Qed.

Lemma keeps_binary_003 (json : Anno.Json) (a : as_v1.HorizontalPodAutoscaler) :
  keeps (fun r _ => binary conditionVector r)
        (Part003.publishHpa json a).
Proof.
  unfold Part003.publishHpa. keeps_peel.
  - unfold Anno.publishBase. keeps_peel. all: binary_write.
  - unfold Part003.publishCondition. keeps_peel.
    intros s Hs. rewrite relabel_run. unfold Part003.relabelled.
    destruct (Part003.makeAnnotationCondLabels _) as [fwd rev]. cbn [snd registry].
    apply binary_insert; [intros _; right; reflexivity|].
    apply binary_insert; [intros _; left; reflexivity|].
    refine (binary_subseteq _ _ _ _ Hs).
    etransitivity; apply delete_subseteq.
Qed.

Lemma keeps_binary_004 (a : as_v2.HorizontalPodAutoscaler) :
  keeps (fun r _ => binary conditionVectorV2 r) (Part004.publishHpa a).
Proof.
  unfold Part004.publishHpa. keeps_peel.
  - unfold Part004.publishBase. keeps_peel. all: binary_write.
  - unfold Part004.targetMetric, Part004.publishMetric. keeps_peel. all: binary_write.
  - unfold Part004.currentMetric, Part004.publishMetric. keeps_peel. all: binary_write.
  - unfold Part004.publishCondition. keeps_peel. all: binary_write.
Qed.

(** X16.  In part_002, part_003 and part_004, whatever the API server answers,
    every series of the three condition vectors holds 1 or 0: the only
    values the metrics goroutine writes there. *)
Theorem condition_series_hold_one_or_zero :
  forall (json : Anno.Json) (interval : Z)
         (answers : list (ListResponse as_v1.HorizontalPodAutoscaler))
         (answersV2 : list (ListResponse as_v2.HorizontalPodAutoscaler)),
    binary conditionVector
      (registry (Part002.metricsLoop json interval answers Part002.initial).2) /\
    binary conditionVector
      (registry (Part003.metricsLoop json interval answers Part003.initial).2) /\
    binary conditionVectorV2
      (registry (Part004.metricsLoop interval answersV2 Part004.initial).2).
Proof.
  intros json interval answers answersV2. split_ands.
  - refine (keeps_run (fun r _ => binary conditionVector r)
              (Part002.metricsLoop json interval answers) Part002.initial _
              (binary_empty _)).
    unfold Part002.metricsLoop. keeps_peel. unfold Part002.metricsIteration. keeps_peel.
    apply keeps_binary_002.
  - refine (keeps_run (fun r _ => binary conditionVector r)
              (Part003.metricsLoop json interval answers) Part003.initial _
              (binary_empty _)).
    unfold Part003.metricsLoop. keeps_peel. unfold Part003.metricsIteration. keeps_peel.
    apply keeps_binary_003.
  - refine (keeps_run (fun r _ => binary conditionVectorV2 r)
              (Part004.metricsLoop interval answersV2) Part004.initial _
              (binary_empty _)).
    unfold Part004.metricsLoop. keeps_peel. unfold Part004.metricsIteration. keeps_peel.
    + unfold Part004.resetAllMetric. keeps_peel.
      apply keeps_ResetVec. intros r _. apply binary_subseteq, map_filter_subseteq.
    + apply keeps_binary_004.
Qed.

(** ** What a tick of part_004 shows of each listed autoscaler *)

Lemma untouched_metric_004 (a : as_v2.HorizontalPodAutoscaler)
    (c : Part004.Collector) (parsed : Go.res Part004.commonMetrics)
    (key : Part004.Collector * Labels) (v0 : option float) :
  ~ namesHpa (as_v2.ObjectMeta a) key.2 ->
  keeps (fun r _ => r !! key = v0)
        (Part004.publishMetric c (Part004.baseLabelOf a) parsed).
Proof.
  intros Hkey. unfold Part004.publishMetric.
  apply keeps_bind; [apply keeps_lift|]. intros m.
  pose proof (metricLabels_conditionOnly _ (dom_metricLabels m)) as Hm.
  destruct (Part004.parseCommonMetrics m) as [v l]. cbn [snd] in Hm.
  apply (keeps_series_WithSet (as_v2.ObjectMeta a)); [|exact Hkey].
  apply namesHpa_merge; [apply namesHpa_baseLabelOf | exact Hm].
Qed.

Lemma untouched_004 (a : as_v2.HorizontalPodAutoscaler)
    (key : Part004.Collector * Labels) (v0 : option float) :
  ~ namesHpa (as_v2.ObjectMeta a) key.2 ->
  keeps (fun r _ => r !! key = v0) (Part004.publishHpa a).
Proof.
  intros Hkey. unfold Part004.publishHpa. keeps_peel.
  - unfold Part004.publishBase. keeps_peel.
    all: apply (keeps_series_WithSet (as_v2.ObjectMeta a)); [|exact Hkey].
    all: apply namesHpa_baseLabelOf.
  - unfold Part004.targetMetric. keeps_peel.
    all: apply untouched_metric_004; exact Hkey.
  - unfold Part004.currentMetric. keeps_peel.
    all: apply untouched_metric_004; exact Hkey.
  - unfold Part004.publishCondition.
    match goal with
    | x : as_v2.Condition.t |- _ =>
        destruct (condLabels_004_conditionOnly x) as [Hfwd Hrev];
        destruct (Part004.makeAnnotationCondLabels x) as [fwd rev]
    end.
    cbn [fst snd] in *. keeps_peel.
    all: apply (keeps_series_WithSet (as_v2.ObjectMeta a)); [|exact Hkey].
    all: apply namesHpa_merge; [apply namesHpa_baseLabelOf | assumption].
Qed.

(** Autoscalers of other names leave the series of [a] alone. *)
Lemma others_untouched_004 (a : as_v2.HorizontalPodAutoscaler)
    (others : list as_v2.HorizontalPodAutoscaler) (c : Part004.Collector)
    (s : Part004.St) :
  Forall (fun a' => identityOf (as_v2.ObjectMeta a') <> identityOf (as_v2.ObjectMeta a)) others ->
  registry (Go.range others Part004.publishHpa s).2 !! (c, Part004.baseLabelOf a)
  = registry s !! (c, Part004.baseLabelOf a).
Proof.
  intros Hothers. rewrite Forall_forall in Hothers.
  refine (keeps_run (fun r _ => r !! (c, Part004.baseLabelOf a)
                                = registry s !! (c, Part004.baseLabelOf a))
            (Go.range others Part004.publishHpa) s _ eq_refl).
  keeps_peel. apply untouched_004. cbn [snd].
  intros [Hname Hns]. apply (Hothers _ ltac:(eassumption)).
  destruct (namesHpa_baseLabelOf a) as [Hname' Hns'].
  rewrite Hname' in Hname. rewrite Hns' in Hns.
  unfold identityOf. congruence.
Qed.

(** A tick of part_004 whose fetch succeeded: the loop over the snapshot,
    run on the emptied registry. *)
Lemma part004_tick_run (interval : Z) (hpa : list as_v2.HorizontalPodAutoscaler)
    (s : Part004.St) :
  Part004.metricsIteration interval {| out := Some hpa; err := None |} s
  = match Go.range hpa Part004.publishHpa
            {| registry := ∅; cache := cache s; events := events s ++ [ListCall] |} with
    | (Go.Val _, s1) =>
        (Go.Val tt, {| registry := registry s1; cache := cache s1;
                       events := events s1 ++ [Sleep interval] |})
    | (Go.Panicked, s1) => (Go.Panicked, s1)
    end.
Proof.
  rewrite part004_tick_listed, bind_run. unfold emit at 1, Go.modify at 1.
  rewrite bind_run, resetAllMetric_run, bind_run. cbn [registry cache events].
  destruct (Go.range hpa Part004.publishHpa _) as [[[]|] s1]; reflexivity.
Qed.

(** X17.  After a tick of part_004 that returned, over a snapshot in which no
    two autoscalers share namespace and name, the five base vectors show of
    every listed autoscaler exactly its fields: current, desired and
    maximum replicas; the minimum replicas and the last scale time when the
    field is set, and no series at all when it is not. *)
Theorem reset_tick_shows_the_fields_of_each_autoscaler :
  forall (interval : Z) (hpa : list as_v2.HorizontalPodAutoscaler)
         (s : Part004.St) (a : as_v2.HorizontalPodAutoscaler),
    NoDup ((fun a => identityOf (as_v2.ObjectMeta a)) <$> hpa) ->
    a ∈ hpa ->
    let run := Part004.metricsIteration interval {| out := Some hpa; err := None |} s in
    run.1 = Go.Val tt ->
    let r := registry run.2 in
    let label := Part004.baseLabelOf a in
    r !! (Part004.hpaCurrentPodsNum, label)
    = Some (Go.float64 (as_v2.CurrentReplicas (as_v2.Status a))) /\
    r !! (Part004.hpaDesiredPodsNum, label)
    = Some (Go.float64 (as_v2.DesiredReplicas (as_v2.Status a))) /\
    r !! (Part004.hpaMinPodsNum, label)
    = Go.float64 <$> as_v2.MinReplicas (as_v2.Spec a) /\
    r !! (Part004.hpaMaxPodsNum, label)
    = Some (Go.float64 (as_v2.MaxReplicas (as_v2.Spec a))) /\
    r !! (Part004.hpaLastScaleSecond, label)
    = (fun t => Go.float64 (meta_v1.Unix t)) <$> as_v2.LastScaleTime (as_v2.Status a).
Proof.
  intros interval hpa s a Hdistinct Ha. cbv zeta.
  apply list_elem_of_split in Ha as (pre & post & ->).
  assert (Forall (fun a' => identityOf (as_v2.ObjectMeta a') <> identityOf (as_v2.ObjectMeta a)) pre /\
          Forall (fun a' => identityOf (as_v2.ObjectMeta a') <> identityOf (as_v2.ObjectMeta a)) post) as [Hpre Hpost].
  { rewrite fmap_app, fmap_cons in Hdistinct.
    apply NoDup_app in Hdistinct as (_ & Hpre & Hrest).
    apply NoDup_cons in Hrest as [Hpost _].
    split; apply Forall_forall; intros a' Ha' Heq.
    - apply (Hpre (identityOf (as_v2.ObjectMeta a')));
        [apply (list_elem_of_fmap_2 (fun a => identityOf (as_v2.ObjectMeta a))); exact Ha'|].
      rewrite Heq. left.
    - apply Hpost. rewrite <- Heq.
      apply (list_elem_of_fmap_2 (fun a => identityOf (as_v2.ObjectMeta a))). exact Ha'. }
  rewrite part004_tick_run.
  set (s0 := {| registry := ∅; cache := cache s; events := events s ++ [ListCall] |}).
  rewrite range_app_run.
  pose proof (fun c => others_untouched_004 a pre c s0 Hpre) as Hbefore.
  destruct (Go.range pre Part004.publishHpa s0) as [[[]|] s1];
    [|intros Hres; discriminate Hres].
  rewrite range_cons_run.
  pose proof (publishHpa_004_base a s1) as Hbase. cbv zeta in Hbase.
  destruct (Part004.publishHpa a s1) as [[[]|] s2];
    [|intros Hres; discriminate Hres].
  pose proof (fun c => others_untouched_004 a post c s2 Hpost) as Hafter.
  destruct (Go.range post Part004.publishHpa s2) as [[[]|] s3];
    [|intros Hres; discriminate Hres].
  intros _. cbn [fst snd registry] in *.
  destruct Hbase as (Hcurrent & Hdesired & Hmin & Hmax & Hlast).
  unfold published, publishedIf in *. rewrite !Hafter.
  split_ands.
  - exact Hcurrent.
  - exact Hdesired.
  - destruct (as_v2.MinReplicas (as_v2.Spec a)); [exact Hmin|].
    rewrite Hmin, Hbefore. apply lookup_empty.
  - exact Hmax.
  - destruct (as_v2.LastScaleTime (as_v2.Status a)); [exact Hlast|].
    cbn [fmap option_fmap option_map] in *. rewrite Hlast, Hbefore. apply lookup_empty.
Qed.

(** One autoscaler with min-replicas set and no last scale time. *)
Lemma reset_tick_shows_the_fields_of_each_autoscaler_witness :
  let a := Sample.webV2 [Sample.cpuTarget 80] [Sample.cpuCurrent 40] [] in
  let r := registry (Part004.metricsIteration 30 {| out := Some [a]; err := None |}
                       Part004.initial).2 in
  let label := Part004.baseLabelOf a in
  r !! (Part004.hpaCurrentPodsNum, label) = Some (Go.float64 3) /\
  r !! (Part004.hpaDesiredPodsNum, label) = Some (Go.float64 5) /\
  r !! (Part004.hpaMinPodsNum, label) = Some (Go.float64 2) /\
  r !! (Part004.hpaMaxPodsNum, label) = Some (Go.float64 10) /\
  r !! (Part004.hpaLastScaleSecond, label) = None.
Proof.
  cbv zeta.
  refine (reset_tick_shows_the_fields_of_each_autoscaler 30
            [Sample.webV2 [Sample.cpuTarget 80] [Sample.cpuCurrent 40] []]
            Part004.initial _ _ _ _).
  - apply NoDup_singleton.
  - left.
  - vm_compute. reflexivity.
Defined.

(** ** What a tick of main.go shows of each listed autoscaler *)

Lemma others_untouched_main (a : as_v1.HorizontalPodAutoscaler)
    (others : list as_v1.HorizontalPodAutoscaler) (c : Main.Collector) (s : Main.St) :
  Forall (fun a' => identityOf (as_v1.ObjectMeta a') <> identityOf (as_v1.ObjectMeta a))
         others ->
  registry (Go.range others Main.publishHpa s).2 !! (c, Main.labelOf a)
  = registry s !! (c, Main.labelOf a).
Proof.
  intros Hothers. rewrite Forall_forall in Hothers.
  refine (keeps_run (fun r _ => r !! (c, Main.labelOf a) = registry s !! (c, Main.labelOf a))
            (Go.range others Main.publishHpa) s _ eq_refl).
  keeps_peel. apply untouched_main. cbn [snd].
  intros [Hname Hns]. apply (Hothers _ ltac:(eassumption)).
  destruct (namesHpa_labelOf_main a) as [Hname' Hns'].
  rewrite Hname' in Hname. rewrite Hns' in Hns.
  unfold identityOf. congruence.
Qed.

Lemma main_tick_run (interval : Z) (hpa : list as_v1.HorizontalPodAutoscaler)
    (s : Main.St) :
  Main.metricsIteration interval {| out := Some hpa; err := None |} s
  = match Go.range hpa Main.publishHpa
            {| registry := registry s; cache := cache s;
               events := events s ++ [ListCall] |} with
    | (Go.Val _, s1) =>
        (Go.Val tt, {| registry := registry s1; cache := cache s1;
                       events := events s1 ++ [Sleep interval] |})
    | (Go.Panicked, s1) => (Go.Panicked, s1)
    end.
Proof.
  rewrite main_tick_listed, bind_run. unfold emit at 1, Go.modify at 1.
  rewrite bind_run.
  destruct (Go.range hpa Main.publishHpa _) as [[[]|] s1]; reflexivity.
Qed.

(** X18.  After a tick of main.go that returned, over a snapshot in which no
    two autoscalers share namespace and name: an autoscaler that has its
    minimum replicas, current and target utilization set shows all seven
    fields in the seven vectors (and has a last scale time, or the tick
    would have panicked); an autoscaler that lacks one of the three is
    skipped, and whatever the vectors held under its labels before the tick
    is still there, unchanged. *)
Theorem main_tick_shows_or_keeps_each_autoscaler :
  forall (interval : Z) (hpa : list as_v1.HorizontalPodAutoscaler)
         (s : Main.St) (a : as_v1.HorizontalPodAutoscaler),
    NoDup ((fun a => identityOf (as_v1.ObjectMeta a)) <$> hpa) ->
    a ∈ hpa ->
    let run := Main.metricsIteration interval {| out := Some hpa; err := None |} s in
    run.1 = Go.Val tt ->
    let r := registry run.2 in
    let label := Main.labelOf a in
    match as_v1.MinReplicas (as_v1.Spec a),
          as_v1.CurrentCPUUtilizationPercentage (as_v1.Status a),
          as_v1.TargetCPUUtilizationPercentage (as_v1.Spec a) with
    | Some minReplicas, Some currentCPU, Some targetCPU =>
        r !! (Main.hpaCurrentPodsNum, label)
        = Some (Go.float64 (as_v1.CurrentReplicas (as_v1.Status a))) /\
        r !! (Main.hpaDesiredPodsNum, label)
        = Some (Go.float64 (as_v1.DesiredReplicas (as_v1.Status a))) /\
        r !! (Main.hpaMinPodsNum, label) = Some (Go.float64 minReplicas) /\
        r !! (Main.hpaMaxPodsNum, label)
        = Some (Go.float64 (as_v1.MaxReplicas (as_v1.Spec a))) /\
        r !! (Main.hpaCurrentCpuPercentage, label) = Some (Go.float64 currentCPU) /\
        r !! (Main.hpaTargetCpuPercentage, label) = Some (Go.float64 targetCPU) /\
        exists t : meta_v1.Time,
          as_v1.LastScaleTime (as_v1.Status a) = Some t /\
          r !! (Main.hpaLastScaleSecond, label) = Some (Go.float64 (meta_v1.Unix t))
    | _, _, _ =>
        forall c : Main.Collector, r !! (c, label) = registry s !! (c, label)
    end.
Proof.
  intros interval hpa s a Hdistinct Ha. cbv zeta.
  apply list_elem_of_split in Ha as (pre & post & ->).
  assert (Forall (fun a' => identityOf (as_v1.ObjectMeta a')
                            <> identityOf (as_v1.ObjectMeta a)) pre /\
          Forall (fun a' => identityOf (as_v1.ObjectMeta a')
                            <> identityOf (as_v1.ObjectMeta a)) post) as [Hpre Hpost].
  { rewrite fmap_app, fmap_cons in Hdistinct.
    apply NoDup_app in Hdistinct as (_ & Hpre & Hrest).
    apply NoDup_cons in Hrest as [Hpost _].
    split; apply Forall_forall; intros a' Ha' Heq.
    - apply (Hpre (identityOf (as_v1.ObjectMeta a')));
        [apply (list_elem_of_fmap_2 (fun a => identityOf (as_v1.ObjectMeta a))); exact Ha'|].
      rewrite Heq. left.
    - apply Hpost. rewrite <- Heq.
      apply (list_elem_of_fmap_2 (fun a => identityOf (as_v1.ObjectMeta a))). exact Ha'. }
  rewrite main_tick_run.
  set (s0 := {| registry := registry s; cache := cache s;
                events := events s ++ [ListCall] |}).
  rewrite range_app_run.
  pose proof (fun c => others_untouched_main a pre c s0 Hpre) as Hbefore.
  destruct (Go.range pre Main.publishHpa s0) as [[[]|] s1];
    [|intros Hres; discriminate Hres].
  rewrite range_cons_run.
  pose proof (publishHpa_main_panicsIff a s1) as Hpanics.
  unfold guardedUnscaled in Hpanics.
  pose proof (publishHpa_main_published a s1) as Hpublished.
  pose proof (publishHpa_main_suppressed a s1) as Hsuppressed.
  destruct (Main.publishHpa a s1) as [[[]|] s2] eqn:Hrun;
    [|intros Hres; discriminate Hres].
  pose proof (fun c => others_untouched_main a post c s2 Hpost) as Hafter.
  destruct (Go.range post Main.publishHpa s2) as [[[]|] s3];
    [|intros Hres; discriminate Hres].
  intros _. cbn [fst snd registry] in *.
  destruct (as_v1.MinReplicas (as_v1.Spec a)) as [minReplicas|];
    [|intros c; rewrite Hafter;
      injection (Hsuppressed (or_introl eq_refl)) as <-; apply Hbefore].
  destruct (as_v1.CurrentCPUUtilizationPercentage (as_v1.Status a)) as [currentCPU|];
    [|intros c; rewrite Hafter;
      injection (Hsuppressed (or_intror (or_introl eq_refl))) as <-; apply Hbefore].
  destruct (as_v1.TargetCPUUtilizationPercentage (as_v1.Spec a)) as [targetCPU|];
    [|intros c; rewrite Hafter;
      injection (Hsuppressed (or_intror (or_intror eq_refl))) as <-; apply Hbefore].
  destruct (as_v1.LastScaleTime (as_v1.Status a)) as [t|] eqn:Hlast.
  - destruct (Hpublished minReplicas currentCPU targetCPU t eq_refl eq_refl eq_refl eq_refl)
      as (_ & H1 & H2 & H3 & H4 & H5 & H6 & H7).
    unfold published in *. rewrite !Hafter.
    split_ands; try assumption. exists t. split; [reflexivity | exact H7].
  - exfalso. assert (Go.Val tt = Go.Panicked) as Habsurd; [|discriminate Habsurd].
    apply Hpanics. split_ands; solve [eexists; reflexivity | reflexivity].
Qed.

(** A newly created autoscaler has no measured utilization: the tick skips
    it, and the series it had keeps the value of an earlier tick. *)
Lemma main_tick_shows_or_keeps_each_autoscaler_witness :
  let a := Sample.fresh "prod" in
  let s : Main.St :=
    {| registry := {[ (Main.hpaCurrentPodsNum, Main.labelOf a) := Go.float64 7 ]};
       cache := tt; events := [] |} in
  registry (Main.metricsIteration 30 {| out := Some [a]; err := None |} s).2
  !! (Main.hpaCurrentPodsNum, Main.labelOf a) = registry s !! (Main.hpaCurrentPodsNum, Main.labelOf a).
Proof.
  cbv zeta.
  refine (main_tick_shows_or_keeps_each_autoscaler 30 [Sample.fresh "prod"] _
            (Sample.fresh "prod") _ _ _ Main.hpaCurrentPodsNum).
  - apply NoDup_singleton.
  - left.
  - reflexivity.
Defined.

(** ** A tick of part_004 is a function of the snapshot *)

(** X19.  What a tick of part_004 does over a listed snapshot depends on the
    snapshot alone: whether it returns or panics, and the registry it
    leaves, are the same whatever the registry held before, whatever was
    recorded before and whatever the interval; so every tick over the same
    snapshot leaves the same series with the same values. *)
Theorem reset_tick_depends_on_the_snapshot_alone :
  forall (interval interval' : Z) (hpa : list as_v2.HorizontalPodAutoscaler)
         (s s' : Part004.St),
    let run := Part004.metricsIteration interval {| out := Some hpa; err := None |} s in
    let run' := Part004.metricsIteration interval' {| out := Some hpa; err := None |} s' in
    run.1 = run'.1 /\ registry run.2 = registry run'.2.
Proof.
  intros interval interval' hpa s s'. cbv zeta. rewrite !part004_tick_run.
  destruct (dataOnly_range hpa Part004.publishHpa dataOnly_publishHpa_004
              {| registry := ∅; cache := cache s; events := events s ++ [ListCall] |}
              {| registry := ∅; cache := cache s'; events := events s' ++ [ListCall] |})
    as (Hres & Hregistry & _).
  { split; cbn; [reflexivity | destruct (cache s), (cache s'); reflexivity]. }
  destruct (Go.range hpa Part004.publishHpa _) as [[[]|] s1],
           (Go.range hpa Part004.publishHpa _) as [[[]|] s2];
    cbn in Hres |- *; try discriminate Hres; split; solve [reflexivity | exact Hregistry].
Qed.
